(** * Stacks.c, the native half of [org.netbeans.lib.profiler.server.system.Stacks]

    A shallow embedding of
    [profiler/lib.profiler/native/src-jdk15/Stacks.c] and the properties of
    its frame buffers, its packed method-name encoder and its all-threads
    snapshot.

    The C code talks to three worlds, each modelled below:
    - the C runtime ([Module C]): [int] arithmetic, [malloc]/[calloc]/[free],
      [memcpy], [strlen], [strncpy] on buffers that may be [NULL];
    - the Java heap seen through JNI ([Module JNI]): arrays addressed by
      references, so that an array stored in a holder and filled afterwards
      is the same object;
    - the JVMTI environment ([Module JVMTI]): the lookups and stack walks of
      the monitored runtime, taken as given functions.

    Undefined behaviour of the C program and a Java exception left pending
    are both results of type [C.Fault]. What is printed on [stderr] is not
    part of the model; what the program reads in order to print it is. *)

From Stdlib Require Import ZArith Ascii String.
From stdpp Require Import base numbers list option gmap strings.

Local Open Scope Z_scope.

(** ** The C runtime *)

Module C.

Inductive fault : Type :=
| NullDereference
| OutOfBounds
| UninitialisedRead
| UseAfterFree
| DoubleFree
| JavaException
| AssertionFailure.

Inductive res (A : Type) : Type :=
| Ok (a : A)
| Fault (f : fault).
Arguments Ok {A} a.
Arguments Fault {A} f.

(** Code that reads and writes a state [S] and may fault. *)
Definition exec (S A : Type) : Type := S -> res (A * S).

Definition pure {S A} (a : A) : exec S A := fun s => Ok (a, s).

Definition bind {S A B} (m : exec S A) (k : A -> exec S B) : exec S B :=
  fun s => match m s with
           | Ok (a, s') => k a s'
           | Fault f => Fault f
           end.

Definition get {S} : exec S S := fun s => Ok (s, s).
Definition put {S} (s : S) : exec S unit := fun _ => Ok (tt, s).
Definition gets {S A} (f : S -> A) : exec S A := fun s => Ok (f s, s).
Definition modify {S} (f : S -> S) : exec S unit := fun s => Ok (tt, f s).
Definition raise {S A} (f : fault) : exec S A := fun _ => Fault f.

Definition lift {S A} (r : res A) : exec S A :=
  fun s => match r with Ok a => Ok (a, s) | Fault f => Fault f end.

(** [for (i = lo; i < hi; i++) body], where [acc] stands for the local
    variables that the body updates. *)
Fixpoint for_steps {S A} (n : nat) (i : Z) (acc : A) (body : Z -> A -> exec S A)
  : exec S A :=
  match n with
  | O => pure acc
  | Datatypes.S n' => bind (body i acc) (fun acc' => for_steps n' (i + 1) acc' body)
  end.

Definition for_loop {S A} (lo hi : Z) (acc : A) (body : Z -> A -> exec S A) : exec S A :=
  for_steps (Z.to_nat (hi - lo)) lo acc body.

(** *** [int] and [size_t] *)

Definition INT_MAX : Z := 2 ^ 31 - 1.
Definition INT_MIN : Z := - 2 ^ 31.
Definition PTRDIFF_MAX : Z := 2 ^ 63 - 1.

(** 32-bit two's complement wrap-around of [int] and [jint] arithmetic. *)
Definition int_wrap (z : Z) : Z := (z + 2 ^ 31) `mod` 2 ^ 32 - 2 ^ 31.
Definition int_add (a b : Z) : Z := int_wrap (a + b).
Definition int_mul (a b : Z) : Z := int_wrap (a * b).

(** Conversion of an integer to [size_t] (64 bits, unsigned). *)
Definition size_t_of (z : Z) : Z := z `mod` 2 ^ 64.
Definition size_t_mul (a b : Z) : Z := (a * b) `mod` 2 ^ 64.

(** Reinterpretation of 64 bits as signed ([jlong]) or unsigned (pointer). *)
Definition int64_wrap (z : Z) : Z := (z + 2 ^ 63) `mod` 2 ^ 64 - 2 ^ 63.
Definition uint64_wrap (z : Z) : Z := z `mod` 2 ^ 64.

(** *** Buffers

    A pointer to an array is [NULL], or owns its cells, or is left
    dangling by [free]; a cell that was never written holds [None]. *)

Inductive ptr (A : Type) : Type :=
| NULL
| Buf (cells : list (option A))
| Dangling.
Arguments NULL {A}.
Arguments Buf {A} cells.
Arguments Dangling {A}.

Definition is_null {A} (p : ptr A) : bool :=
  match p with NULL => true | _ => false end.

(** The cells behind [p]; none behind [NULL] or a dangling pointer,
    and touching one is a fault. *)
Definition deref {A} (p : ptr A) : res (list (option A)) :=
  match p with
  | NULL => Fault NullDereference
  | Buf cs => Ok cs
  | Dangling => Fault UseAfterFree
  end.

(** The allocator answers each request, given in bytes, with a block or
    with [NULL]; which one is up to the memory left, so it is a
    parameter of the code that allocates. No allocator serves a request
    above [PTRDIFF_MAX]. *)
Definition allocator : Type := Z -> bool.

(** The allocator of a run that never exhausts memory. *)
Definition unbounded : allocator := fun _ => true.

(** The allocator when no memory is left. *)
Definition exhausted : allocator := fun _ => false.

(** [malloc(bytes)] for an array of elements of [elem_size] bytes; the
    cells are uninitialised. *)
Definition malloc {A} (grants : allocator) (elem_size bytes : Z) : ptr A :=
  if grants bytes && (bytes <=? PTRDIFF_MAX)
  then Buf (replicate (Z.to_nat (bytes `div` elem_size)) None)
  else NULL.

(** [calloc(nmemb, size)]: as [malloc], with every cell zeroed. *)
Definition calloc {A} (grants : allocator) (zero : A) (nmemb size : Z) : ptr A :=
  if grants (nmemb * size) && (nmemb * size <=? PTRDIFF_MAX)
  then Buf (replicate (Z.to_nat nmemb) (Some zero))
  else NULL.

(** [free(p)]: nothing for [NULL]; otherwise the cells are gone and
    what the caller holds is a dangling pointer. *)
Definition free {A} (p : ptr A) : res (ptr A) :=
  match p with
  | NULL => Ok NULL
  | Buf _ => Ok Dangling
  | Dangling => Fault DoubleFree
  end.

(** A pointer that owns no memory: [NULL], or what [free] left behind. *)
Definition released {A} (p : ptr A) : Prop :=
  match p with Buf _ => False | _ => True end.

(** The number of cells of the block behind [p]; none behind [NULL]. *)
Definition block_size {A} (p : ptr A) : Z :=
  match p with Buf cells => Z.of_nat (length cells) | _ => 0 end.

(** [p[i]] as an rvalue. *)
Definition load {A} (p : ptr A) (i : Z) : res A :=
  match deref p with
  | Fault f => Fault f
  | Ok cs =>
      if (i <? 0) then Fault OutOfBounds
      else match cs !! Z.to_nat i with
           | None => Fault OutOfBounds
           | Some None => Fault UninitialisedRead
           | Some (Some v) => Ok v
           end
  end.

(** [p[i] = v] *)
Definition store {A} (p : ptr A) (i : Z) (v : A) : res (ptr A) :=
  match deref p with
  | Fault f => Fault f
  | Ok cs =>
      if (i <? 0) || (Z.of_nat (length cs) <=? i) then Fault OutOfBounds
      else Ok (Buf (<[Z.to_nat i := Some v]> cs))
  end.

(** Overwrite the cells [ofs .. ofs + |new|) of [p]. Writing nothing
    touches nothing, whatever [p] is. *)
Definition write_cells {A} (p : ptr A) (ofs : Z) (new : list (option A)) : res (ptr A) :=
  match new with
  | [] => Ok p
  | _ =>
      match deref p with
      | Fault f => Fault f
      | Ok cs =>
          if (ofs <? 0) || (Z.of_nat (length cs) <? ofs + Z.of_nat (length new))
          then Fault OutOfBounds
          else Ok (Buf (take (Z.to_nat ofs) cs ++ new
                          ++ drop (Z.to_nat ofs + length new) cs))
      end
  end.

(** The first [n] cells of [p], initialised or not. Reading nothing
    touches nothing. *)
Definition read_cells {A} (p : ptr A) (n : Z) : res (list (option A)) :=
  if n <=? 0 then Ok []
  else match deref p with
       | Fault f => Fault f
       | Ok cs =>
           if Z.of_nat (length cs) <? n then Fault OutOfBounds
           else Ok (take (Z.to_nat n) cs)
       end.

(** [memcpy(dst, src, n)] *)
Definition memcpy {A} (dst src : ptr A) (n : Z) : res (ptr A) :=
  match read_cells src n with
  | Ok cs => write_cells dst 0 cs
  | Fault f => Fault f
  end.

(** The first [n] cells of [p] as values; all of them must have been
    written. *)
Definition read_values {A} (p : ptr A) (n : Z) : res (list A) :=
  match read_cells p n with
  | Ok cs => match mapM id cs with
             | Some vs => Ok vs
             | None => Fault UninitialisedRead
             end
  | Fault f => Fault f
  end.

(** *** Strings

    A [char *] is the memory from the pointer onwards, which holds the
    characters of the string and then a NUL. *)

Definition NUL : ascii := Ascii.zero.

Abbreviation cstring := (list ascii) (only parsing).

Fixpoint chars (s : cstring) : list ascii :=
  match s with
  | [] => []
  | c :: s' => if Ascii.eqb c NUL then [] else c :: chars s'
  end.

Fixpoint terminated (s : cstring) : bool :=
  match s with
  | [] => false
  | c :: s' => if Ascii.eqb c NUL then true else terminated s'
  end.

(** A string literal or a string handed out by the runtime. *)
Definition literal (s : string) : cstring := list_ascii_of_string s ++ [NUL].

(** [strlen(s)]; running off the end of the memory is a fault. *)
Definition strlen (s : cstring) : res Z :=
  if terminated s then Ok (Z.of_nat (length (chars s))) else Fault OutOfBounds.

(** [s[i]] *)
Definition char_at (s : cstring) (i : Z) : res ascii :=
  if i <? 0 then Fault OutOfBounds
  else match s !! Z.to_nat i with
       | Some c => Ok c
       | None => Fault OutOfBounds
       end.

(** [s[i] = c] *)
Definition set_char (s : cstring) (i : Z) (c : ascii) : res cstring :=
  if (i <? 0) || (Z.of_nat (length s) <=? i) then Fault OutOfBounds
  else Ok (<[Z.to_nat i := c]> s).

(** What [strncpy(dst, s, n)] writes: the characters of [s], then NULs
    up to [n] in all. *)
Definition strncpy_image (s : cstring) (n : Z) : list ascii :=
  take (Z.to_nat n) (chars s ++ replicate (Z.to_nat n) NUL).

(** [strncpy(dst + ofs, s, n)] *)
Definition strncpy (dst : ptr ascii) (ofs : Z) (s : cstring) (n : Z) : res (ptr ascii) :=
  write_cells dst ofs (Some <$> strncpy_image s n).

End C.

Notation "'do' x <- m ; k" := (C.bind m (fun x => k))
  (at level 10, x name, m at level 100, k at level 200, only parsing).
Notation "m ;; k" := (C.bind m (fun _ => k))
  (at level 100, k at level 200, right associativity, only parsing).

(** ** What the outside sees: calls into JNI and JVMTI, in order *)

Inductive event : Type :=
| JniNewArray (r : N)
| JniSetObjectArrayElement (array : N) (index : Z) (value : N)
| JniSetIntArrayRegion (array : N) (start len : Z)
| JniSetLongArrayRegion (array : N) (start len : Z)
| JniSetByteArrayRegion (array : N) (start len : Z)
| JniGetLongArrayRegion (array : N) (start len : Z)
| JvmtiGetFrameCount (thread : N)
| JvmtiGetStackTrace (thread : N) (start_depth max_frame_count : Z)
| JvmtiGetMethodDeclaringClass (method : Z)
| JvmtiGetClassSignature (klass : N)
| JvmtiGetMethodName (method : Z)
| JvmtiIsMethodNative (method : Z)
| JvmtiGetAllStackTraces (max_frame_count : Z)
| JvmtiDeallocate (mem : Z).

(** ** The Java heap behind JNI *)

Module JNI.

(** A reference; [null] refers to nothing. *)
Abbreviation jobject := N (only parsing).
Definition null : jobject := 0%N.

(** A class reference: [None] is [NULL], [Some d] the class of
    descriptor [d]. *)
Abbreviation jclass := (option string) (only parsing).

Inductive object : Type :=
| Instance (class : string)
| ObjectArray (elementClass : string) (elems : list jobject)
| IntArray (elems : list Z)
| LongArray (elems : list Z)
| ByteArray (elems : list ascii).

(** The native code runs in a world made of its own static variables
    [G], the Java heap and the calls made so far. *)
Record world (G : Type) : Type := World {
  globals : G;
  heap : gmap N object;
  trace : list event
}.
Arguments World {G} globals heap trace.
Arguments globals {G} w.
Arguments heap {G} w.
Arguments trace {G} w.

Section calls.
Context {G : Type}.
Local Abbreviation call := (C.exec (world G)).

Definition log (e : event) : call unit :=
  C.modify (fun w => World (globals w) (heap w) (trace w ++ [e])).

Definition read_globals : call G := C.gets globals.

Definition write_globals (g : G) : call unit :=
  C.modify (fun w => World g (heap w) (trace w)).

(** Run code that only touches the static variables. *)
Definition on_globals {A} (m : C.exec G A) : call A :=
  fun w => match m (globals w) with
           | C.Ok (a, g) => C.Ok (a, World g (heap w) (trace w))
           | C.Fault f => C.Fault f
           end.

(** The reference that the next allocation in heap [h] returns: one
    that is not [null] and refers to nothing yet. *)
Definition fresh_ref (h : gmap N object) : jobject := fresh ({[null]} ∪ dom h).

(** The world after a call [e] that created or replaced object [r]. *)
Definition updated (w : world G) (r : jobject) (o : object) (e : event) : world G :=
  World (globals w) (<[r := o]> (heap w)) (trace w ++ [e]).

Definition new_object (o : object) : call jobject :=
  fun w =>
    let r := fresh_ref (heap w) in
    C.Ok (r, updated w r o (JniNewArray r)).

(** [FindClass]; the two classes looked up here, [java/lang/Thread]
    and [[J], exist in every runtime. *)
Definition FindClass (name : string) : call jclass := C.pure (Some name).

Definition NewGlobalRef (c : jclass) : call jclass := C.pure c.

Definition NewObjectArray (len : Z) (elementClass : jclass) (init : jobject)
  : call jobject :=
  match elementClass with
  | None => C.raise C.NullDereference
  | Some c =>
      if len <? 0 then C.raise C.JavaException
      else new_object (ObjectArray c (replicate (Z.to_nat len) init))
  end.

Definition NewIntArray (len : Z) : call jobject :=
  if len <? 0 then C.raise C.JavaException
  else new_object (IntArray (replicate (Z.to_nat len) 0)).

Definition NewLongArray (len : Z) : call jobject :=
  if len <? 0 then C.raise C.JavaException
  else new_object (LongArray (replicate (Z.to_nat len) 0)).

Definition NewByteArray (len : Z) : call jobject :=
  if len <? 0 then C.raise C.JavaException
  else new_object (ByteArray (replicate (Z.to_nat len) C.NUL)).

Definition update (r : jobject) (o : object) (e : event) : call unit :=
  C.modify (fun w => updated w r o e).

(** [array[index] = value]; an index outside the array throws. *)
Definition SetObjectArrayElement (array : jobject) (index : Z) (value : jobject)
  : call unit :=
  do w <- C.get;
  match heap w !! array with
  | Some (ObjectArray c elems) =>
      if (index <? 0) || (Z.of_nat (length elems) <=? index)
      then C.raise C.JavaException
      else update array (ObjectArray c (<[Z.to_nat index := value]> elems))
             (JniSetObjectArrayElement array index value)
  | _ => C.raise C.NullDereference
  end.

(** The elements [start .. start + |new|) of [elems] replaced by [new]. *)
Definition splice {A} (start : Z) (new elems : list A) : list A :=
  take (Z.to_nat start) elems ++ new ++ drop (Z.to_nat start + length new) elems.

Definition region_ok {A} (start len : Z) (elems : list A) : bool :=
  (0 <=? start) && (0 <=? len) && (start + len <=? Z.of_nat (length elems)).

(** [Set<Type>ArrayRegion(array, start, len, buf)]: a region outside
    the array throws and copies nothing. *)
Definition SetIntArrayRegion (array : jobject) (start len : Z) (buf : C.ptr Z)
  : call unit :=
  do w <- C.get;
  match heap w !! array with
  | Some (IntArray elems) =>
      if region_ok start len elems then
        do vs <- C.lift (C.read_values buf len);
        update array (IntArray (splice start vs elems))
          (JniSetIntArrayRegion array start len)
      else C.raise C.JavaException
  | _ => C.raise C.NullDereference
  end.

Definition SetLongArrayRegion (array : jobject) (start len : Z) (buf : C.ptr Z)
  : call unit :=
  do w <- C.get;
  match heap w !! array with
  | Some (LongArray elems) =>
      if region_ok start len elems then
        do vs <- C.lift (C.read_values buf len);
        update array (LongArray (splice start vs elems))
          (JniSetLongArrayRegion array start len)
      else C.raise C.JavaException
  | _ => C.raise C.NullDereference
  end.

Definition SetByteArrayRegion (array : jobject) (start len : Z) (buf : C.ptr ascii)
  : call unit :=
  do w <- C.get;
  match heap w !! array with
  | Some (ByteArray elems) =>
      if region_ok start len elems then
        do vs <- C.lift (C.read_values buf len);
        update array (ByteArray (splice start vs elems))
          (JniSetByteArrayRegion array start len)
      else C.raise C.JavaException
  | _ => C.raise C.NullDereference
  end.

(** [GetLongArrayRegion(array, start, len, buf)]; the result is [buf]
    after the copy. *)
Definition GetLongArrayRegion (array : jobject) (start len : Z) (buf : C.ptr Z)
  : call (C.ptr Z) :=
  do w <- C.get;
  match heap w !! array with
  | Some (LongArray elems) =>
      if region_ok start len elems then
        log (JniGetLongArrayRegion array start len);;
        C.lift (C.write_cells buf 0
                  (Some <$> take (Z.to_nat len) (drop (Z.to_nat start) elems)))
      else C.raise C.JavaException
  | _ => C.raise C.NullDereference
  end.

End calls.

End JNI.

(** ** The JVMTI environment *)

Module JVMTI.

Abbreviation jvmtiError := Z (only parsing).
Definition JVMTI_ERROR_NONE : jvmtiError := 0.

(** A method handle is a pointer, 64 unsigned bits. *)
Abbreviation jmethodID := Z (only parsing).

Record jvmtiFrameInfo : Type := FrameInfo {
  method : jmethodID;
  location : Z
}.

Record jvmtiStackInfo : Type := StackInfo {
  thread : JNI.jobject;
  state : Z;
  frame_buffer : list jvmtiFrameInfo;
  frame_count : Z
}.

(** The functions of [_jvmti] that Stacks.c calls. Each returns its
    error code and what it writes through its output pointers; when the
    code is not [JVMTI_ERROR_NONE] nothing is written and the caller's
    variables keep what they held. Strings are given by their
    characters; in memory a NUL follows them. *)
Record jvmtiEnv : Type := Env {
  GetFrameCount : JNI.jobject -> jvmtiError * Z;
  GetStackTrace : JNI.jobject -> Z -> Z -> jvmtiError * list jvmtiFrameInfo;
  GetMethodDeclaringClass : jmethodID -> jvmtiError * JNI.jobject;
  GetClassSignature : JNI.jobject -> jvmtiError * string;
  GetMethodName : jmethodID -> jvmtiError * (string * string);
  IsMethodNative : jmethodID -> jvmtiError * bool;
  GetAllStackTraces : Z -> jvmtiError * (Z * list jvmtiStackInfo * Z);
  Deallocate : Z -> jvmtiError;
  (** [*((int* )handle)], the first word behind a class handle *)
  peek_int : JNI.jobject -> Z;
  (** [*(int* )methodID], the first word behind a method handle, where
      the handle is the address of memory that can be read *)
  peek_method : jmethodID -> option Z
}.

Definition succeeded (e : jvmtiError) : bool := e =? JVMTI_ERROR_NONE.

(** Where the runtime puts the strings that it hands out for a class
    and for a method; 0 is [NULL], which is what a generic signature
    that does not exist comes back as. *)
Record jvmtiStrings : Type := Strings {
  className_at : JNI.jobject -> Z;
  genericSignature_at : JNI.jobject -> Z;
  methodName_at : jmethodID -> Z;
  methodSig_at : jmethodID -> Z;
  genericMethodSig_at : jmethodID -> Z
}.

End JVMTI.

(** ** Stacks.c *)

Module Stacks.
Import JNI JVMTI.

Definition MAX_FRAMES : Z := 16384.
Definition PACKEDARR_ITEMS : Z := 4.

Definition sizeof_jvmtiFrameInfo : Z := 16.
Definition sizeof_jlong : Z := 8.
Definition sizeof_jint : Z := 4.

Definition JNI_FALSE : bool := false.

(** [static jvmtiFrameInfo *_stack_frames_buffer; static jlong *_stack_id_buffer;] *)
Record frame_buffers : Type := FrameBuffers {
  _stack_frames_buffer : C.ptr jvmtiFrameInfo;
  _stack_id_buffer : C.ptr Z
}.

(** [static jclass threadType, longArrType;] *)
Record class_cache : Type := ClassCache {
  threadType : jclass;
  longArrType : jclass
}.

(** A call that [copy_into_data_array] makes to the C heap: the bytes
    asked of [malloc], the bytes moved by [memcpy], and for [free] the
    size of the block behind its argument, 0 for [NULL]. *)
Inductive heap_call : Type :=
| Malloc (bytes : Z)
| Memcpy (bytes : Z)
| Free (bytes : Z).

(** [static jbyte *byteData; static jint *strOffsets;
     static int byteDataLen, dataOfs, ofsIdx;]

    [heap_calls] is no variable of the program: it keeps the calls that
    [copy_into_data_array] has made to the C heap since the statics
    were set up, the oldest first. *)
Record packed_store : Type := PackedStore {
  byteData : C.ptr ascii;
  strOffsets : C.ptr Z;
  byteDataLen : Z;
  dataOfs : Z;
  ofsIdx : Z;
  heap_calls : list heap_call
}.

(** At program start every static pointer is [NULL]. *)
Definition no_frame_buffers : frame_buffers := FrameBuffers C.NULL C.NULL.
Definition no_classes : class_cache := ClassCache None None.

(** [(jlong) jmethod] *)
Definition convert_jmethodID_to_jlong (jmethod : jmethodID) : Z :=
  C.int64_wrap jmethod.

(** [(jmethodID) method] *)
Definition convert_jlong_to_jmethodID (method : Z) : jmethodID :=
  C.uint64_wrap method.

(** *** Frame buffers *)

Definition Java_org_netbeans_lib_profiler_server_system_Stacks_clearNativeStackFrameBuffer
  : C.exec frame_buffers unit :=
  do g <- C.get;
  (if negb (C.is_null (_stack_frames_buffer g)) then
     do freed <- C.lift (C.free (_stack_frames_buffer g));
     C.put (FrameBuffers freed (_stack_id_buffer g))
   else C.pure tt);;
  do g <- C.get;
  (if negb (C.is_null (_stack_id_buffer g)) then
     do freed <- C.lift (C.free (_stack_id_buffer g));
     C.put (FrameBuffers (_stack_frames_buffer g) freed)
   else C.pure tt);;
  do g <- C.get;
  C.put (FrameBuffers C.NULL (_stack_id_buffer g));;
  do g <- C.get;
  C.put (FrameBuffers (_stack_frames_buffer g) C.NULL).

Definition Java_org_netbeans_lib_profiler_server_system_Stacks_createNativeStackFrameBuffer
  (grants : C.allocator) (sizeInFrames : Z) : C.exec frame_buffers unit :=
  do g <- C.get;
  (if negb (C.is_null (_stack_frames_buffer g))
   then Java_org_netbeans_lib_profiler_server_system_Stacks_clearNativeStackFrameBuffer
   else C.pure tt);;
  do g <- C.get;
  C.put (FrameBuffers
           (C.calloc grants (FrameInfo 0 0) (C.size_t_of sizeInFrames)
              sizeof_jvmtiFrameInfo)
           (_stack_id_buffer g));;
  do g <- C.get;
  C.put (FrameBuffers (_stack_frames_buffer g)
           (C.calloc grants 0 (C.size_t_of sizeInFrames) sizeof_jlong)).

Section with_jvmti.
(** [_jvmti], the environment every function below calls into, and
    where it puts the strings it hands out. *)
Variable _jvmti : jvmtiEnv.
Variable strings : jvmtiStrings.

Definition set_stack_frames_buffer (p : C.ptr jvmtiFrameInfo)
  : C.exec (world frame_buffers) unit :=
  do g <- read_globals; write_globals (FrameBuffers p (_stack_id_buffer g)).

Definition set_stack_id_buffer (p : C.ptr Z) : C.exec (world frame_buffers) unit :=
  do g <- read_globals; write_globals (FrameBuffers (_stack_frames_buffer g) p).

(** A local that is read before anything was assigned to it. *)
Definition initialised {S A} (v : option A) : C.exec S A :=
  match v with Some a => C.pure a | None => C.raise C.UninitialisedRead end.

Definition Java_org_netbeans_lib_profiler_server_system_Stacks_getCurrentJavaStackDepth
  {G} (jni_thread : jobject) : C.exec (world G) Z :=
  (* GetFrameCount(_jvmti, jni_thread, &count); its error code is dropped *)
  log (JvmtiGetFrameCount jni_thread);;
  let '(err, frames) := GetFrameCount _jvmti jni_thread in
  let count := if succeeded err then Some frames else None in
  initialised count.

(** [ret] is declared [jintArray]; what is called on it is
    [SetLongArrayRegion], so the array behind it is a [long[]]. *)
Definition Java_org_netbeans_lib_profiler_server_system_Stacks_getCurrentStackFrameIds
  (jni_thread : jobject) (depth : Z) (ret : jobject)
  : C.exec (world frame_buffers) Z :=
  do g <- read_globals;
  if C.is_null (_stack_frames_buffer g) then
    (* Can happen if profiling stopped concurrently *)
    C.pure 0
  else
    (* GetStackTrace(_jvmti, jni_thread, 0, depth, _stack_frames_buffer, &count);
       its error code is dropped *)
    log (JvmtiGetStackTrace jni_thread 0 depth);;
    let '(err, walked) := GetStackTrace _jvmti jni_thread 0 depth in
    do frames <- C.lift (if succeeded err
                         then C.write_cells (_stack_frames_buffer g) 0 (Some <$> walked)
                         else C.Ok (_stack_frames_buffer g));
    set_stack_frames_buffer frames;;
    let count := if succeeded err then Some (Z.of_nat (length walked)) else None in
    do count <- initialised count;
    C.for_loop 0 count tt (fun i _ =>
      do g <- read_globals;
      do frame <- C.lift (C.load (_stack_frames_buffer g) i);
      do ids <- C.lift (C.store (_stack_id_buffer g) i
                          (convert_jmethodID_to_jlong (method frame)));
      set_stack_id_buffer ids);;
    do g <- read_globals;
    SetLongArrayRegion ret 0 count (_stack_id_buffer g);;
    C.pure count.

(** *** The packed method names *)

Section with_allocator.
Variable grants : C.allocator.

Definition heap_call_made (c : heap_call) : C.exec packed_store unit :=
  C.modify (fun st => PackedStore (byteData st) (strOffsets st) (byteDataLen st)
                        (dataOfs st) (ofsIdx st) (heap_calls st ++ [c])).

(** [malloc], [memcpy] and [free] as [copy_into_data_array] calls them:
    the call is made and kept in [heap_calls]. *)
Definition heap_malloc (bytes : Z) : C.exec packed_store (C.ptr ascii) :=
  heap_call_made (Malloc bytes);;
  C.pure (C.malloc grants 1 bytes).

Definition heap_memcpy (dst src : C.ptr ascii) (n : Z)
  : C.exec packed_store (C.ptr ascii) :=
  do copied <- C.lift (C.memcpy dst src n);
  heap_call_made (Memcpy n);;
  C.pure copied.

Definition heap_free (p : C.ptr ascii) : C.exec packed_store (C.ptr ascii) :=
  do freed <- C.lift (C.free p);
  heap_call_made (Free (C.block_size p));;
  C.pure freed.

Definition copy_into_data_array (s : C.cstring) : C.exec packed_store unit :=
  do n <- C.lift (C.strlen s);
  let len := C.int_wrap n in
  do st <- C.get;
  (if C.int_add (dataOfs st) len >? byteDataLen st then
     let oldByteData := byteData st in
     let newLen := C.int_mul (byteDataLen st) 2 in
     let newLen :=
       if newLen <? C.int_add (dataOfs st) len
       then C.int_add (dataOfs st) len else newLen in
     do fresh <- heap_malloc (C.size_t_of newLen);
     do copied <- heap_memcpy fresh oldByteData (C.size_t_of (dataOfs st));
     do _ <- heap_free oldByteData;
     C.modify (fun st => PackedStore copied (strOffsets st) newLen (dataOfs st)
                           (ofsIdx st) (heap_calls st))
   else C.pure tt);;
  do st <- C.get;
  do written <- C.lift (C.strncpy (byteData st) (dataOfs st) s (C.size_t_of len));
  do offsets <- C.lift (C.store (strOffsets st) (ofsIdx st) (dataOfs st));
  C.put (PackedStore written offsets (byteDataLen st)
           (C.int_add (dataOfs st) len) (C.int_add (ofsIdx st) 1) (heap_calls st)).

Definition copy_dummy_names_into_data_array : C.exec packed_store unit :=
  copy_into_data_array (C.literal "<unknown class>");;
  copy_into_data_array (C.literal "<unknown method>");;
  copy_into_data_array (C.literal "()V");;
  copy_into_data_array (C.literal "0").

(** Lines 250 to 256: the class signature goes in without its
    [L] and [;] when it has both. The second test is only made when
    the first holds. *)
Definition copy_class_name (className : C.cstring) : C.exec packed_store unit :=
  do n <- C.lift (C.strlen className);
  let len := C.int_wrap n in
  do first <- C.lift (C.char_at className 0);
  do wrapped <-
    (if Ascii.eqb first "L" then
       do last <- C.lift (C.char_at className (len - 1));
       C.pure (Ascii.eqb last ";")
     else C.pure false);
  if wrapped : bool then
    do className <- C.lift (C.set_char className (len - 1) C.NUL);
    copy_into_data_array (drop 1 className)
  else
    copy_into_data_array className.

(** [*(int* )methodID]: a null dereference for the [NULL] handle, and
    a read outside of every object for a handle that is not the address
    of memory. *)
Definition method_word {S} (methodID : jmethodID) : C.exec S Z :=
  if methodID =? 0 then C.raise C.NullDereference
  else match peek_method _jvmti methodID with
       | Some word => C.pure word
       | None => C.raise C.OutOfBounds
       end.

(** [*((int* )declaringClass)] for a class handle that the runtime has
    handed out. *)
Definition class_word {S} (declaringClass : jobject) : C.exec S Z :=
  C.pure (peek_int _jvmti declaringClass).

(** [Deallocate(_jvmti, mem)]; its error code is dropped. *)
Definition release {G} (mem : Z) : C.exec (world G) unit :=
  log (JvmtiDeallocate mem).

(** [if (mem != NULL) Deallocate(_jvmti, mem)] *)
Definition release_unless_null {G} (mem : Z) : C.exec (world G) unit :=
  if mem =? 0 then C.pure tt else release mem.

(** One round of the loop over the method ids, lines 198 to 273.
    [declaringClass] is a local of the round without an initial value;
    it has one when [GetMethodDeclaringClass] has succeeded. *)
Definition resolve_method_and_release (methodID : jmethodID)
  : C.exec (world packed_store) unit :=
  log (JvmtiGetMethodDeclaringClass methodID);;
  let '(res, handle) := GetMethodDeclaringClass _jvmti methodID in
  let declaringClass := if succeeded res then Some handle else None in
  if negb (succeeded res)
     || ((handle =? null)%N
     || (peek_int _jvmti handle =? 0)) (* Also a bug workaround *)
  then
    (* the warning prints methodID and *(int* )methodID, then
       declaringClass and, when that is not NULL, *((int* )declaringClass) *)
    do _ <- method_word methodID;
    do declaringClass <- initialised declaringClass;
    (if negb (declaringClass =? null)%N
     then do _ <- class_word declaringClass; C.pure tt
     else C.pure tt);;
    on_globals copy_dummy_names_into_data_array (* continue *)
  else
    log (JvmtiGetClassSignature handle);;
    let '(res, className) := GetClassSignature _jvmti handle in
    if negb (succeeded res)
    then on_globals copy_dummy_names_into_data_array (* continue *)
    else
      log (JvmtiGetMethodName methodID);;
      let '(res, (methodName, methodSig)) := GetMethodName _jvmti methodID in
      if negb (succeeded res)
      then on_globals copy_dummy_names_into_data_array (* continue *)
      else
        log (JvmtiIsMethodNative methodID);;
        let '(res, is_native) := IsMethodNative _jvmti methodID in
        let native := if succeeded res then is_native else JNI_FALSE in
        on_globals (
          copy_class_name (C.literal className);;
          copy_into_data_array (C.literal methodName);;
          copy_into_data_array (C.literal methodSig);;
          copy_into_data_array (if native then C.literal "1" else C.literal "0"));;
        release (className_at strings handle);;
        release_unless_null (genericSignature_at strings handle);;
        release (methodName_at strings methodID);;
        release (methodSig_at strings methodID);;
        release_unless_null (genericMethodSig_at strings methodID).

Definition Java_org_netbeans_lib_profiler_server_system_Stacks_getMethodNamesForJMethodIds
  (nMethods : Z) (jmethodIds packedArrayOffsets : jobject)
  : C.exec (world packed_store) jobject :=
  let methodIds : C.ptr Z :=
    C.malloc grants sizeof_jlong (C.size_t_mul sizeof_jlong (C.size_t_of nMethods)) in
  do methodIds <- GetLongArrayRegion jmethodIds 0 nMethods methodIds;
  let strOffsets0 : C.ptr Z :=
    C.malloc grants sizeof_jint
      (C.size_t_mul (C.size_t_mul sizeof_jint (C.size_t_of nMethods))
         (C.size_t_of PACKEDARR_ITEMS)) in
  (* The initial size for the packed strings array *)
  let byteDataLen0 := C.int_mul (C.int_mul nMethods PACKEDARR_ITEMS) 10 in
  let byteData0 : C.ptr ascii := C.malloc grants 1 (C.size_t_of byteDataLen0) in
  write_globals (PackedStore byteData0 strOffsets0 byteDataLen0 0 0 []);;
  C.for_loop 0 nMethods tt (fun i _ =>
    do id <- C.lift (C.load methodIds i);
    resolve_method_and_release (convert_jlong_to_jmethodID id));;
  do _ <- C.lift (C.free methodIds);
  do g <- read_globals;
  do ret <- NewByteArray (dataOfs g);
  SetByteArrayRegion ret 0 (dataOfs g) (byteData g);;
  SetIntArrayRegion packedArrayOffsets 0 (C.int_mul nMethods PACKEDARR_ITEMS)
    (strOffsets g);;
  do freedOffsets <- C.lift (C.free (strOffsets g));
  do freedData <- C.lift (C.free (byteData g));
  write_globals (PackedStore freedData freedOffsets
                   (byteDataLen g) (dataOfs g) (ofsIdx g) (heap_calls g));;
  C.pure ret.

(** *** All stack traces at once *)

(** [convert_JVMTI_thread_status_to_jfluid_status], declared in
    Threads.h and defined outside this file. *)
Variable convert_JVMTI_thread_status_to_jfluid_status : Z -> Z.

Definition cache_class (cached : jclass) (name : string)
  : C.exec (world class_cache) jclass :=
  match cached with
  | None => do c <- FindClass name; NewGlobalRef c
  | Some _ => C.pure cached
  end.

(** [p[i]] in memory that the runtime filled. *)
Definition element {S A} (p : list A) (i : Z) : C.exec S A :=
  if i <? 0 then C.raise C.OutOfBounds
  else match p !! Z.to_nat i with
       | Some a => C.pure a
       | None => C.raise C.OutOfBounds
       end.

Definition Java_org_netbeans_lib_profiler_server_system_Stacks_getAllStackTraces
  (threads states frames : jobject) : C.exec (world class_cache) unit :=
  log (JvmtiGetAllStackTraces MAX_FRAMES);;
  let '(err, (stack_info_mem, stack_info, thread_count)) :=
    GetAllStackTraces _jvmti MAX_FRAMES in
  if negb (succeeded err) then C.pure tt (* return *)
  else
    do g <- read_globals;
    do found <- cache_class (threadType g) "java/lang/Thread";
    write_globals (ClassCache found (longArrType g));;
    do g <- read_globals;
    do found <- cache_class (longArrType g) "[J";
    write_globals (ClassCache (threadType g) found);;
    do g <- read_globals;
    do jthreadArr <- NewObjectArray thread_count (threadType g) null;
    SetObjectArrayElement threads 0 jthreadArr;;
    do statesArr <- NewIntArray thread_count;
    SetObjectArrayElement states 0 statesArr;;
    do methodIdArrArr <- NewObjectArray thread_count (longArrType g) null;
    SetObjectArrayElement frames 0 methodIdArrArr;;
    let state_buffer : C.ptr Z :=
      C.calloc grants 0 (C.size_t_of thread_count) sizeof_jint in
    do state_buffer <- C.for_loop 0 thread_count state_buffer (fun ti state_buffer =>
      do infop <- element stack_info ti;
      let thread := thread infop in
      let state := state infop in
      let frames := frame_buffer infop in
      SetObjectArrayElement jthreadArr ti thread;;
      do state_buffer <- C.lift (C.store state_buffer ti
                           (convert_JVMTI_thread_status_to_jfluid_status state));
      do jmethodIdArr <- NewLongArray (frame_count infop);
      SetObjectArrayElement methodIdArrArr ti jmethodIdArr;;
      let id_buffer : C.ptr Z :=
        C.calloc grants 0 (C.size_t_of (frame_count infop)) sizeof_jlong in
      do id_buffer <- C.for_loop 0 (frame_count infop) id_buffer (fun fi id_buffer =>
        do frame <- element frames fi;
        C.lift (C.store id_buffer fi (convert_jmethodID_to_jlong (method frame))));
      SetLongArrayRegion jmethodIdArr 0 (frame_count infop) id_buffer;;
      do _ <- C.lift (C.free id_buffer);
      C.pure state_buffer);
    SetIntArrayRegion statesArr 0 thread_count state_buffer;;
    (* this one Deallocate call frees all data allocated by GetAllStackTraces *)
    log (JvmtiDeallocate stack_info_mem);;
    let err := Deallocate _jvmti stack_info_mem in
    if negb (succeeded err) then C.raise C.AssertionFailure
    else
      do _ <- C.lift (C.free state_buffer);
      C.pure tt.

End with_allocator.
End with_jvmti.

Abbreviation getCurrentJavaStackDepth :=
  Java_org_netbeans_lib_profiler_server_system_Stacks_getCurrentJavaStackDepth.
Abbreviation clearNativeStackFrameBuffer :=
  Java_org_netbeans_lib_profiler_server_system_Stacks_clearNativeStackFrameBuffer.
Abbreviation createNativeStackFrameBuffer :=
  Java_org_netbeans_lib_profiler_server_system_Stacks_createNativeStackFrameBuffer.
Abbreviation getCurrentStackFrameIds :=
  Java_org_netbeans_lib_profiler_server_system_Stacks_getCurrentStackFrameIds.
Abbreviation getMethodNamesForJMethodIds :=
  Java_org_netbeans_lib_profiler_server_system_Stacks_getMethodNamesForJMethodIds.
Abbreviation getAllStackTraces :=
  Java_org_netbeans_lib_profiler_server_system_Stacks_getAllStackTraces.

(** *** Runs of the buffer life cycle *)

Inductive buffer_call : Type :=
| CreateBuffer (grants : C.allocator) (sizeInFrames : Z)
| ClearBuffer.

Definition run_buffer_call (c : buffer_call) : C.exec frame_buffers unit :=
  match c with
  | CreateBuffer grants sizeInFrames => createNativeStackFrameBuffer grants sizeInFrames
  | ClearBuffer => clearNativeStackFrameBuffer
  end.

Fixpoint run_buffer_calls (cs : list buffer_call) : C.exec frame_buffers unit :=
  match cs with
  | [] => C.pure tt
  | c :: cs' => run_buffer_call c;; run_buffer_calls cs'
  end.

(** Both allocations of a create call were served. *)
Definition allocations_succeed (c : buffer_call) : Prop :=
  match c with
  | CreateBuffer grants sizeInFrames =>
      C.is_null (C.calloc grants (FrameInfo 0 0) (C.size_t_of sizeInFrames)
                   sizeof_jvmtiFrameInfo) = false
      /\ C.is_null (C.calloc grants 0 (C.size_t_of sizeInFrames) sizeof_jlong) = false
  | ClearBuffer => True
  end.

(** The two buffers come and go together. *)
Definition paired (g : frame_buffers) : Prop :=
  match _stack_frames_buffer g, _stack_id_buffer g with
  | C.NULL, C.NULL => True
  | C.Buf frames, C.Buf ids => length frames = length ids
  | _, _ => False
  end.

(** Neither static pointer is one that [free] left behind. *)
Definition no_dangling (g : frame_buffers) : Prop :=
  _stack_frames_buffer g <> C.Dangling /\ _stack_id_buffer g <> C.Dangling.

End Stacks.

(** ** What the encoder is expected to produce *)

Module Packed.
Import JNI JVMTI Stacks.

(** The start offsets of fields laid back to back from offset [from]. *)
Fixpoint starts (from : Z) (fields : list (list ascii)) : list Z :=
  match fields with
  | [] => []
  | f :: fields' => from :: starts (from + Z.of_nat (length f)) fields'
  end.





Definition placeholder : list string :=
  ["<unknown class>"; "<unknown method>"; "()V"; "0"]%string.

(** The characters C sees in a string of the runtime. *)
Definition text (s : string) : list ascii := C.chars (C.literal s).

(** Demangling as the spec words it: a type name of the exact form
    [L<name>;] is rewritten to [<name>]; any other form passes through. *)
Definition demangled (name : list ascii) : list ascii :=
  match name with
  | "L"%char :: rest =>
      match reverse rest with
      | ";"%char :: eman => reverse eman
      | _ => name
      end
  | _ => name
  end.

(** The outcome of the lookups for one method handle. *)
Inductive resolution : Type :=
| NoDeclaringClass
| NoClassSignature (declaringClass : jobject)
| NoMethodName (declaringClass : jobject) (className : string)
| Resolved (declaringClass : jobject) (className methodName methodSig : string)
    (native : option bool).

Definition resolve (env : jvmtiEnv) (m : jmethodID) : resolution :=
  let '(res, declaringClass) := GetMethodDeclaringClass env m in
  if negb (succeeded res) || ((declaringClass =? null)%N
                              || (peek_int env declaringClass =? 0))
  then NoDeclaringClass
  else
    let '(res, className) := GetClassSignature env declaringClass in
    if negb (succeeded res) then NoClassSignature declaringClass
    else
      let '(res, (methodName, methodSig)) := GetMethodName env m in
      if negb (succeeded res) then NoMethodName declaringClass className
      else
        let '(res, is_native) := IsMethodNative env m in
        Resolved declaringClass className methodName methodSig
          (if succeeded res then Some is_native else None).

Definition dummy_names : list (list ascii) :=
  text <$> placeholder.

(** The four fields that go into the store for a handle. *)
Definition fields_of (env : jvmtiEnv) (m : jmethodID) : list (list ascii) :=
  match resolve env m with
  | Resolved _ className methodName methodSig native =>
      [demangled (text className); text methodName; text methodSig;
       text (if default JNI_FALSE native then "1" else "0")]
  | _ => dummy_names
  end.

(** The lookups made for a handle, in order. *)
Definition lookups_of (env : jvmtiEnv) (m : jmethodID) : list event :=
  match resolve env m with
  | NoDeclaringClass => [JvmtiGetMethodDeclaringClass m]
  | NoClassSignature c => [JvmtiGetMethodDeclaringClass m; JvmtiGetClassSignature c]
  | NoMethodName c _ =>
      [JvmtiGetMethodDeclaringClass m; JvmtiGetClassSignature c; JvmtiGetMethodName m]
  | Resolved c _ _ _ _ =>
      [JvmtiGetMethodDeclaringClass m; JvmtiGetClassSignature c; JvmtiGetMethodName m;
       JvmtiIsMethodNative m]
  end.

(** The warning of lines 208 to 215 reads [*(int* )methodID] and
    [declaringClass]. Both are there to be read when the handle is not
    [NULL] and is the address of readable memory, and when the lookup of
    the declaring class has reported no error, so that [declaringClass]
    was assigned. *)
Definition warning_defined (env : jvmtiEnv) (m : jmethodID) : bool :=
  negb (m =? 0)
  && match peek_method env m with Some _ => true | None => false end
  && succeeded (GetMethodDeclaringClass env m).1.

(** A handle for which the round reads nothing that is not there: only
    a handle without a declaring class gets the warning. *)
Definition well_defined (env : jvmtiEnv) (m : jmethodID) : bool :=
  match resolve env m with
  | NoDeclaringClass => warning_defined env m
  | _ => true
  end.

(** [st] holds the bytes [data] and the offsets [offs], with room for
    [room] more offsets. *)
Definition holds (st : packed_store) (data : list ascii) (offs : list Z) (room : nat)
  : Prop :=
  dataOfs st = Z.of_nat (length data)
  /\ ofsIdx st = Z.of_nat (length offs)
  /\ C.INT_MIN <= byteDataLen st <= C.INT_MAX
  /\ match byteData st with
     | C.Buf cells =>
         Z.of_nat (length cells) = byteDataLen st
         /\ take (length data) cells = Some <$> data
     | C.NULL => byteDataLen st < 0 /\ data = []
     | C.Dangling => False
     end
  /\ exists slots,
       strOffsets st = C.Buf slots
       /\ take (length offs) slots = Some <$> offs
       /\ length slots = (length offs + room)%nat.

(** A store as [getMethodNamesForJMethodIds] sets it up, for a capacity
    of [capacity] bytes and [slots] offsets. *)
Definition fresh_store (capacity : Z) (slots : nat) : packed_store :=
  PackedStore (C.malloc C.unbounded 1 (C.size_t_of capacity))
    (C.Buf (replicate slots None)) capacity 0 0 [].

(** The growth rule as the spec words it: the capacity after an append
    of [len] bytes to a store of [capacity] bytes of which [used] are
    taken; [double] is the doubling, [C.int_mul] in the source. *)
Definition grown (double : Z -> Z) (capacity used len : Z) : Z :=
  if used + len >? capacity then Z.max (double capacity) (used + len) else capacity.

Fixpoint capacity_after (double : Z -> Z) (capacity used : Z) (lens : list Z) : Z :=
  match lens with
  | [] => capacity
  | len :: lens' => capacity_after double (grown double capacity used len) (used + len) lens'
  end.

(** The calls to the C heap as the spec words them. An append that
    fits makes none. One that does not fit asks for the new buffer,
    copies the [used] bytes written so far into it, and only then
    releases the old buffer, of [capacity] bytes. *)
Definition regrowth (double : Z -> Z) (capacity used len : Z) : list heap_call :=
  if used + len >? capacity
  then [Malloc (Z.max (double capacity) (used + len)); Memcpy used;
        Free (Z.max 0 capacity)]
  else [].

Fixpoint regrowths (double : Z -> Z) (capacity used : Z) (lens : list Z)
  : list heap_call :=
  match lens with
  | [] => []
  | len :: lens' =>
      regrowth double capacity used len
      ++ regrowths double (grown double capacity used len) (used + len) lens'
  end.

(** One append after the other. *)
Fixpoint copy_all (grants : C.allocator) (ss : list C.cstring) : C.exec packed_store unit :=
  match ss with
  | [] => C.pure tt
  | s :: ss' => copy_into_data_array grants s;; copy_all grants ss'
  end.

Definition lengths (ss : list C.cstring) : list Z :=
  (fun s => Z.of_nat (length (C.chars s))) <$> ss.

(** The identifiers of walked frames. *)
Definition identifiers (walked : list jvmtiFrameInfo) : list Z :=
  (fun f => convert_jmethodID_to_jlong (method f)) <$> walked.


(** The handles of a batch of identifiers. *)
Definition handles (ids : list Z) : list jmethodID := convert_jlong_to_jmethodID <$> ids.

(** All the fields of a batch, in order. *)
Definition batch_fields (env : jvmtiEnv) (ids : list Z) : list (list ascii) :=
  concat (fields_of env <$> handles ids).



Definition total (zs : list Z) : Z := foldr Z.add 0 zs.

(** The release of a string that may not exist. *)
Definition release_of (mem : Z) : list event :=
  if mem =? 0 then [] else [JvmtiDeallocate mem].

(** The strings given back to the runtime for a handle, in order. *)
Definition releases_of (env : jvmtiEnv) (strings : jvmtiStrings) (m : jmethodID)
  : list event :=
  match resolve env m with
  | Resolved c _ _ _ _ =>
      [JvmtiDeallocate (className_at strings c)]
      ++ release_of (genericSignature_at strings c)
      ++ [JvmtiDeallocate (methodName_at strings m);
          JvmtiDeallocate (methodSig_at strings m)]
      ++ release_of (genericMethodSig_at strings m)
  | _ => []
  end.

(** The calls to the runtime made for a handle, in order: its lookups,
    then its releases. *)
Definition calls_of (env : jvmtiEnv) (strings : jvmtiStrings) (m : jmethodID)
  : list event :=
  lookups_of env m ++ releases_of env strings m.


(** The appends made for a handle. *)
Definition appends_of (env : jvmtiEnv) (grants : C.allocator) (m : jmethodID)
  : C.exec packed_store unit :=
  match resolve env m with
  | Resolved _ className methodName methodSig native =>
      copy_class_name grants (C.literal className);;
      copy_into_data_array grants (C.literal methodName);;
      copy_into_data_array grants (C.literal methodSig);;
      copy_into_data_array grants
        (if default JNI_FALSE native then C.literal "1" else C.literal "0")
  | _ => copy_dummy_names_into_data_array grants
  end.


End Packed.

(** ** What the snapshot is expected to leave behind *)

Module Snapshot.
Import JNI JVMTI Stacks Packed.

(** The buffer behind [p] starts with the values [vs]. *)
Definition starts_with {A} (p : C.ptr A) (vs : list A) : Prop :=
  vs = [] \/ exists rest, p = C.Buf ((Some <$> vs) ++ rest).

(** A call that is not the release of the runtime's memory. *)
Definition not_release (e : event) : Prop := forall mem, e <> JvmtiDeallocate mem.

Section rounds.
Variable conv : Z -> Z.
Variable infos : list jvmtiStackInfo.
Variable count : nat.
Variables jthreadArr methodIdArrArr : jobject.
Variables cT cL : string.
Variable h0 : gmap N object.
Variable grants : C.allocator.
Variable t0 : list event.
Variable g : class_cache.

(** What thread [i] of the snapshot has become in heap [h], after
    the calls [evs]. *)
Definition thread_copied (h : gmap N object) (evs : list event)
    (refs : list jobject) (i : nat) (info : jvmtiStackInfo) : Prop :=
  exists r,
    refs !! i = Some r
    /\ h0 !! r = None
    /\ h !! r = Some (LongArray
                        (identifiers (take (Z.to_nat (frame_count info))
                                        (frame_buffer info))))
    /\ (Z.to_nat (frame_count info) <= length (frame_buffer info))%nat
    /\ JniSetObjectArrayElement jthreadArr (Z.of_nat i) (thread info) ∈ evs
    /\ JniSetObjectArrayElement methodIdArrArr (Z.of_nat i) r ∈ evs
    /\ JniSetLongArrayRegion r 0 (frame_count info) ∈ evs.

(** The state of the loop over the threads after [k] rounds. *)
Definition threads_copied (k : nat) (state_buffer : C.ptr Z) (s : world class_cache)
  : Prop :=
  exists refs evs,
    globals s = g
    /\ (k <= length infos)%nat /\ length refs = k
    /\ trace s = t0 ++ evs /\ Forall not_release evs
    /\ (forall r o, h0 !! r = Some o -> r <> jthreadArr -> r <> methodIdArrArr ->
                    heap s !! r = Some o)
    /\ heap s !! jthreadArr
        = Some (ObjectArray cT ((thread <$> take k infos) ++ replicate (count - k) null))
    /\ heap s !! methodIdArrArr
        = Some (ObjectArray cL (refs ++ replicate (count - k) null))
    /\ starts_with state_buffer ((fun info => conv (state info)) <$> take k infos)
    /\ (forall i info, take k infos !! i = Some info ->
                       thread_copied (heap s) evs refs i info).

(** The body of the loop over the threads, lines 328 to 346. *)
Definition round (ti : Z) (state_buffer : C.ptr Z)
  : C.exec (world class_cache) (C.ptr Z) :=
  do infop <- element infos ti;
  let thread := thread infop in
  let state := state infop in
  let frames := frame_buffer infop in
  SetObjectArrayElement jthreadArr ti thread;;
  do state_buffer <- C.lift (C.store state_buffer ti (conv state));
  do jmethodIdArr <- NewLongArray (frame_count infop);
  SetObjectArrayElement methodIdArrArr ti jmethodIdArr;;
  let id_buffer : C.ptr Z :=
    C.calloc grants 0 (C.size_t_of (frame_count infop)) sizeof_jlong in
  do id_buffer <- C.for_loop 0 (frame_count infop) id_buffer (fun fi id_buffer =>
    do frame <- element frames fi;
    C.lift (C.store id_buffer fi (convert_jmethodID_to_jlong (method frame))));
  SetLongArrayRegion jmethodIdArr 0 (frame_count infop) id_buffer;;
  do _ <- C.lift (C.free id_buffer);
  C.pure state_buffer.
End rounds.

End Snapshot.

(** ** What a call leaves of the Java heap *)

Module Heap.
Import JNI.

(** The kind of an object and, for an array, its length: what no JNI
    call made here changes once the object exists. *)
Inductive shape : Type :=
| Plain
| Objects (n : nat)
| Ints (n : nat)
| Longs (n : nat)
| Bytes (n : nat).

Definition shape_of (o : object) : shape :=
  match o with
  | Instance _ => Plain
  | ObjectArray _ elems => Objects (length elems)
  | IntArray elems => Ints (length elems)
  | LongArray elems => Longs (length elems)
  | ByteArray elems => Bytes (length elems)
  end.

Definition has_shape (h : gmap N object) (r : jobject) (sh : shape) : Prop :=
  exists o, h !! r = Some o /\ shape_of o = sh.

Definition keeps_shapes (h h' : gmap N object) : Prop :=
  forall r sh, has_shape h r sh -> has_shape h' r sh.

(** An object array with a slot 0, as the holders of
    [getAllStackTraces] have to be. *)
Definition holder (h : gmap N object) (r : jobject) : Prop :=
  exists n, has_shape h r (Objects (S n)).

(** Heap [h] still has every object of [h0], and those outside
    [written] as they were in [h0]. *)
Definition untouched (h0 : gmap N object) (written : jobject -> Prop)
    (h : gmap N object) : Prop :=
  (forall r, is_Some (h0 !! r) -> is_Some (h !! r))
  /\ (forall r o, h0 !! r = Some o -> ~ written r -> h !! r = Some o).

End Heap.

(** ** A small runtime to run the code on *)

Module Sample.
Import JNI JVMTI Stacks Packed.

Definition JVMTI_ERROR_THREAD_NOT_ALIVE : jvmtiError := 15.
Definition JVMTI_ERROR_INVALID_CLASS : jvmtiError := 21.
Definition JVMTI_ERROR_INVALID_METHODID : jvmtiError := 23.
Definition JVMTI_ERROR_INTERNAL : jvmtiError := 113.

(** Thread 7 runs three frames deep; its middle frame is in a method
    whose handle has the top bit set. Thread 9 has no Java frames. *)
Definition stack7 : list jvmtiFrameInfo :=
  [FrameInfo 100 0; FrameInfo (2 ^ 64 - 8) 3; FrameInfo 300 1].

(** Method handles and what the runtime knows of them; none of them is
    the address of memory that can be read:
    - 0: the [NULL] handle; the lookup of its declaring class reports an
      error;
    - 13: a declaring class without a signature;
    - 14: a method without a name;
    - 15: a method whose native flag cannot be read;
    - 16: a native method;
    - 17: a declaring class whose handle points to a zero word;
    - 2: a method of the primitive type [I];
    - 3: a method of the array type [[I];
    - anything else: [run()V] of [com.example.Foo]. *)
Definition runtime : jvmtiEnv := {|
  GetFrameCount thread :=
    if (thread =? 7)%N then (JVMTI_ERROR_NONE, Z.of_nat (length stack7))
    else if (thread =? 9)%N then (JVMTI_ERROR_NONE, 0)
    else (JVMTI_ERROR_THREAD_NOT_ALIVE, 0);
  GetStackTrace thread start_depth max_frame_count :=
    if (thread =? 7)%N
    then (JVMTI_ERROR_NONE,
          take (Z.to_nat max_frame_count) (drop (Z.to_nat start_depth) stack7))
    else (JVMTI_ERROR_THREAD_NOT_ALIVE, []);
  GetMethodDeclaringClass m :=
    if m =? 0 then (JVMTI_ERROR_INVALID_METHODID, null)
    else (JVMTI_ERROR_NONE, Z.to_N (1000 + m));
  GetClassSignature c :=
    if (c =? 1013)%N then (JVMTI_ERROR_INVALID_CLASS, "")
    else if (c =? 1002)%N then (JVMTI_ERROR_NONE, "I")
    else if (c =? 1003)%N then (JVMTI_ERROR_NONE, "[I")
    else (JVMTI_ERROR_NONE, "Lcom/example/Foo;");
  GetMethodName m :=
    if m =? 14 then (JVMTI_ERROR_INVALID_METHODID, ("", ""))
    else (JVMTI_ERROR_NONE, ("run", "()V"));
  IsMethodNative m :=
    if m =? 15 then (JVMTI_ERROR_INTERNAL, true)
    else (JVMTI_ERROR_NONE, m =? 16);
  GetAllStackTraces max_frame_count :=
    (JVMTI_ERROR_NONE,
     (4096, [StackInfo 7%N 5 (take 2 stack7) 2; StackInfo 9%N 1 [] 0], 2));
  Deallocate mem := JVMTI_ERROR_NONE;
  peek_int c := if (c =? 1017)%N then 0 else 1;
  peek_method m := None
|}.

(** The same runtime when the capture of all stacks fails. *)
Definition failing_runtime : jvmtiEnv := {|
  GetFrameCount := GetFrameCount runtime;
  GetStackTrace := GetStackTrace runtime;
  GetMethodDeclaringClass := GetMethodDeclaringClass runtime;
  GetClassSignature := GetClassSignature runtime;
  GetMethodName := GetMethodName runtime;
  IsMethodNative := IsMethodNative runtime;
  GetAllStackTraces max_frame_count := (JVMTI_ERROR_INTERNAL, (0, [], 0));
  Deallocate := Deallocate runtime;
  peek_int := peek_int runtime;
  peek_method := peek_method runtime
|}.

(** A Java heap with the two threads, two arrays of identifiers to
    resolve, an array for their offsets, an array for sampled frames and
    the three holders of [getAllStackTraces]. *)
Definition java_heap : gmap N object :=
  {[ 7%N := Instance "java/lang/Thread";
     9%N := Instance "java/lang/Thread";
     20%N := LongArray [1; 0; 15; 2];
     21%N := IntArray (replicate 18 (-1));
     22%N := LongArray [9; 9; 9; 9; 9];
     23%N := LongArray [1; 13; 15; 2];
     31%N := ObjectArray "[Ljava/lang/Thread;" [null];
     32%N := ObjectArray "[I" [null];
     33%N := ObjectArray "[[J" [null] ]}.

Definition encoder_world : world packed_store :=
  World (PackedStore C.NULL C.NULL 0 0 0 []) java_heap [].

Definition sampler_world (g : frame_buffers) : world frame_buffers :=
  World g java_heap [].

Definition snapshot_world : world class_cache :=
  World no_classes java_heap [].

(** Frame buffers for four frames. *)
Definition four_frames : frame_buffers :=
  FrameBuffers (C.Buf (replicate 4 (Some (FrameInfo 0 0)))) (C.Buf (replicate 4 (Some 0))).

(** The thread states of this tool, shifted for the sample. *)
Definition status_of (state : Z) : Z := state + 1000.

(** Where the runtime of the sample puts its strings. Classes have
    no generic signature; methods with an even handle have one. *)
Definition string_addresses : jvmtiStrings := {|
  className_at c := 5000 + Z.of_N c;
  genericSignature_at c := 0;
  methodName_at m := 7000 + 4 * m;
  methodSig_at m := 7001 + 4 * m;
  genericMethodSig_at m := if Z.even m then 7002 + 4 * m else 0
|}.

(** An allocator that serves requests of 64 bytes and more only: for
    four frames it gives the frame buffer and refuses the identifier
    buffer. *)
Definition large_blocks_only : C.allocator := fun bytes => 64 <=? bytes.

(** The same runtime when it refuses to release the memory of a
    snapshot. *)
Definition stubborn_runtime : jvmtiEnv := {|
  GetFrameCount := GetFrameCount runtime;
  GetStackTrace := GetStackTrace runtime;
  GetMethodDeclaringClass := GetMethodDeclaringClass runtime;
  GetClassSignature := GetClassSignature runtime;
  GetMethodName := GetMethodName runtime;
  IsMethodNative := IsMethodNative runtime;
  GetAllStackTraces := GetAllStackTraces runtime;
  Deallocate mem := JVMTI_ERROR_INTERNAL;
  peek_int := peek_int runtime;
  peek_method := peek_method runtime
|}.

End Sample.

(** * Properties *)

(** ** Running code in [C.exec] *)

Section exec_rules.
Context {S A : Type}.

Lemma bind_ok {B} (m : C.exec S A) (k : A -> C.exec S B) s a s' :
  m s = C.Ok (a, s') -> C.bind m k s = k a s'.
Proof. intros H. unfold C.bind. by rewrite H. Qed.

Lemma bind_inv {B} (m : C.exec S A) (k : A -> C.exec S B) s r :
  C.bind m k s = C.Ok r -> exists a s', m s = C.Ok (a, s') /\ k a s' = C.Ok r.
Proof.
  unfold C.bind. destruct (m s) as [[a s']|f]; [|discriminate].
  intros H. by exists a, s'.
Qed.

(** A loop that keeps an invariant [I k acc s] over its first [k] rounds
    and never faults while it holds runs to its end. *)
Lemma for_steps_total (I : nat -> A -> S -> Prop) (body : Z -> A -> C.exec S A) n :
  forall lo acc s,
    I O acc s ->
    (forall k acc s, (k < n)%nat -> I k acc s ->
       exists acc' s', body (lo + Z.of_nat k) acc s = C.Ok (acc', s')
                       /\ I (Datatypes.S k) acc' s') ->
    exists acc' s', C.for_steps n lo acc body s = C.Ok (acc', s') /\ I n acc' s'.
Proof.
  induction n as [|n IH] in I |- *; intros lo acc s H0 Hstep.
  - by exists acc, s.
  - destruct (Hstep O acc s) as (acc1 & s1 & Hb & H1); [lia|done|].
    rewrite Z.add_0_r in Hb.
    destruct (IH (fun k => I (Datatypes.S k)) (lo + 1) acc1 s1 H1) as (acc' & s' & Hr & Hn).
    + intros k a t Hk Hi. destruct (Hstep (Datatypes.S k) a t) as (a' & t' & Hb' & Hi'); [lia|done|].
      exists a', t'. split; [|done].
      by replace (lo + 1 + Z.of_nat k) with (lo + Z.of_nat (Datatypes.S k)) by lia.
    + exists acc', s'. split; [|done]. simpl. by rewrite (bind_ok _ _ _ _ _ Hb).
Qed.

(** What a loop that ran to its end establishes, from what each of its
    rounds establishes. *)
Lemma for_steps_inv (I : nat -> A -> S -> Prop) (body : Z -> A -> C.exec S A) n :
  forall lo acc s acc' s',
    I O acc s ->
    (forall k acc s acc' s', (k < n)%nat -> I k acc s ->
       body (lo + Z.of_nat k) acc s = C.Ok (acc', s') -> I (Datatypes.S k) acc' s') ->
    C.for_steps n lo acc body s = C.Ok (acc', s') -> I n acc' s'.
Proof.
  induction n as [|n IH] in I |- *; intros lo acc s acc' s' H0 Hstep Hrun.
  - simpl in Hrun. unfold C.pure in Hrun. by simplify_eq.
  - simpl in Hrun. apply bind_inv in Hrun as (a1 & s1 & Hb & Hrest).
    apply (IH (fun k => I (Datatypes.S k)) (lo + 1) a1 s1 acc' s'); [| |done].
    + apply (Hstep O acc s); [lia|done|]. by rewrite Z.add_0_r.
    + intros k a t a' t' Hk Hi Hb'. apply (Hstep (Datatypes.S k) a t); [lia|done|].
      by replace (lo + Z.of_nat (Datatypes.S k)) with (lo + 1 + Z.of_nat k) by lia.
Qed.
End exec_rules.

Ltac case_compare :=
  match goal with
  | |- context [(?a <=? ?b)%Z] => destruct (Z.leb_spec a b)
  | |- context [(?a <? ?b)%Z] => destruct (Z.ltb_spec a b)
  | |- context [(?a >? ?b)%Z] => rewrite (Z.gtb_ltb a b); destruct (Z.ltb_spec b a)
  | |- context [(?a =? ?b)%Z] => destruct (Z.eqb_spec a b)
  end.

(** ** Integers, strings and buffers *)

Section integers.
Lemma int_wrap_in_range z : C.INT_MIN <= z <= C.INT_MAX -> C.int_wrap z = z.
Proof.
  unfold C.INT_MIN, C.INT_MAX, C.int_wrap. intros H.
  rewrite Z.mod_small; lia.
Qed.

Lemma int_wrap_range z : C.INT_MIN <= C.int_wrap z <= C.INT_MAX.
Proof.
  unfold C.INT_MIN, C.INT_MAX, C.int_wrap.
  pose proof (Z.mod_pos_bound (z + 2 ^ 31) (2 ^ 32)). lia.
Qed.

Lemma size_t_of_small z : 0 <= z <= C.INT_MAX -> C.size_t_of z = z.
Proof. unfold C.INT_MAX, C.size_t_of. intros H. rewrite Z.mod_small; lia. Qed.
End integers.

Section strings.
Implicit Types (s : C.cstring) (l : list ascii).

Lemma chars_app_NUL l rest : C.NUL ∉ l -> C.chars (l ++ C.NUL :: rest) = l.
Proof.
  induction l as [|c l IH]; intros Hl; simpl; [done|].
  apply not_elem_of_cons in Hl as [Hc Hl].
  destruct (Ascii.eqb_spec c C.NUL) as [->|_]; [done|]. by rewrite IH.
Qed.

Lemma terminated_app_NUL l rest : C.terminated (l ++ C.NUL :: rest) = true.
Proof. induction l as [|c l IH]; simpl; [done|]. by destruct (Ascii.eqb c C.NUL). Qed.


Lemma chars_no_NUL s : C.NUL ∉ C.chars s.
Proof.
  induction s as [|c s IH]; simpl; [apply not_elem_of_nil|].
  destruct (Ascii.eqb_spec c C.NUL) as [->|Hc]; [apply not_elem_of_nil|].
  apply not_elem_of_cons. split; [congruence|done].
Qed.

(** Terminated memory is its characters, a NUL, and whatever follows. *)
Lemma terminated_split s :
  C.terminated s = true -> exists rest, s = C.chars s ++ C.NUL :: rest.
Proof.
  induction s as [|c s IH]; simpl; [done|].
  destruct (Ascii.eqb_spec c C.NUL) as [->|Hc]; [by exists s|].
  intros H. destruct (IH H) as [rest Hr]. exists rest. simpl. by rewrite <- Hr.
Qed.

Lemma strlen_terminated s :
  C.terminated s = true -> C.strlen s = C.Ok (Z.of_nat (length (C.chars s))).
Proof. intros H. unfold C.strlen. by rewrite H. Qed.

Lemma strncpy_image_whole s :
  C.strncpy_image s (Z.of_nat (length (C.chars s))) = C.chars s.
Proof.
  unfold C.strncpy_image. rewrite Nat2Z.id, take_app_length'; done.
Qed.
End strings.

Section buffers.
Context {A : Type}.
Implicit Types (cs rest : list (option A)) (vs : list A).

Lemma write_cells_in_range cs ofs new :
  0 <= ofs -> ofs + Z.of_nat (length new) <= Z.of_nat (length cs) ->
  C.write_cells (C.Buf cs) ofs new
  = C.Ok (C.Buf (take (Z.to_nat ofs) cs ++ new ++ drop (Z.to_nat ofs + length new) cs)).
Proof.
  intros H0 Hl. unfold C.write_cells. destruct new as [|c new].
  - simpl. by rewrite Nat.add_0_r, take_drop.
  - simpl C.deref. cbv iota. remember (c :: new) as l.
    case_compare; [lia|]. case_compare; [lia|]. done.
Qed.

Lemma read_cells_in_range cs n :
  0 <= n <= Z.of_nat (length cs) -> C.read_cells (C.Buf cs) n = C.Ok (take (Z.to_nat n) cs).
Proof.
  intros H. unfold C.read_cells. case_compare.
  - by replace n with 0 by lia.
  - simpl. case_compare; [lia|done].
Qed.

Lemma store_in_range cs i v :
  0 <= i < Z.of_nat (length cs) ->
  C.store (C.Buf cs) i v = C.Ok (C.Buf (<[Z.to_nat i := Some v]> cs)).
Proof.
  intros Hi. unfold C.store. simpl.
  case_compare; [lia|]. case_compare; [lia|]. done.
Qed.
Lemma read_values_prefix vs rest n :
  n = Z.of_nat (length vs) -> C.read_values (C.Buf ((Some <$> vs) ++ rest)) n = C.Ok vs.
Proof.
  intros ->. unfold C.read_values, C.read_cells.
  destruct (decide (vs = [])) as [->|Hne]; [done|].
  assert (0 < length vs)%nat by (destruct vs; simpl; [done|lia]).
  case_compare; [lia|]. simpl C.deref. cbv iota.
  rewrite length_app, length_fmap.
  case_compare; [lia|].
  rewrite Nat2Z.id, take_app_length', (mapM_fmap_Some id Some); [done|done|].
  by rewrite length_fmap.
Qed.

Lemma load_written cs i v :
  0 <= i -> cs !! Z.to_nat i = Some (Some v) -> C.load (C.Buf cs) i = C.Ok v.
Proof.
  intros Hi Hl. unfold C.load. simpl. case_compare; [lia|]. by rewrite Hl.
Qed.

Lemma write_cells_front cs new :
  (length new <= length cs)%nat ->
  C.write_cells (C.Buf cs) 0 new = C.Ok (C.Buf (new ++ drop (length new) cs)).
Proof.
  intros Hl. unfold C.write_cells. destruct new as [|c new]; [by rewrite drop_0|].
  simpl C.deref. cbv iota. remember (c :: new) as l.
  case_compare; [lia|]. case_compare; [lia|]. done.
Qed.
End buffers.

(** ** JNI calls *)

Section jni_calls.
Import JNI Packed.
Context {G : Type}.
Implicit Types (w : world G) (h : gmap N object).

Lemma fresh_ref_unused h : h !! fresh_ref h = None.
Proof.
  apply not_elem_of_dom. pose proof (is_fresh ({[null]} ∪ dom h)) as Hf.
  unfold fresh_ref. set_solver.
Qed.

Lemma fresh_ref_not_null h : fresh_ref h <> null.
Proof.
  pose proof (is_fresh ({[null]} ∪ dom h)) as Hf. unfold fresh_ref. set_solver.
Qed.

Lemma fresh_ref_other h r o : h !! r = Some o -> r <> fresh_ref h.
Proof. intros Hr ->. by rewrite fresh_ref_unused in Hr. Qed.

Lemma new_object_Ok o w :
  new_object o w = C.Ok (fresh_ref (heap w),
                         updated w (fresh_ref (heap w)) o (JniNewArray (fresh_ref (heap w)))).
Proof. done. Qed.

Lemma NewByteArray_Ok len w res :
  NewByteArray len w = C.Ok res <->
  0 <= len /\ res = (fresh_ref (heap w),
                     updated w (fresh_ref (heap w))
                       (ByteArray (replicate (Z.to_nat len) C.NUL))
                       (JniNewArray (fresh_ref (heap w)))).
Proof.
  unfold NewByteArray. case_compare.
  - split; [done|lia].
  - rewrite new_object_Ok. split; [intros [= <-]; done|intros [_ ->]; done].
Qed.

Lemma NewIntArray_Ok len w res :
  NewIntArray len w = C.Ok res <->
  0 <= len /\ res = (fresh_ref (heap w),
                     updated w (fresh_ref (heap w))
                       (IntArray (replicate (Z.to_nat len) 0))
                       (JniNewArray (fresh_ref (heap w)))).
Proof.
  unfold NewIntArray. case_compare.
  - split; [done|lia].
  - rewrite new_object_Ok. split; [intros [= <-]; done|intros [_ ->]; done].
Qed.

Lemma NewLongArray_Ok len w res :
  NewLongArray len w = C.Ok res <->
  0 <= len /\ res = (fresh_ref (heap w),
                     updated w (fresh_ref (heap w))
                       (LongArray (replicate (Z.to_nat len) 0))
                       (JniNewArray (fresh_ref (heap w)))).
Proof.
  unfold NewLongArray. case_compare.
  - split; [done|lia].
  - rewrite new_object_Ok. split; [intros [= <-]; done|intros [_ ->]; done].
Qed.

Lemma NewObjectArray_Ok len cls init w res :
  NewObjectArray len cls init w = C.Ok res <->
  exists c, cls = Some c /\ 0 <= len
    /\ res = (fresh_ref (heap w),
              updated w (fresh_ref (heap w))
                (ObjectArray c (replicate (Z.to_nat len) init))
                (JniNewArray (fresh_ref (heap w)))).
Proof.
  unfold NewObjectArray. destruct cls as [c|]; [|split; [done|intros (? & ? & _); done]].
  case_compare.
  - split; [done|intros (? & _ & ? & _); lia].
  - rewrite new_object_Ok. split.
    + intros [= <-]. by exists c.
    + intros (? & [= <-] & _ & ->). done.
Qed.

Lemma SetObjectArrayElement_Ok array index value w res :
  SetObjectArrayElement array index value w = C.Ok res <->
  exists c elems,
    heap w !! array = Some (ObjectArray c elems)
    /\ 0 <= index < Z.of_nat (length elems)
    /\ res = (tt, updated w array (ObjectArray c (<[Z.to_nat index := value]> elems))
                    (JniSetObjectArrayElement array index value)).
Proof.
  unfold SetObjectArrayElement, C.bind at 1, C.get.
  destruct (heap w !! array) as [[]|]; try (split; [done|]; intros (? & ? & ? & _); done).
  destruct (Z.ltb_spec index 0); destruct (Z.leb_spec (Z.of_nat (length elems)) index);
    simpl; try (split; [done|]; intros (? & ? & ? & ? & _); simplify_eq; lia).
  split.
  - intros [= <-]. eexists _, _. split_and!; [done|lia|lia|done].
  - intros (? & ? & ? & ? & ->). by simplify_eq.
Qed.

Lemma region_ok_spec {A} start len (elems : list A) :
  region_ok start len elems = true <->
  0 <= start /\ 0 <= len /\ start + len <= Z.of_nat (length elems).
Proof. unfold region_ok. rewrite !andb_true_iff, !Z.leb_le. tauto. Qed.

Lemma SetLongArrayRegion_Ok array start len buf w res :
  SetLongArrayRegion array start len buf w = C.Ok res <->
  exists old vs,
    heap w !! array = Some (LongArray old) /\ region_ok start len old = true
    /\ C.read_values buf len = C.Ok vs
    /\ res = (tt, updated w array (LongArray (splice start vs old))
                    (JniSetLongArrayRegion array start len)).
Proof.
  unfold SetLongArrayRegion, C.bind at 1, C.get.
  destruct (heap w !! array) as [[]|]; try (split; [done|]; intros (? & ? & ? & _); done).
  destruct (region_ok _ _ _) eqn:Hr.
  2:{ split; [done|]. intros (? & ? & ? & ? & _). simplify_eq. congruence. }
  unfold C.bind, C.lift. destruct (C.read_values buf len) as [vs|f].
  - split; [intros [= <-]; by eexists _, _|]. intros (? & ? & ? & ? & ? & ->). by simplify_eq.
  - split; [done|]. intros (? & ? & ? & ? & ? & _); done.
Qed.

Lemma SetIntArrayRegion_Ok array start len buf w res :
  SetIntArrayRegion array start len buf w = C.Ok res <->
  exists old vs,
    heap w !! array = Some (IntArray old) /\ region_ok start len old = true
    /\ C.read_values buf len = C.Ok vs
    /\ res = (tt, updated w array (IntArray (splice start vs old))
                    (JniSetIntArrayRegion array start len)).
Proof.
  unfold SetIntArrayRegion, C.bind at 1, C.get.
  destruct (heap w !! array) as [[]|]; try (split; [done|]; intros (? & ? & ? & _); done).
  destruct (region_ok _ _ _) eqn:Hr.
  2:{ split; [done|]. intros (? & ? & ? & ? & _). simplify_eq. congruence. }
  unfold C.bind, C.lift. destruct (C.read_values buf len) as [vs|f].
  - split; [intros [= <-]; by eexists _, _|]. intros (? & ? & ? & ? & ? & ->). by simplify_eq.
  - split; [done|]. intros (? & ? & ? & ? & ? & _); done.
Qed.

Lemma SetByteArrayRegion_Ok array start len buf w res :
  SetByteArrayRegion array start len buf w = C.Ok res <->
  exists old vs,
    heap w !! array = Some (ByteArray old) /\ region_ok start len old = true
    /\ C.read_values buf len = C.Ok vs
    /\ res = (tt, updated w array (ByteArray (splice start vs old))
                    (JniSetByteArrayRegion array start len)).
Proof.
  unfold SetByteArrayRegion, C.bind at 1, C.get.
  destruct (heap w !! array) as [[]|]; try (split; [done|]; intros (? & ? & ? & _); done).
  destruct (region_ok _ _ _) eqn:Hr.
  2:{ split; [done|]. intros (? & ? & ? & ? & _). simplify_eq. congruence. }
  unfold C.bind, C.lift. destruct (C.read_values buf len) as [vs|f].
  - split; [intros [= <-]; by eexists _, _|]. intros (? & ? & ? & ? & ? & ->). by simplify_eq.
  - split; [done|]. intros (? & ? & ? & ? & ? & _); done.
Qed.

Lemma GetLongArrayRegion_Ok array start len buf w res :
  GetLongArrayRegion array start len buf w = C.Ok res <->
  exists elems filled,
    heap w !! array = Some (LongArray elems) /\ region_ok start len elems = true
    /\ C.write_cells buf 0 (Some <$> take (Z.to_nat len) (drop (Z.to_nat start) elems))
       = C.Ok filled
    /\ res = (filled, World (globals w) (heap w)
                        (trace w ++ [JniGetLongArrayRegion array start len])).
Proof.
  unfold GetLongArrayRegion, C.bind at 1, C.get.
  destruct (heap w !! array) as [[]|]; try (split; [done|]; intros (? & ? & ? & _); done).
  destruct (region_ok _ _ _) eqn:Hr.
  2:{ split; [done|]. intros (? & ? & ? & ? & _). simplify_eq. congruence. }
  unfold C.bind, log, C.modify, C.lift.
  destruct (C.write_cells buf 0 _) as [p|f] eqn:Hw.
  - split; [intros [= <-]; by eexists _, _|].
    intros (? & ? & ? & ? & ? & ->). simplify_eq. congruence.
  - split; [done|]. intros (? & ? & ? & ? & ? & _). simplify_eq. congruence.
Qed.
End jni_calls.

(** ** The frame buffers *)

Section frame_buffers.
Import JNI JVMTI Stacks.

Lemma clear_from_paired g :
  paired g -> clearNativeStackFrameBuffer g = C.Ok (tt, no_frame_buffers).
Proof.
  destruct g as [[|fs|] [|ids|]]; simpl; intros H; try done.
Qed.

Lemma clear_leaves_nothing g g' :
  clearNativeStackFrameBuffer g = C.Ok (tt, g') -> g' = no_frame_buffers.
Proof.
  destruct g as [[|fs|] [|ids|]]; cbv; intros H; by simplify_eq.
Qed.

Lemma create_from_paired grants n g :
  paired g -> allocations_succeed (CreateBuffer grants n) ->
  exists g', createNativeStackFrameBuffer grants n g = C.Ok (tt, g') /\ paired g'
             /\ C.is_null (_stack_frames_buffer g') = false.
Proof.
  intros Hp [Hf Hi].
  unfold Java_org_netbeans_lib_profiler_server_system_Stacks_createNativeStackFrameBuffer.
  set (fr := C.calloc grants (FrameInfo 0 0) (C.size_t_of n) sizeof_jvmtiFrameInfo) in *.
  set (id := C.calloc grants 0 (C.size_t_of n) sizeof_jlong) in *.
  assert (Hlen : paired (FrameBuffers fr id)).
  { subst fr id. unfold C.calloc in *.
    destruct (grants _ && _); [|done]. destruct (grants _ && _); [|done].
    unfold paired; simpl. by rewrite !length_replicate. }
  exists (FrameBuffers fr id). split; [|done].
  destruct g as [[|fs|] [|ids|]]; simpl in Hp; try done.
Qed.

Lemma run_buffer_calls_paired calls :
  forall g, paired g -> Forall allocations_succeed calls ->
  exists g', run_buffer_calls calls g = C.Ok (tt, g') /\ paired g'.
Proof.
  induction calls as [|c calls IH]; intros g Hp Hall.
  - by exists g.
  - apply Forall_cons in Hall as [Hc Hall].
    assert (exists g1, run_buffer_call c g = C.Ok (tt, g1) /\ paired g1) as (g1 & Hr & Hp1).
    { destruct c as [grants n|]; simpl.
      - destruct (create_from_paired grants n g Hp Hc) as (g1 & ? & ? & _). by exists g1.
      - exists no_frame_buffers. split; [by apply clear_from_paired|done]. }
    destruct (IH g1 Hp1 Hall) as (g' & Hr' & Hp').
    exists g'. split; [|done]. simpl. by rewrite (bind_ok _ _ _ _ _ Hr).
Qed.

Lemma paired_null g :
  paired g -> C.is_null (_stack_frames_buffer g) = C.is_null (_stack_id_buffer g).
Proof. destruct g as [[|fs|] [|ids|]]; simpl; done. Qed.

Lemma sample_without_frames_buffer env thr depth ret (w : world frame_buffers) :
  C.is_null (_stack_frames_buffer (globals w)) = true ->
  getCurrentStackFrameIds env thr depth ret w = C.Ok (0, w).
Proof.
  intros H.
  unfold Java_org_netbeans_lib_profiler_server_system_Stacks_getCurrentStackFrameIds.
  unfold C.bind, read_globals, C.gets. rewrite H. by destruct w.
Qed.

(** C7: with no frame buffer allocated, be it never created or
    cleared by [clearNativeStackFrameBuffer], the call returns 0 and
    leaves the static buffers, the Java heap with the output array, and
    the trace of calls as they were. *)
Theorem getCurrentStackFrameIds_without_buffer env thr depth ret
    (w : world frame_buffers) :
  _stack_frames_buffer (globals w) = C.NULL
  \/ (exists g0, clearNativeStackFrameBuffer g0 = C.Ok (tt, globals w)) ->
  getCurrentStackFrameIds env thr depth ret w = C.Ok (0, w).
Proof.
  intros [H|[g0 H]]; apply sample_without_frames_buffer.
  - by rewrite H.
  - by rewrite (clear_leaves_nothing _ _ H).
Qed.

Lemma getCurrentStackFrameIds_without_buffer_witness :
  getCurrentStackFrameIds Sample.runtime 7%N 2 22%N (Sample.sampler_world no_frame_buffers)
  = C.Ok (0, Sample.sampler_world no_frame_buffers)
  /\ clearNativeStackFrameBuffer Sample.four_frames = C.Ok (tt, no_frame_buffers).
Proof.
  split; [|reflexivity].
  apply getCurrentStackFrameIds_without_buffer. right.
  exists Sample.four_frames. reflexivity.
Defined.

(** C10: after any calls to create and clear in which the allocations
    succeed, the two buffer pointers are both [NULL] or both point to
    buffers of one size; so a null identifier buffer makes
    [getCurrentStackFrameIds], which tests the frame buffer only, return
    0 without touching anything. *)
Theorem frame_buffers_come_and_go_together calls :
  Forall allocations_succeed calls ->
  exists g, run_buffer_calls calls no_frame_buffers = C.Ok (tt, g)
    /\ paired g
    /\ C.is_null (_stack_frames_buffer g) = C.is_null (_stack_id_buffer g)
    /\ forall env thr depth ret h t,
         C.is_null (_stack_id_buffer g) = true ->
         getCurrentStackFrameIds env thr depth ret (World g h t) = C.Ok (0, World g h t).
Proof.
  intros Hall.
  destruct (run_buffer_calls_paired calls no_frame_buffers) as (g & Hr & Hp); [done..|].
  exists g. split_and!; [done|done|by apply paired_null|].
  intros env thr depth ret h t Hnull. apply sample_without_frames_buffer.
  simpl. by rewrite paired_null.
Qed.

Lemma frame_buffers_come_and_go_together_witness :
  exists g,
    run_buffer_calls [CreateBuffer C.unbounded 4; ClearBuffer; CreateBuffer C.unbounded 2]
      no_frame_buffers = C.Ok (tt, g)
    /\ paired g
    /\ C.is_null (_stack_frames_buffer g) = C.is_null (_stack_id_buffer g).
Proof.
  destruct (frame_buffers_come_and_go_together
              [CreateBuffer C.unbounded 4; ClearBuffer; CreateBuffer C.unbounded 2])
    as (g & Hrun & Hpaired & Hnull & _).
  - repeat constructor.
  - exists g. repeat split; assumption.
Defined.

(** Without the second allocation the pairing is gone, and sampling
    writes through a null pointer. *)
Lemma lone_frames_buffer_faults :
  let grants : C.allocator := fun bytes => 64 <=? bytes in
  exists g,
    createNativeStackFrameBuffer grants 4 no_frame_buffers = C.Ok (tt, g)
    /\ C.is_null (_stack_frames_buffer g) = false
    /\ C.is_null (_stack_id_buffer g) = true
    /\ getCurrentStackFrameIds Sample.runtime 7%N 2 22%N (Sample.sampler_world g)
       = C.Fault C.NullDereference.
Proof. eexists. split; [reflexivity|]. repeat split. Qed.
End frame_buffers.

Section sampling.
Import JNI JVMTI Stacks Packed.

Lemma convert_round k (walked : list jvmtiFrameInfo) (ids : list (option Z)) frame :
  walked !! k = Some frame -> (length walked <= length ids)%nat ->
  <[k := Some (convert_jmethodID_to_jlong (method frame))]>
    ((Some <$> identifiers (take k walked)) ++ drop k ids)
  = (Some <$> identifiers (take (S k) walked)) ++ drop (S k) ids.
Proof.
  intros Hk Hl. pose proof (lookup_lt_Some _ _ _ Hk) as Hlt.
  assert (length (Some <$> identifiers (take k walked)) = k) as Hlen.
  { unfold identifiers. rewrite !length_fmap, length_take. lia. }
  rewrite <- (Nat.add_0_r k) at 1. rewrite <- Hlen at 1. rewrite insert_app_r.
  destruct (lookup_lt_is_Some_2 ids k) as [c Hc]; [lia|].
  rewrite (drop_S _ _ _ Hc). simpl.
  rewrite (take_S_r _ _ _ Hk). unfold identifiers. rewrite !fmap_app. simpl.
  by rewrite <- app_assoc.
Qed.

(** C8: with both buffers allocated for at least [depth] frames, a
    thread that the runtime can walk and room in the output array, the
    call walks from depth 0 for at most [depth] frames, writes the
    identifier of each walked frame, in order, to the front of the
    output array and returns their number. *)
Theorem getCurrentStackFrameIds_walks_the_stack env thr depth ret
    (w : world frame_buffers) frames ids walked old :
  globals w = FrameBuffers (C.Buf frames) (C.Buf ids) ->
  length frames = length ids ->
  depth <= Z.of_nat (length frames) ->
  GetStackTrace env thr 0 depth = (JVMTI_ERROR_NONE, walked) ->
  Z.of_nat (length walked) <= depth ->
  heap w !! ret = Some (LongArray old) ->
  (length walked <= length old)%nat ->
  getCurrentStackFrameIds env thr depth ret w =
    C.Ok (Z.of_nat (length walked),
          World (FrameBuffers
                   (C.Buf ((Some <$> walked) ++ drop (length walked) frames))
                   (C.Buf ((Some <$> identifiers walked) ++ drop (length walked) ids)))
                (<[ret := LongArray (identifiers walked ++ drop (length walked) old)]> (heap w))
                (trace w ++ [JvmtiGetStackTrace thr 0 depth;
                             JniSetLongArrayRegion ret 0 (Z.of_nat (length walked))])).
Proof.
  destruct w as [g h t]. simpl. intros -> Hcap Hdepth Hwalk Hwl Hret Hold.
  unfold Java_org_netbeans_lib_profiler_server_system_Stacks_getCurrentStackFrameIds.
  unfold C.bind at 1. simpl. unfold C.bind at 1. simpl.
  rewrite Hwalk. simpl succeeded. cbv iota.
  rewrite write_cells_front by (rewrite length_fmap; lia).
  rewrite length_fmap.
  unfold C.bind at 1. simpl. unfold C.bind at 1. simpl.
  unfold C.bind at 1. simpl.
  set (F := C.Buf ((Some <$> walked) ++ drop (length walked) frames)).
  set (t1 := t ++ [JvmtiGetStackTrace thr 0 depth]).
  unfold C.bind at 1. unfold C.for_loop.
  rewrite Z.sub_0_r, Nat2Z.id.
  edestruct (for_steps_total
    (fun k (_ : unit) s =>
       s = World (FrameBuffers F
                    (C.Buf ((Some <$> identifiers (take k walked)) ++ drop k ids))) h t1))
    as (u & s' & Hrun & Hs'); [| |rewrite Hrun].
  { simpl. by rewrite drop_0. }
  { intros k _ s Hk ->. 
    destruct (lookup_lt_is_Some_2 walked k Hk) as [frame Hframe].
    unfold C.bind at 1. simpl. unfold C.bind at 1. unfold F at 1.
    rewrite (load_written _ _ frame); [|lia|].
    2:{ rewrite Z.add_0_l, Nat2Z.id, lookup_app_l by (rewrite length_fmap; done).
        by rewrite list_lookup_fmap, Hframe. }
    simpl. unfold C.bind at 1. rewrite store_in_range.
    2:{ rewrite length_app, length_drop. unfold identifiers.
        rewrite !length_fmap, length_take. lia. }
    simpl. eexists tt, _. split; [reflexivity|].
    rewrite Z.add_0_l, Nat2Z.id. by rewrite (convert_round _ _ _ frame) by (done || lia). }
  subst s'. rewrite firstn_all.
  unfold C.bind at 1. simpl.
  erewrite bind_ok.
  2:{ apply SetLongArrayRegion_Ok. eexists old, (identifiers walked). split_and!; [done| | |done].
      - unfold region_ok. repeat (case_compare; try lia); done.
      - apply read_values_prefix. unfold identifiers. by rewrite length_fmap. }
  unfold C.pure, updated, splice, identifiers. subst t1. simpl.
  by rewrite <- app_assoc, length_fmap.
Qed.

Lemma getCurrentStackFrameIds_walks_the_stack_witness :
  getCurrentStackFrameIds Sample.runtime 7%N 2 22%N
    (Sample.sampler_world Sample.four_frames)
  = C.Ok (2,
          World (FrameBuffers
                   (C.Buf [Some (FrameInfo 100 0); Some (FrameInfo (2 ^ 64 - 8) 3);
                           Some (FrameInfo 0 0); Some (FrameInfo 0 0)])
                   (C.Buf [Some 100; Some (-8); Some 0; Some 0]))
            (<[22%N := LongArray [100; -8; 9; 9; 9]]> Sample.java_heap)
            [JvmtiGetStackTrace 7%N 0 2; JniSetLongArrayRegion 22%N 0 2]).
Proof.
  apply (getCurrentStackFrameIds_walks_the_stack Sample.runtime 7%N 2 22%N
           (Sample.sampler_world Sample.four_frames)
           (replicate 4 (Some (FrameInfo 0 0))) (replicate 4 (Some 0))
           (take 2 Sample.stack7) [9; 9; 9; 9; 9]).
  - reflexivity.
  - reflexivity.
  - vm_compute. discriminate.
  - reflexivity.
  - vm_compute. discriminate.
  - reflexivity.
  - vm_compute. lia.
Defined.
End sampling.

(** ** The packed store *)

Section packed_store.
Import JNI JVMTI Stacks Packed.

Lemma holds_data_fits st data offs room :
  holds st data offs room -> Z.of_nat (length data) <= Z.max 0 (byteDataLen st).
Proof.
  intros (_ & _ & _ & Hb & _). destruct (byteData st) as [|cells|]; [| |done].
  - destruct Hb as [? ->]. simpl. lia.
  - destruct Hb as [<- Ht]. apply (f_equal length) in Ht.
    rewrite length_take, length_fmap in Ht. lia.
Qed.

Lemma memcpy_into_fresh (old : C.ptr ascii) data (cap newLen : Z) :
  match old with
  | C.Buf cells => take (length data) cells = Some <$> data
  | C.NULL => data = []
  | C.Dangling => False
  end ->
  Z.of_nat (length data) <= newLen <= C.INT_MAX ->
  C.memcpy (C.malloc C.unbounded 1 (C.size_t_of newLen)) old
    (C.size_t_of (Z.of_nat (length data)))
  = C.Ok (C.Buf ((Some <$> data) ++ replicate (Z.to_nat newLen - length data) None)).
Proof.
  intros Hold Hlen.
  rewrite !size_t_of_small by lia.
  unfold C.malloc, C.unbounded. simpl andb.
  case_compare; [|unfold C.INT_MAX, C.PTRDIFF_MAX in *; lia].
  rewrite Z.div_1_r. unfold C.memcpy.
  assert (C.read_cells old (Z.of_nat (length data)) = C.Ok (Some <$> data)) as ->.
  { destruct old as [|cells|]; [by subst| |done].
    rewrite read_cells_in_range, Nat2Z.id; [by rewrite Hold|].
    apply (f_equal length) in Hold. rewrite length_take, length_fmap in Hold. lia. }
  rewrite write_cells_in_range by (rewrite ?length_replicate, ?length_fmap; lia).
  simpl. by rewrite length_fmap, drop_replicate.
Qed.

Lemma heap_call_made_runs c st :
  heap_call_made c st
  = C.Ok (tt, PackedStore (byteData st) (strOffsets st) (byteDataLen st)
                (dataOfs st) (ofsIdx st) (heap_calls st ++ [c])).
Proof. done. Qed.

(** The growth of lines 150 to 159. *)
Lemma regrowth_runs (bd : C.ptr ascii) slots cap data idx calls len :
  match bd with
  | C.Buf cells =>
      Z.of_nat (length cells) = cap /\ take (length data) cells = Some <$> data
  | C.NULL => cap < 0 /\ data = []
  | C.Dangling => False
  end ->
  C.INT_MIN <= cap <= C.INT_MAX ->
  0 <= len -> Z.of_nat (length data) + len <= C.INT_MAX ->
  cap < Z.of_nat (length data) + len ->
  let newLen := if C.int_mul cap 2 <? Z.of_nat (length data) + len
                then Z.of_nat (length data) + len else C.int_mul cap 2 in
  (do fresh <- heap_malloc C.unbounded (C.size_t_of newLen);
   do copied <- heap_memcpy fresh bd (C.size_t_of (Z.of_nat (length data)));
   do _ <- heap_free bd;
   C.modify (fun st => PackedStore copied (strOffsets st) newLen (dataOfs st)
                         (ofsIdx st) (heap_calls st)))
    (PackedStore bd slots cap (Z.of_nat (length data)) idx calls)
  = C.Ok (tt, PackedStore
                (C.Buf ((Some <$> data) ++ replicate (Z.to_nat newLen - length data) None))
                slots newLen (Z.of_nat (length data)) idx
                (calls ++ [Malloc newLen; Memcpy (Z.of_nat (length data));
                           Free (Z.max 0 cap)]))
  /\ newLen = Z.max (C.int_mul cap 2) (Z.of_nat (length data) + len)
  /\ newLen <= C.INT_MAX.
Proof.
  intros Hbd Hcap Hlen Htotal Hgrow newLen.
  assert (newLen = Z.max (C.int_mul cap 2) (Z.of_nat (length data) + len)) as HnewLen.
  { subst newLen. case_compare; lia. }
  pose proof (int_wrap_range (cap * 2)) as Hdouble. fold (C.int_mul cap 2) in Hdouble.
  assert (Z.of_nat (length data) + len <= newLen <= C.INT_MAX) as Hnew by lia.
  split; [|split; [done|lia]].
  unfold heap_malloc.
  rewrite !(size_t_of_small newLen) by lia.
  erewrite bind_ok; [|erewrite bind_ok; [|apply heap_call_made_runs]; reflexivity].
  unfold heap_memcpy. cbn [byteData strOffsets byteDataLen dataOfs ofsIdx heap_calls].
  erewrite bind_ok.
  2:{ erewrite bind_ok.
      2:{ unfold C.lift. rewrite <- (size_t_of_small newLen) by lia.
          rewrite (memcpy_into_fresh bd data cap newLen); [done| |lia].
          destruct bd; [by destruct Hbd|by destruct Hbd|done]. }
      erewrite bind_ok; [|apply heap_call_made_runs]. reflexivity. }
  cbn [byteData strOffsets byteDataLen dataOfs ofsIdx heap_calls].
  assert (exists p, C.free bd = C.Ok p /\ C.block_size bd = Z.max 0 cap) as (p & Hp & Hsize).
  { destruct bd as [|cells|]; [eexists; split; [done|simpl; lia]| |done].
    eexists. split; [done|]. simpl. lia. }
  unfold heap_free. rewrite Hp, Hsize.
  erewrite bind_ok.
  2:{ erewrite bind_ok; [|reflexivity].
      erewrite bind_ok; [|apply heap_call_made_runs]. reflexivity. }
  unfold C.modify. cbn [byteData strOffsets byteDataLen dataOfs ofsIdx heap_calls].
  rewrite (size_t_of_small (Z.of_nat (length data))) by lia.
  fold newLen. rewrite (size_t_of_small newLen) by lia.
  by rewrite <- !app_assoc.
Qed.

Lemma copy_into_data_array_appends st data offs room s :
  holds st data offs (S room) ->
  C.terminated s = true ->
  Z.of_nat (length data + length (C.chars s)) <= C.INT_MAX ->
  Z.of_nat (length offs) < C.INT_MAX ->
  exists st',
    copy_into_data_array C.unbounded s st = C.Ok (tt, st')
    /\ holds st' (data ++ C.chars s) (offs ++ [Z.of_nat (length data)]) room
    /\ byteDataLen st' =
         grown (fun c => C.int_mul c 2) (byteDataLen st) (dataOfs st)
           (Z.of_nat (length (C.chars s)))
    /\ heap_calls st' =
         heap_calls st
         ++ regrowth (fun c => C.int_mul c 2) (byteDataLen st) (dataOfs st)
              (Z.of_nat (length (C.chars s))).
Proof.
  intros Hst Hs Htotal Hidx.
  pose proof (holds_data_fits _ _ _ _ Hst) as Hfits.
  destruct st as [bd so cap used idx calls].
  destruct Hst as (Hused & Hidx' & Hcap & Hbd & slots & Hso & Hslots & Hroom).
  simpl in *. subst used idx so.
  set (len := Z.of_nat (length (C.chars s))).
  unfold copy_into_data_array.
  unfold C.bind at 1, C.lift at 1. rewrite (strlen_terminated s Hs). fold len.
  assert (0 <= len) by lia.
  rewrite (int_wrap_in_range len) by (unfold C.INT_MIN, C.INT_MAX in *; lia).
  unfold C.bind at 1, C.get at 1.
  cbn [byteData strOffsets byteDataLen dataOfs ofsIdx heap_calls].
  unfold C.int_add.
  rewrite (int_wrap_in_range (_ + len)) by (unfold C.INT_MIN, C.INT_MAX in *; lia).
  (* the store after the capacity check *)
  match goal with
  | |- context [C.bind (if ?cond then ?grow else _) _ ?st0] =>
      assert (exists cells,
        (if cond then grow else C.pure tt) st0
        = C.Ok (tt, PackedStore (C.Buf cells) (C.Buf slots)
                      (grown (fun c => C.int_mul c 2) cap (Z.of_nat (length data)) len)
                      (Z.of_nat (length data)) (Z.of_nat (length offs))
                      (calls ++ regrowth (fun c => C.int_mul c 2) cap
                                  (Z.of_nat (length data)) len))
        /\ Z.of_nat (length cells)
            = grown (fun c => C.int_mul c 2) cap (Z.of_nat (length data)) len
        /\ take (length data) cells = Some <$> data
        /\ Z.of_nat (length data) + len <= Z.of_nat (length cells)
        /\ Z.of_nat (length cells) <= C.INT_MAX)
        as (cells & Hgrow & Hcells & Hprefix & Hfit & Hmax)
  end.
  { unfold grown, regrowth. rewrite Z.gtb_ltb.
    destruct (Z.ltb_spec cap (Z.of_nat (length data) + len)).
    - (* it grows *)
      destruct (regrowth_runs bd (C.Buf slots) cap data (Z.of_nat (length offs)) calls len)
        as (Hrun & HnewLen & Hmax); [done|done|done|lia|done|].
      rewrite Hrun, <- HnewLen. eexists. split; [done|].
      rewrite length_app, length_fmap, length_replicate, take_app_length'
        by (by rewrite length_fmap).
      split_and!; [lia|done|lia|lia].
    - (* it fits *)
      destruct bd as [|cells|]; [lia| |done]. destruct Hbd as [Hlen Hprefix].
      exists cells. unfold C.pure. rewrite app_nil_r. split_and!; [done|lia|done|lia|lia]. }
  unfold C.bind at 1. rewrite Hgrow. clear Hgrow.
  unfold C.bind at 1, C.get at 1.
  cbn [byteData strOffsets byteDataLen dataOfs ofsIdx heap_calls].
  rewrite size_t_of_small by lia.
  rewrite (int_wrap_in_range (_ + len)) by (unfold C.INT_MIN, C.INT_MAX in *; lia).
  rewrite (int_wrap_in_range (_ + 1)) by (unfold C.INT_MIN, C.INT_MAX in *; lia).
  unfold C.bind at 1, C.lift at 1, C.strncpy. rewrite strncpy_image_whole.
  rewrite write_cells_in_range by (rewrite ?length_fmap; lia).
  unfold C.bind at 1, C.lift at 1.
  rewrite store_in_range by lia.
  unfold C.put. eexists. split; [reflexivity|]. split; [|done].
  unfold holds. simpl. rewrite !Nat2Z.id, !length_app, !length_fmap. simpl.
  split; [lia|]. split; [lia|].
  split; [rewrite <- Hcells; unfold C.INT_MIN; lia|]. split.
  - split; [rewrite length_take, length_drop; lia|].
    rewrite fmap_app, Hprefix, app_assoc.
    rewrite take_app_length'; [done|].
    by rewrite length_app, !length_fmap.
  - eexists. split; [done|]. rewrite length_insert. split; [|lia].
    rewrite fmap_app. simpl.
    rewrite <- Hslots.
    destruct (lookup_lt_is_Some_2 slots (length offs)) as [c Hc]; [lia|].
    rewrite <- (take_drop (length offs) slots) at 1.
    rewrite insert_app_r_alt by (rewrite length_take; lia).
    rewrite length_take, Nat.min_l, Nat.sub_diag by lia.
    rewrite (drop_S _ _ _ Hc). simpl.
    rewrite take_app_ge by (rewrite length_take; lia).
    rewrite length_take, Nat.min_l by lia.
    replace (length offs + 1 - length offs)%nat with 1%nat by lia. done.
Qed.

(** An append sees of its argument only the characters. *)
Lemma copy_into_data_array_chars grants s s' st :
  C.terminated s = true -> C.terminated s' = true -> C.chars s = C.chars s' ->
  copy_into_data_array grants s st = copy_into_data_array grants s' st.
Proof.
  intros Hs Hs' Hc. unfold copy_into_data_array, C.strncpy, C.strncpy_image.
  by rewrite !strlen_terminated, Hc.
Qed.

Lemma copy_all_appends ss : forall st data offs room,
  holds st data offs (length ss + room) ->
  Forall (fun s => C.terminated s = true) ss ->
  Z.of_nat (length data + length (concat (C.chars <$> ss))) <= C.INT_MAX ->
  Z.of_nat (length offs + length ss) <= C.INT_MAX ->
  exists st',
    copy_all C.unbounded ss st = C.Ok (tt, st')
    /\ holds st' (data ++ concat (C.chars <$> ss))
         (offs ++ starts (Z.of_nat (length data)) (C.chars <$> ss)) room
    /\ byteDataLen st' =
         capacity_after (fun c => C.int_mul c 2) (byteDataLen st) (dataOfs st) (lengths ss)
    /\ heap_calls st' =
         heap_calls st
         ++ regrowths (fun c => C.int_mul c 2) (byteDataLen st) (dataOfs st) (lengths ss).
Proof.
  induction ss as [|s ss IH]; intros st data offs room Hst Hss Htotal Hidx.
  - exists st. simpl. rewrite !app_nil_r. done.
  - apply Forall_cons in Hss as [Hs Hss].
    rewrite fmap_cons, concat_cons in *. rewrite length_app in Htotal.
    rewrite length_cons in Hidx, Hst.
    change (S (length ss) + room)%nat with (S (length ss + room)) in Hst.
    destruct (copy_into_data_array_appends st data offs (length ss + room) s)
      as (st1 & Hrun & Hst1 & Hcap1 & Hcalls1); [done|done|lia|lia|].
    destruct (IH st1 (data ++ C.chars s) (offs ++ [Z.of_nat (length data)]) room)
      as (st' & Hrun' & Hst' & Hcap' & Hcalls');
      [done|done|rewrite length_app; lia|rewrite length_app; simpl; lia|].
    exists st'. cbn [copy_all]. rewrite (bind_ok _ _ _ _ _ Hrun).
    rewrite <- !app_assoc in Hst'. cbn [app] in Hst'.
    rewrite length_app, Nat2Z.inj_add in Hst'.
    split; [done|]. split; [done|].
    rewrite Hcap', Hcalls', Hcap1, Hcalls1. destruct Hst as (-> & _).
    destruct Hst1 as (-> & _). rewrite length_app, Nat2Z.inj_add, <- app_assoc. done.
Qed.

Lemma demangled_wrapped name : demangled ("L"%char :: name ++ [";"%char]) = name.
Proof.
  unfold demangled. rewrite reverse_app, reverse_singleton. simpl.
  apply reverse_involutive.
Qed.

Lemma demangled_other s :
  (forall name, s <> "L"%char :: name ++ [";"%char]) -> demangled s = s.
Proof.
  intros Hs. unfold demangled.
  destruct s as [|c rest]; [done|].
  destruct (decide (c = "L"%char)) as [->|Hc].
  - destruct (reverse rest) as [|x eman] eqn:Hrev; [done|].
    destruct (decide (x = ";"%char)) as [->|Hx].
    + destruct (Hs (reverse eman)).
      by rewrite <- (reverse_involutive rest), Hrev, reverse_cons.
    + destruct x as [[] [] [] [] [] [] [] []]; try done.
  - destruct c as [[] [] [] [] [] [] [] []]; try done.
Qed.

Lemma copy_class_name_demangles grants s st :
  C.terminated s = true ->
  Z.of_nat (length (C.chars s)) <= C.INT_MAX ->
  copy_class_name grants s st
  = copy_into_data_array grants (demangled (C.chars s) ++ [C.NUL]) st.
Proof.
  intros Hs Hlen.
  pose proof (chars_no_NUL s) as Hnul.
  destruct (terminated_split s Hs) as [rest Hsplit].
  assert (copy_into_data_array grants s st
          = copy_into_data_array grants (C.chars s ++ [C.NUL]) st) as Hsame.
  { apply copy_into_data_array_chars; [done|apply terminated_app_NUL|].
    by rewrite chars_app_NUL. }
  unfold copy_class_name, C.bind at 1, C.lift at 1.
  rewrite (strlen_terminated s Hs).
  rewrite int_wrap_in_range by (unfold C.INT_MIN; lia).
  remember (C.chars s) as cs eqn:Hcs.
  unfold C.bind at 1, C.lift at 1.
  destruct cs as [|c cs'].
  { (* the empty signature: its first character is the NUL *)
    assert (C.char_at s 0 = C.Ok C.NUL) as -> by (by rewrite Hsplit).
    simpl. unfold C.bind at 1, C.pure at 1. done. }
  assert (C.char_at s 0 = C.Ok c) as -> by (by rewrite Hsplit).
  destruct (Ascii.eqb_spec c "L") as [->|Hc].
  2:{ unfold C.bind at 1, C.pure at 1. rewrite Hsame.
      destruct c as [[] [] [] [] [] [] [] []]; try done. }
  unfold C.bind at 1, C.bind at 1, C.lift at 1.
  destruct (reverse cs') as [|x eman] eqn:Hrev.
  { (* the signature is "L" alone *)
    apply (f_equal reverse) in Hrev. rewrite reverse_involutive, reverse_nil in Hrev.
    subst cs'.
    assert (C.char_at s (Z.of_nat (length ["L"%char]) - 1) = C.Ok "L"%char) as ->
      by (by rewrite Hsplit).
    done. }
  assert (cs' = reverse eman ++ [x]) as Hcs'.
  { by rewrite <- (reverse_involutive cs'), Hrev, reverse_cons. }
  assert (length cs' = S (length eman)) as Hlen'.
  { rewrite Hcs', length_app, length_reverse. simpl. lia. }
  assert (C.char_at s (Z.of_nat (length ("L"%char :: cs')) - 1) = C.Ok x) as ->.
  { unfold C.char_at. case_compare; [simpl in *; lia|].
    rewrite Hsplit, Hcs'. simpl length. rewrite length_app, length_reverse. simpl.
    replace (Z.to_nat (Z.of_nat (S (length eman + 1)) - 1)) with (S (length eman)) by lia.
    simpl. rewrite <- app_assoc. rewrite lookup_app_r by (by rewrite length_reverse).
    by rewrite length_reverse, Nat.sub_diag. }
  unfold C.pure at 1.
  destruct (Ascii.eqb_spec x ";") as [->|Hx].
  2:{ rewrite Hsame. unfold demangled. rewrite Hrev.
      destruct x as [[] [] [] [] [] [] [] []]; try done. }
  (* the wrapped form: the semicolon becomes the terminator *)
  unfold C.bind at 1, C.lift at 1.
  assert (C.set_char s (Z.of_nat (length ("L"%char :: cs')) - 1) C.NUL
          = C.Ok ("L"%char :: reverse eman ++ C.NUL :: C.NUL :: rest)) as ->.
  { unfold C.set_char. rewrite Hsplit. rewrite length_app. simpl length.
    case_compare; [lia|]. case_compare; [lia|]. simpl orb. cbv iota.
    rewrite Hlen', Hcs'. f_equal.
    replace (Z.to_nat (Z.of_nat (S (S (length eman))) - 1)) with (S (length eman)) by lia.
    simpl. f_equal. rewrite <- app_assoc. simpl.
    rewrite <- (length_reverse eman) at 1. rewrite <- (Nat.add_0_r (length (reverse eman))).
    by rewrite insert_app_r. }
  simpl drop. rewrite drop_0.
  assert (C.NUL ∉ reverse eman) as Hmid.
  { intros Hin. apply Hnul. right. rewrite Hcs'. apply elem_of_app. by left. }
  apply copy_into_data_array_chars.
  - apply terminated_app_NUL.
  - apply terminated_app_NUL.
  - rewrite chars_app_NUL by done. unfold demangled. rewrite Hrev.
    by rewrite chars_app_NUL.
Qed.









Lemma on_globals_ok {G A} (m : C.exec G A) (w : world G) a g :
  m (globals w) = C.Ok (a, g) -> on_globals m w = C.Ok (a, World g (heap w) (trace w)).
Proof. intros H. unfold on_globals. by rewrite H. Qed.

Lemma bind_log {G A} e (k : unit -> C.exec (world G) A) (w : world G) :
  C.bind (log e) k w = k tt (World (globals w) (heap w) (trace w ++ [e])).
Proof. done. Qed.

Lemma release_unless_null_runs {G} mem (w : world G) :
  release_unless_null mem w
  = C.Ok (tt, World (globals w) (heap w) (trace w ++ release_of mem)).
Proof.
  unfold release_unless_null, release_of, release, log, C.modify, C.pure.
  destruct (mem =? 0); [|done]. rewrite app_nil_r. by destruct w.
Qed.

Lemma on_globals_runs {G A} (m : C.exec G A) (w : world G) :
  on_globals m w
  = match m (globals w) with
    | C.Ok (a, g) => C.Ok (a, World g (heap w) (trace w))
    | C.Fault f => C.Fault f
    end.
Proof. done. Qed.

(** The word behind a class handle is there to be read. *)
Lemma class_word_printed {S} env (c : jobject) (s : S) :
  (if negb (c =? null)%N
   then do _ <- class_word env c; C.pure tt
   else C.pure tt) s = C.Ok (tt, s).
Proof. by destruct (negb _). Qed.

(** The round for a handle that is well defined: its appends go to the
    store, its calls to the runtime, and the Java heap stays as it is. *)
Lemma round_well_defined env strings grants m (w : world packed_store) :
  well_defined env m = true ->
  resolve_method_and_release env strings grants m w
  = match appends_of env grants m (globals w) with
    | C.Ok (_, g) => C.Ok (tt, World g (heap w) (trace w ++ calls_of env strings m))
    | C.Fault f => C.Fault f
    end.
Proof.
  unfold resolve_method_and_release, well_defined, warning_defined, appends_of, calls_of,
    lookups_of, releases_of, resolve.
  rewrite bind_log.
  destruct (GetMethodDeclaringClass env m) as [res1 c]. cbn [fst].
  destruct (negb (succeeded res1) || _).
  { intros [[Hm Hword]%andb_prop Hres]%andb_prop.
    unfold method_word. destruct (m =? 0); [done|].
    destruct (peek_method env m) as [word|]; [|done].
    rewrite Hres. unfold C.bind at 1, C.pure at 1. unfold C.bind at 1, initialised, C.pure at 1.
    rewrite (bind_ok _ _ _ _ _ (class_word_printed env c _)).
    rewrite on_globals_runs. cbn [globals heap trace]. rewrite app_nil_r.
    by destruct (copy_dummy_names_into_data_array grants (globals w)) as [[[] g]|]. }
  intros _. rewrite bind_log.
  destruct (GetClassSignature env c) as [res2 className].
  destruct (negb (succeeded res2)).
  { rewrite on_globals_runs. cbn [globals heap trace]. rewrite app_nil_r, <- app_assoc.
    by destruct (copy_dummy_names_into_data_array grants (globals w)) as [[[] g]|]. }
  rewrite bind_log.
  destruct (GetMethodName env m) as [res3 [methodName methodSig]].
  destruct (negb (succeeded res3)).
  { rewrite on_globals_runs. cbn [globals heap trace]. rewrite app_nil_r, <- !app_assoc.
    by destruct (copy_dummy_names_into_data_array grants (globals w)) as [[[] g]|]. }
  rewrite bind_log.
  destruct (IsMethodNative env m) as [res4 is_native].
  assert (default JNI_FALSE (if succeeded res4 then Some is_native else None)
          = (if succeeded res4 then is_native else JNI_FALSE)) as ->
    by (by destruct (succeeded res4)).
  unfold C.bind at 1. rewrite on_globals_runs. cbn [globals heap trace].
  match goal with |- context [match ?copies (globals w) with _ => _ end] =>
    destruct (copies (globals w)) as [[[] g]|]; [|done] end.
  unfold release. rewrite bind_log.
  rewrite (bind_ok _ _ _ _ _ (release_unless_null_runs _ _)). cbn [globals heap trace].
  rewrite !bind_log. rewrite release_unless_null_runs. cbn [globals heap trace].
  by rewrite <- !app_assoc.
Qed.

(** The round for any other handle does not come to its end. *)
Lemma round_undefined env strings grants m (w : world packed_store) :
  well_defined env m = false ->
  exists f, resolve_method_and_release env strings grants m w = C.Fault f.
Proof.
  unfold resolve_method_and_release, well_defined, warning_defined, resolve.
  rewrite bind_log.
  destruct (GetMethodDeclaringClass env m) as [res1 c]. cbn [fst].
  destruct (negb (succeeded res1) || _).
  - unfold method_word. destruct (m =? 0); [by eexists|].
    destruct (peek_method env m) as [word|]; [|by eexists].
    cbn [negb andb]. intros ->. by eexists.
  - destruct (GetClassSignature env c) as [res2 className].
    destruct (negb (succeeded res2)); [done|].
    destruct (GetMethodName env m) as [res3 [methodName methodSig]].
    destruct (negb (succeeded res3)); [done|].
    by destruct (IsMethodNative env m).
Qed.

Lemma round_returned env strings grants m (w w' : world packed_store) :
  resolve_method_and_release env strings grants m w = C.Ok (tt, w') ->
  well_defined env m = true
  /\ appends_of env grants m (globals w) = C.Ok (tt, globals w')
  /\ heap w' = heap w
  /\ trace w' = trace w ++ calls_of env strings m.
Proof.
  intros Hrun.
  destruct (well_defined env m) eqn:Hm.
  - rewrite round_well_defined in Hrun by done.
    destruct (appends_of env grants m (globals w)) as [[[] g]|]; [|done].
    by injection Hrun as <-.
  - destruct (round_undefined env strings grants m w Hm) as [f Hf]. congruence.
Qed.


End packed_store.

(** ** The encoder *)

Section encoder.
Import JNI JVMTI Stacks Packed.








Lemma holds_read_data st data offs room :
  holds st data offs room -> C.read_values (byteData st) (dataOfs st) = C.Ok data.
Proof.
  intros (-> & _ & _ & Hb & _). destruct (byteData st) as [|cells|]; [| |done].
  - by destruct Hb as [_ ->].
  - destruct Hb as [_ Hp]. rewrite <- (take_drop (length data) cells), Hp.
    by apply read_values_prefix.
Qed.





Lemma splice_front {A} (new old : list A) :
  splice 0 new old = new ++ drop (length new) old.
Proof. done. Qed.

End encoder.

(** ** Reading the blob back *)

Section blob.
Import JNI JVMTI Stacks Packed.
Implicit Types (fs : list (list ascii)).







Lemma total_lengths fs :
  total ((fun f => Z.of_nat (length f)) <$> fs) = Z.of_nat (length (concat fs)).
Proof.
  induction fs as [|f fs IH]; [done|].
  rewrite fmap_cons, concat_cons, length_app. unfold total in *. cbn [foldr].
  rewrite IH. lia.
Qed.


End blob.

(** ** What the encoder guarantees *)

Section encoder_claims.
Import JNI JVMTI Stacks Packed.

Lemma capacity_after_plain capacity used lens :
  0 <= capacity -> 0 <= used -> Forall (fun len => 0 <= len) lens ->
  2 * (used + total lens) <= C.INT_MAX ->
  capacity_after (fun c => C.int_mul c 2) capacity used lens
  = capacity_after (fun c => c * 2) capacity used lens.
Proof.
  intros Hc Hu Hlens. revert capacity used Hc Hu.
  induction Hlens as [|len lens Hlen Hlens IH]; intros capacity used Hc Hu Hk; [done|].
  unfold total in *. cbn [foldr capacity_after] in *.
  assert (0 <= foldr Z.add 0 lens) as Hrest.
  { clear -Hlens. induction Hlens; simpl; lia. }
  assert (grown (fun c => C.int_mul c 2) capacity used len
          = grown (fun c => c * 2) capacity used len) as ->.
  { unfold grown. rewrite Z.gtb_ltb. destruct (Z.ltb_spec capacity (used + len)); [|done].
    unfold C.int_mul. rewrite int_wrap_in_range; [done|].
    unfold C.INT_MIN, C.INT_MAX in *. lia. }
  apply IH.
  - unfold grown. rewrite Z.gtb_ltb. destruct (Z.ltb_spec capacity (used + len)); lia.
  - lia.
  - lia.
Qed.

Lemma lengths_nonneg ss : Forall (fun len => 0 <= len) (lengths ss).
Proof. unfold lengths. apply Forall_fmap, Forall_true. intros s. simpl. lia. Qed.

Lemma total_lengths_chars ss :
  total (lengths ss) = Z.of_nat (length (concat (C.chars <$> ss))).
Proof.
  unfold lengths. rewrite <- total_lengths. f_equal. by rewrite <- list_fmap_compose.
Qed.

Lemma regrowths_plain capacity used lens :
  0 <= capacity -> 0 <= used -> Forall (fun len => 0 <= len) lens ->
  2 * (used + total lens) <= C.INT_MAX ->
  regrowths (fun c => C.int_mul c 2) capacity used lens
  = regrowths (fun c => c * 2) capacity used lens.
Proof.
  intros Hc Hu Hlens. revert capacity used Hc Hu.
  induction Hlens as [|len lens Hlen Hlens IH]; intros capacity used Hc Hu Hk; [done|].
  unfold total in *. cbn [foldr regrowths] in *.
  assert (0 <= foldr Z.add 0 lens) as Hrest.
  { clear -Hlens. induction Hlens; simpl; lia. }
  assert (used + len > capacity -> C.int_mul capacity 2 = capacity * 2) as Hdouble.
  { intros Hgrow. unfold C.int_mul. rewrite int_wrap_in_range; [done|].
    unfold C.INT_MIN, C.INT_MAX in *. lia. }
  assert (grown (fun c => C.int_mul c 2) capacity used len
          = grown (fun c => c * 2) capacity used len) as ->.
  { unfold grown. rewrite Z.gtb_ltb. destruct (Z.ltb_spec capacity (used + len)); [|done].
    rewrite Hdouble; [done|lia]. }
  assert (regrowth (fun c => C.int_mul c 2) capacity used len
          = regrowth (fun c => c * 2) capacity used len) as ->.
  { unfold regrowth. rewrite Z.gtb_ltb. destruct (Z.ltb_spec capacity (used + len)); [|done].
    rewrite Hdouble; [done|lia]. }
  f_equal. apply IH.
  - unfold grown. rewrite Z.gtb_ltb. destruct (Z.ltb_spec capacity (used + len)); lia.
  - lia.
  - lia.
Qed.

(** C2: whatever the capacity the store starts with and however often
    the appended bytes outgrow it, after the appends of [ss] the first
    [dataOfs] bytes of the buffer are the bytes it held followed by the
    characters of every appended string; the capacity after each append
    is the larger of twice the capacity and the bytes needed when the
    append does not fit, and unchanged when it does. An append that
    does not fit asks for the new buffer, copies into it all the bytes
    written so far and only then releases the old buffer; an append
    that fits makes no call to the C heap. *)
Theorem copy_into_data_array_keeps_every_byte st data offs room ss :
  holds st data offs (length ss + room) ->
  Forall (fun s => C.terminated s = true) ss ->
  Z.of_nat (length data + length (concat (C.chars <$> ss))) <= C.INT_MAX ->
  Z.of_nat (length offs + length ss) <= C.INT_MAX ->
  exists st',
    copy_all C.unbounded ss st = C.Ok (tt, st')
    /\ dataOfs st' = Z.of_nat (length data + length (concat (C.chars <$> ss)))
    /\ C.read_values (byteData st') (dataOfs st') = C.Ok (data ++ concat (C.chars <$> ss))
    /\ byteDataLen st'
        = capacity_after (fun c => C.int_mul c 2) (byteDataLen st) (dataOfs st) (lengths ss)
    /\ heap_calls st'
        = heap_calls st
          ++ regrowths (fun c => C.int_mul c 2) (byteDataLen st) (dataOfs st) (lengths ss)
    /\ (0 <= byteDataLen st ->
        2 * Z.of_nat (length data + length (concat (C.chars <$> ss))) <= C.INT_MAX ->
        byteDataLen st'
        = capacity_after (fun c => c * 2) (byteDataLen st) (dataOfs st) (lengths ss)
        /\ heap_calls st'
           = heap_calls st
             ++ regrowths (fun c => c * 2) (byteDataLen st) (dataOfs st) (lengths ss)).
Proof.
  intros Hst Hss Htotal Hidx.
  destruct (copy_all_appends ss st data offs room) as (st' & Hrun & Hst' & Hcap & Hcalls);
    [done..|].
  exists st'. split; [done|]. split.
  { destruct Hst' as (-> & _). by rewrite length_app. }
  split; [by eapply holds_read_data|]. split; [done|]. split; [done|].
  intros Hpos Hsmall. rewrite Hcap, Hcalls. destruct Hst as (-> & _).
  rewrite capacity_after_plain, regrowths_plain;
    [done|done|lia|apply lengths_nonneg|rewrite total_lengths_chars; lia
    |done|lia|apply lengths_nonneg|rewrite total_lengths_chars; lia].
Qed.

Lemma copy_into_data_array_keeps_every_byte_witness :
  exists st',
    copy_all C.unbounded [C.literal "abc"; C.literal "defgh"; C.literal "ij"]
      (fresh_store 4 3) = C.Ok (tt, st')
    /\ dataOfs st' = 10
    /\ C.read_values (byteData st') (dataOfs st')
        = C.Ok (list_ascii_of_string "abcdefghij")
    /\ byteDataLen st' = 16
    /\ heap_calls st' = [Malloc 8; Memcpy 3; Free 4; Malloc 16; Memcpy 8; Free 8].
Proof.
  destruct (copy_into_data_array_keeps_every_byte (fresh_store 4 3) [] [] 0
              [C.literal "abc"; C.literal "defgh"; C.literal "ij"])
    as (st' & Hrun & Hofs & Hread & _ & _ & Hplain).
  - unfold holds. simpl. repeat split; [vm_compute; discriminate|vm_compute; discriminate|].
    exists (replicate 3 None). repeat split.
  - repeat constructor.
  - vm_compute. discriminate.
  - vm_compute. discriminate.
  - destruct Hplain as [Hcap Hcalls]; [vm_compute; discriminate|vm_compute; discriminate|].
    exists st'. repeat split; [exact Hrun|exact Hofs|exact Hread|exact Hcap|exact Hcalls].
Defined.

(** C6: a class signature of the form [L<name>;] goes into the store as
    [<name>], any other signature as it is; so [Lcom/example/Foo;] goes
    in as [com/example/Foo], and [I] and [[I] unchanged. *)
Theorem copy_class_name_strips_the_wrapper grants st :
  (forall name,
     C.NUL ∉ name -> Z.of_nat (length name) + 2 <= C.INT_MAX ->
     copy_class_name grants (("L"%char :: name ++ [";"%char]) ++ [C.NUL]) st
     = copy_into_data_array grants (name ++ [C.NUL]) st)
  /\ (forall s,
        C.NUL ∉ s -> Z.of_nat (length s) <= C.INT_MAX ->
        (forall name, s <> "L"%char :: name ++ [";"%char]) ->
        copy_class_name grants (s ++ [C.NUL]) st
        = copy_into_data_array grants (s ++ [C.NUL]) st)
  /\ copy_class_name grants (C.literal "Lcom/example/Foo;") st
      = copy_into_data_array grants (C.literal "com/example/Foo") st
  /\ copy_class_name grants (C.literal "I") st
      = copy_into_data_array grants (C.literal "I") st
  /\ copy_class_name grants (C.literal "[I") st
      = copy_into_data_array grants (C.literal "[I") st.
Proof.
  split_and!.
  - intros name Hnul Hlen.
    assert (C.NUL ∉ "L"%char :: name ++ [";"%char]) as Hnul'.
    { rewrite not_elem_of_cons, not_elem_of_app, not_elem_of_cons. split_and!; try done.
      apply not_elem_of_nil. }
    rewrite copy_class_name_demangles.
    + by rewrite chars_app_NUL, demangled_wrapped.
    + apply terminated_app_NUL.
    + rewrite chars_app_NUL by done. simpl. rewrite length_app. simpl. lia.
  - intros s Hnul Hlen Hother.
    rewrite copy_class_name_demangles.
    + by rewrite chars_app_NUL, demangled_other.
    + apply terminated_app_NUL.
    + by rewrite chars_app_NUL.
  - by rewrite copy_class_name_demangles.
  - by rewrite copy_class_name_demangles.
  - by rewrite copy_class_name_demangles.
Qed.

Lemma copy_class_name_strips_the_wrapper_witness :
  copy_class_name C.unbounded
    (("L"%char :: list_ascii_of_string "Foo" ++ [";"%char]) ++ [C.NUL]) (fresh_store 4 1)
  = copy_into_data_array C.unbounded (list_ascii_of_string "Foo" ++ [C.NUL]) (fresh_store 4 1)
  /\ copy_class_name C.unbounded (list_ascii_of_string "[J" ++ [C.NUL]) (fresh_store 4 1)
     = copy_into_data_array C.unbounded (list_ascii_of_string "[J" ++ [C.NUL])
         (fresh_store 4 1).
Proof.
  split.
  - apply (proj1 (copy_class_name_strips_the_wrapper C.unbounded (fresh_store 4 1))).
    + vm_compute. intros H. repeat (apply elem_of_cons in H as [H|H]; [discriminate|]).
      by apply elem_of_nil in H.
    + vm_compute. discriminate.
  - apply (proj1 (proj2 (copy_class_name_strips_the_wrapper C.unbounded (fresh_store 4 1)))).
    + vm_compute. intros H. repeat (apply elem_of_cons in H as [H|H]; [discriminate|]).
      by apply elem_of_nil in H.
    + vm_compute. discriminate.
    + intros name. vm_compute. discriminate.
Defined.

Lemma free_released {A} (p q : C.ptr A) : C.free p = C.Ok q -> C.released q.
Proof. destruct p; intros [= <-]; done. Qed.

Lemma lift_inv {S A} (r : C.res A) (s : S) a s' :
  C.lift r s = C.Ok (a, s') -> r = C.Ok a /\ s' = s.
Proof. unfold C.lift. destruct r; [|done]. by intros [= -> ->]. Qed.

(** What is read from a buffer that was filled is what it was filled
    with. *)
Lemma load_filled {A} (buf filled : C.ptr A) vs k v :
  C.write_cells buf 0 (Some <$> vs) = C.Ok filled -> (k < length vs)%nat ->
  C.load filled (Z.of_nat k) = C.Ok v -> vs !! k = Some v.
Proof.
  intros Hfill Hk Hload. unfold C.write_cells in Hfill.
  destruct (Some <$> vs) as [|c cs] eqn:Hvs.
  { destruct vs; [simpl in Hk; lia|done]. }
  rewrite <- Hvs in Hfill. clear c cs Hvs.
  destruct (C.deref buf) as [cells|]; [|done].
  destruct (_ || _); [done|]. injection Hfill as <-.
  unfold C.load in Hload. cbn [C.deref] in Hload.
  destruct (Z.ltb_spec (Z.of_nat k) 0); [lia|]. rewrite Nat2Z.id in Hload.
  change (Z.to_nat 0) with 0%nat in Hload. cbn [take app] in Hload.
  rewrite lookup_app_l, list_lookup_fmap in Hload by (by rewrite length_fmap).
  destruct (vs !! k) as [v'|]; [|done]. simpl in Hload. congruence.
Qed.

(** What a call of the encoder that came to its end was given and has
    done, whatever the allocator answered. *)
Lemma getMethodNames_returned env strings grants nMethods jmethodIds packedArrayOffsets
    (w w' : world packed_store) ret :
  getMethodNamesForJMethodIds env strings grants nMethods jmethodIds packedArrayOffsets w
  = C.Ok (ret, w') ->
  exists ids old bytes offsets,
    heap w !! jmethodIds = Some (LongArray ids)
    /\ region_ok 0 nMethods ids = true
    /\ heap w !! packedArrayOffsets = Some (IntArray old)
    /\ region_ok 0 (C.int_mul nMethods PACKEDARR_ITEMS) old = true
    /\ ret = fresh_ref (heap w)
    /\ heap w' = <[packedArrayOffsets := IntArray (splice 0 offsets old)]>
                   (<[ret := ByteArray bytes]> (heap w))
    /\ C.released (byteData (globals w'))
    /\ C.released (strOffsets (globals w'))
    /\ Forall (fun m => well_defined env m = true)
         (handles (take (Z.to_nat nMethods) ids)).
Proof.
  intros Hrun.
  unfold Java_org_netbeans_lib_profiler_server_system_Stacks_getMethodNamesForJMethodIds
    in Hrun.
  apply bind_inv in Hrun as (methodIds & s1 & Hget & Hrun).
  apply GetLongArrayRegion_Ok in Hget as (ids & filled & Hids & Hregion & Hfill & [= -> ->]).
  rewrite drop_0 in Hfill.
  unfold C.bind at 1, write_globals at 1, C.modify at 1 in Hrun. cbn [heap trace] in Hrun.
  apply bind_inv in Hrun as ([] & s2 & Hloop & Hrun).
  unfold C.for_loop in Hloop. rewrite Z.sub_0_r in Hloop.
  apply (for_steps_inv
    (fun k _ s => heap s = heap w
                  /\ ((k <= Z.to_nat nMethods)%nat ->
                      Forall (fun m => well_defined env m = true)
                        (handles (take k (take (Z.to_nat nMethods) ids))))))
    in Hloop; [|by split|].
  2:{ intros k [] s [] s' Hk [Hs Hdone] Hbody.
      apply bind_inv in Hbody as (id & s0 & Hload & Hbody).
      apply lift_inv in Hload as [Hload ->]. rewrite Z.add_0_l in Hload.
      apply round_returned in Hbody as (Hid & _ & Hheap & _).
      split; [congruence|]. intros _.
      apply region_ok_spec in Hregion.
      apply (load_filled _ _ _ _ _ Hfill) in Hload; [|rewrite length_take; lia].
      rewrite (take_S_r _ _ _ Hload). unfold handles. rewrite fmap_app.
      apply Forall_app. split; [apply Hdone; lia|]. by repeat constructor. }
  destruct Hloop as [Hloop Hdefined].
  rewrite take_take, Nat.min_id in Hdefined. specialize (Hdefined (Nat.le_refl _)).
  apply bind_inv in Hrun as (freed & s3 & Hfree & Hrun).
  apply lift_inv in Hfree as [_ ->].
  unfold C.bind at 1, read_globals at 1, C.gets at 1 in Hrun.
  apply bind_inv in Hrun as (r & s4 & Hnew & Hrun).
  apply NewByteArray_Ok in Hnew as (_ & [= -> ->]). rewrite Hloop in *.
  apply bind_inv in Hrun as ([] & s5 & Hbytes & Hrun).
  apply SetByteArrayRegion_Ok in Hbytes as (zeros & bytes & Hret & _ & _ & [= ->]).
  apply bind_inv in Hrun as ([] & s6 & Hoffsets & Hrun).
  apply SetIntArrayRegion_Ok in Hoffsets as (old & offsets & Hold & Hroom & _ & [= ->]).
  apply bind_inv in Hrun as (freedOffsets & s7 & Hfree1 & Hrun).
  apply lift_inv in Hfree1 as [Hfree1 ->].
  apply bind_inv in Hrun as (freedData & s8 & Hfree2 & Hrun).
  apply lift_inv in Hfree2 as [Hfree2 ->].
  unfold C.bind at 1, write_globals at 1, C.modify at 1, C.pure in Hrun.
  injection Hrun as <- <-.
  unfold updated in *. cbn [heap globals trace] in *. rewrite Hloop in *.
  rewrite insert_insert_eq in Hold |- *.
  rewrite lookup_insert_ne in Hold.
  2:{ intros Heq. rewrite <- Heq, lookup_insert_eq in Hold. done. }
  exists ids, old, (splice 0 bytes zeros), offsets.
  split_and!; try done; by eapply free_released.
Qed.







End encoder_claims.

(** ** The snapshot of all threads *)

Section prefixes.
Import Snapshot.
Context {A : Type}.
Implicit Types (p : C.ptr A) (vs : list A).

Lemma store_extends p vs v p' :
  starts_with p vs -> C.store p (Z.of_nat (length vs)) v = C.Ok p' ->
  starts_with p' (vs ++ [v]).
Proof.
  intros Hp Hstore. right. unfold C.store in Hstore.
  destruct p as [|cells|]; [done| |done]. simpl in Hstore.
  destruct (Z.ltb_spec (Z.of_nat (length vs)) 0); [done|].
  destruct (Z.leb_spec (Z.of_nat (length cells)) (Z.of_nat (length vs))); [done|].
  simpl in Hstore. injection Hstore as <-. rewrite Nat2Z.id.
  assert (cells = (Some <$> vs) ++ drop (length vs) cells) as Hcells.
  { destruct Hp as [->|[rest [= ->]]]; [by rewrite drop_0|].
    by rewrite drop_app_length' by (by rewrite length_fmap). }
  destruct (lookup_lt_is_Some_2 cells (length vs)) as [c Hc]; [lia|].
  exists (drop (S (length vs)) cells).
  rewrite Hcells at 1. rewrite (drop_S _ _ _ Hc).
  rewrite <- (length_fmap Some vs) at 1. rewrite <- (Nat.add_0_r (length (Some <$> vs))).
  rewrite insert_app_r. simpl. by rewrite fmap_app, <- app_assoc.
Qed.

Lemma read_starts_with p vs n read :
  starts_with p vs -> n = Z.of_nat (length vs) -> C.read_values p n = C.Ok read ->
  read = vs.
Proof.
  intros [->|[rest ->]] -> Hread.
  - simpl in Hread. by injection Hread as <-.
  - rewrite read_values_prefix in Hread by done. by injection Hread as <-.
Qed.
End prefixes.

Section snapshot.
Import JNI JVMTI Stacks Packed Snapshot.

Implicit Types (w s : world class_cache) (h : gmap N object).

(** A capture that reports an error changes nothing but the trace. *)
Lemma getAllStackTraces_failed env grants conv threads states frames w err out :
  GetAllStackTraces env MAX_FRAMES = (err, out) ->
  succeeded err = false ->
  getAllStackTraces env grants conv threads states frames w
  = C.Ok (tt, World (globals w) (heap w) (trace w ++ [JvmtiGetAllStackTraces MAX_FRAMES])).
Proof.
  intros Hcap Herr.
  unfold Java_org_netbeans_lib_profiler_server_system_Stacks_getAllStackTraces.
  unfold C.bind at 1, log at 1, C.modify at 1. rewrite Hcap.
  destruct out as [[mem infos] n]. by rewrite Herr.
Qed.

Lemma cache_class_Ok cached name w res :
  cache_class cached name w = C.Ok res ->
  exists c, res = (Some c, w).
Proof.
  unfold cache_class. destruct cached as [c|].
  - intros [= <-]. by exists c.
  - intros [= <-]. by exists name.
Qed.

(** The identifiers copied for one thread: the converted handles of its
    first [frame_count] frames. *)
Lemma identifier_loop (frames : list jvmtiFrameInfo) n init s id_buffer s' :
  C.for_steps n 0 init
    (fun fi id_buffer =>
       do frame <- element frames fi;
       C.lift (C.store id_buffer fi (convert_jmethodID_to_jlong (method frame)))) s
  = C.Ok (id_buffer, s') ->
  s' = s /\ (n <= length frames)%nat
  /\ starts_with id_buffer (identifiers (take n frames)).
Proof.
  intros Hrun.
  apply (for_steps_inv
    (fun k acc t => t = s /\ (k <= length frames)%nat
                    /\ starts_with acc (identifiers (take k frames))))
    in Hrun; [done| |].
  - split_and!; [done|lia|by left].
  - intros k acc t acc' t' Hk (-> & Hlen & Hacc) Hbody.
    apply bind_inv in Hbody as (frame & t1 & Helem & Hstore).
    unfold element in Helem. rewrite Z.add_0_l in *.
    destruct (Z.ltb_spec (Z.of_nat k) 0); [done|]. rewrite Nat2Z.id in Helem.
    destruct (frames !! k) as [f|] eqn:Hf; [|done].
    injection Helem as <- <-.
    unfold C.lift in Hstore.
    destruct (C.store acc _ _) as [p|] eqn:Hp; [|done]. injection Hstore as <- <-.
    split_and!; [done|by apply lookup_lt_Some in Hf|].
    rewrite (take_S_r _ _ _ Hf). unfold identifiers in *. rewrite fmap_app. simpl.
    eapply store_extends; [done|].
    rewrite length_fmap, length_take, Nat.min_l by lia. done.
Qed.

Section rounds.
Variable conv : Z -> Z.
Variable infos : list jvmtiStackInfo.
Variable count : nat.
Variables jthreadArr methodIdArrArr : jobject.
Variables cT cL : string.
Variable h0 : gmap N object.
Variable grants : C.allocator.
Variable t0 : list event.
Variable g : class_cache.

Hypothesis arrays_differ : jthreadArr <> methodIdArrArr.
Hypothesis jthreadArr_known : is_Some (h0 !! jthreadArr).
Hypothesis methodIdArrArr_known : is_Some (h0 !! methodIdArrArr).

Lemma round_copies_thread k state_buffer s state_buffer' s' :
  (k < count)%nat ->
  threads_copied conv infos count jthreadArr methodIdArrArr cT cL h0 t0 g
    k state_buffer s ->
  round conv infos jthreadArr methodIdArrArr grants (0 + Z.of_nat k) state_buffer s
  = C.Ok (state_buffer', s') ->
  threads_copied conv infos count jthreadArr methodIdArrArr cT cL h0 t0 g
    (S k) state_buffer' s'.
Proof.
  intros Hk (refs & evs & Hg & Hinfos & Hrefs & Htrace & Hevs & Hold & HjT & HmA
             & Hsb & Hdone) Hround.
  unfold round in Hround. rewrite Z.add_0_l in Hround.
  (* infop = &stack_info[ti] *)
  apply bind_inv in Hround as (info & s0 & Helem & Hround).
  unfold element in Helem. destruct (Z.ltb_spec (Z.of_nat k) 0); [done|].
  rewrite Nat2Z.id in Helem. destruct (infos !! k) as [info'|] eqn:Hinfo; [|done].
  injection Helem as Ha Hb. subst info' s0.
  (* SetObjectArrayElement(env, jthreadArr, ti, thread) *)
  apply bind_inv in Hround as ([] & s1 & Hset1 & Hround).
  apply SetObjectArrayElement_Ok in Hset1 as (c1 & e1 & He1 & Hi1 & [= ->]).
  rewrite HjT in He1. injection He1 as <- <-.
  (* state_buffer[ti] = ... *)
  apply bind_inv in Hround as (sb1 & s1' & Hstore & Hround).
  unfold C.lift in Hstore.
  destruct (C.store state_buffer _ _) as [p|] eqn:Hp; [|done].
  injection Hstore as Ha Hb. subst sb1 s1'.
  (* jmethodIdArr = NewLongArray(env, frame_count) *)
  apply bind_inv in Hround as (r & s2 & Hnew & Hround).
  apply NewLongArray_Ok in Hnew as (Hfc & [= -> ->]).
  set (s1 := updated s jthreadArr _ _) in *.
  set (r := fresh_ref _) in *.
  assert (r = fresh_ref (heap s1)) as Hr by done.
  (* SetObjectArrayElement(env, methodIdArrArr, ti, jmethodIdArr) *)
  apply bind_inv in Hround as ([] & s3 & Hset2 & Hround).
  apply SetObjectArrayElement_Ok in Hset2 as (c2 & e2 & He2 & Hi2 & [= ->]).
  set (s2 := updated s1 r _ _) in *.
  assert (heap s1 !! methodIdArrArr
          = Some (ObjectArray cL (refs ++ replicate (count - k) null))) as HmA1.
  { subst s1. unfold updated. cbn [heap]. by rewrite lookup_insert_ne. }
  assert (r <> methodIdArrArr) as Hr_mA.
  { rewrite Hr. symmetry. by eapply fresh_ref_other. }
  assert (r <> jthreadArr) as Hr_jT.
  { rewrite Hr. symmetry. eapply fresh_ref_other. subst s1. unfold updated. cbn [heap].
    apply lookup_insert_eq. }
  assert (heap s2 !! methodIdArrArr
          = Some (ObjectArray cL (refs ++ replicate (count - k) null))) as HmA2.
  { subst s2. unfold updated. cbn [heap]. by rewrite lookup_insert_ne. }
  rewrite HmA2 in He2. injection He2 as <- <-.
  set (s3 := updated s2 methodIdArrArr _ _) in *.
  (* the identifiers of the thread's frames *)
  apply bind_inv in Hround as (idb & s3' & Hloop & Hround).
  unfold C.for_loop in Hloop. rewrite Z.sub_0_r in Hloop.
  apply identifier_loop in Hloop as (-> & Hframes & Hidb).
  (* SetLongArrayRegion(env, jmethodIdArr, 0, frame_count, id_buffer) *)
  apply bind_inv in Hround as ([] & s4 & Hset3 & Hround).
  apply SetLongArrayRegion_Ok in Hset3 as (old & vs & Hold3 & Hregion & Hread & [= ->]).
  assert (heap s3 !! r = Some (LongArray (replicate (Z.to_nat (frame_count info)) 0)))
    as Hr3.
  { subst s3 s2. unfold updated. cbn [heap].
    rewrite lookup_insert_ne by done. apply lookup_insert_eq. }
  rewrite Hr3 in Hold3. injection Hold3 as <-.
  apply (read_starts_with _ _ _ _ Hidb) in Hread.
  2:{ unfold identifiers. rewrite length_fmap, length_take. lia. }
  subst vs.
  (* free(id_buffer) *)
  apply bind_inv in Hround as (freed & s5 & Hfree & Hround).
  unfold C.lift in Hfree. destruct (C.free idb); [|done].
  injection Hfree as Ha Hb. subst freed s5.
  unfold C.pure in Hround. injection Hround as Ha Hb. subst state_buffer' s'.
  (* the state after the round *)
  assert (length (identifiers (take (Z.to_nat (frame_count info)) (frame_buffer info)))
          = Z.to_nat (frame_count info)) as Hlen.
  { unfold identifiers. rewrite length_fmap, length_take. lia. }
  rewrite splice_front, Hlen, drop_replicate, Nat.sub_diag, app_nil_r.
  set (ids := identifiers _) in *.
  assert (h0 !! r = None) as Hr0.
  { destruct (h0 !! r) as [o|] eqn:Ho; [|done].
    assert (heap s1 !! r = Some o) as Habs.
    { subst s1. unfold updated. cbn [heap]. rewrite lookup_insert_ne by done.
      by apply Hold. }
    by rewrite Hr, fresh_ref_unused in Habs. }
  assert (heap s !! r = None) as Hr_s.
  { pose proof (fresh_ref_unused (heap s1)) as Hfresh. rewrite <- Hr in Hfresh.
    subst s1. unfold updated in Hfresh. cbn [heap] in Hfresh.
    by rewrite lookup_insert_ne in Hfresh by done. }
  clear Hr.
  exists (refs ++ [r]), (evs ++ [JniSetObjectArrayElement jthreadArr (Z.of_nat k) (thread info);
                                 JniNewArray r;
                                 JniSetObjectArrayElement methodIdArrArr (Z.of_nat k) r;
                                 JniSetLongArrayRegion r 0 (frame_count info)]).
  unfold updated. subst s3 s2 s1. unfold updated. cbn [globals heap trace].
  split_and!.
  - done.
  - apply lookup_lt_Some in Hinfo. lia.
  - rewrite length_app. simpl. lia.
  - rewrite Htrace, <- !app_assoc. done.
  - apply Forall_app. split; [done|]. repeat constructor; intros mem; done.
  - intros r' o Hr' HjT' HmA'.
    assert (r' <> r) by (intros ->; by rewrite Hr0 in Hr').
    rewrite !lookup_insert_ne by done. by apply Hold.
  - rewrite !lookup_insert_ne by done. rewrite lookup_insert_eq.
    do 2 f_equal. rewrite (take_S_r _ _ _ Hinfo), fmap_app. simpl.
    rewrite Nat2Z.id.
    rewrite <- (length_take_le infos k) at 1 by lia.
    rewrite <- (length_fmap thread (take k infos)) at 1.
    rewrite <- (Nat.add_0_r (length (thread <$> take k infos))).
    rewrite insert_app_r.
    replace (count - k)%nat with (S (count - S k)) by lia. simpl.
    by rewrite <- app_assoc.
  - rewrite lookup_insert_ne by done. rewrite lookup_insert_eq.
    do 2 f_equal. rewrite Nat2Z.id.
    rewrite <- Hrefs at 1. rewrite <- (Nat.add_0_r (length refs)).
    rewrite insert_app_r.
    replace (count - k)%nat with (S (count - S k)) by lia. simpl.
    by rewrite <- app_assoc.
  - rewrite (take_S_r _ _ _ Hinfo), fmap_app. simpl.
    eapply store_extends; [done|].
    rewrite length_fmap, length_take, Nat.min_l by lia. done.
  - intros i info_i Hi. rewrite (take_S_r _ _ _ Hinfo) in Hi.
    apply lookup_app_Some in Hi as [Hi|[Hge Hi]].
    + destruct (Hdone i info_i Hi) as (ri & Hri & Hri0 & Hheap & Hfr & E1 & E2 & E3).
      exists ri. split_and!; try done.
      * by apply lookup_app_l_Some.
      * assert (ri <> r).
        { intros ->. by rewrite Hr_s in Hheap. }
        assert (ri <> jthreadArr) by (intros ->; destruct jthreadArr_known; congruence).
        assert (ri <> methodIdArrArr)
          by (intros ->; destruct methodIdArrArr_known; congruence).
        by rewrite !lookup_insert_ne by done.
      * apply elem_of_app. by left.
      * apply elem_of_app. by left.
      * apply elem_of_app. by left.
    + rewrite length_take, Nat.min_l in Hge, Hi by lia.
      assert (i = k) as -> by (apply lookup_lt_Some in Hi; simpl in Hi; lia).
      rewrite Nat.sub_diag in Hi. injection Hi as <-.
      exists r. split_and!.
      * rewrite lookup_app_r by lia. by rewrite Hrefs, Nat.sub_diag.
      * done.
      * apply lookup_insert_eq.
      * done.
      * apply elem_of_app. right. rewrite !elem_of_cons. auto.
      * apply elem_of_app. right. rewrite !elem_of_cons. auto.
      * apply elem_of_app. right. rewrite !elem_of_cons. auto.
Qed.
End rounds.

(** Everything a run of [getAllStackTraces] that came to its end has
    done. *)
Lemma getAllStackTraces_succeeded env grants conv threads states frames w w'
    mem infos n c1 e1 c2 e2 c3 e3 :
  GetAllStackTraces env MAX_FRAMES = (JVMTI_ERROR_NONE, (mem, infos, n)) ->
  heap w !! threads = Some (ObjectArray c1 e1) ->
  heap w !! states = Some (ObjectArray c2 e2) ->
  heap w !! frames = Some (ObjectArray c3 e3) ->
  threads <> states -> threads <> frames -> states <> frames ->
  getAllStackTraces env grants conv threads states frames w = C.Ok (tt, w') ->
  exists jthreadArr statesArr methodIdArrArr cT cL refs evs,
    0 <= n /\ (Z.to_nat n <= length infos)%nat
    /\ heap w' !! threads = Some (ObjectArray c1 (<[0%nat := jthreadArr]> e1))
    /\ heap w' !! states = Some (ObjectArray c2 (<[0%nat := statesArr]> e2))
    /\ heap w' !! frames = Some (ObjectArray c3 (<[0%nat := methodIdArrArr]> e3))
    /\ (0 < length e1)%nat /\ (0 < length e2)%nat /\ (0 < length e3)%nat
    /\ heap w' !! jthreadArr
        = Some (ObjectArray cT (thread <$> take (Z.to_nat n) infos))
    /\ heap w' !! statesArr
        = Some (IntArray ((fun info => conv (state info)) <$> take (Z.to_nat n) infos))
    /\ heap w' !! methodIdArrArr = Some (ObjectArray cL refs)
    /\ length refs = Z.to_nat n
    /\ (forall i info, take (Z.to_nat n) infos !! i = Some info ->
          thread_copied jthreadArr methodIdArrArr (heap w) (heap w') evs refs i info)
    /\ trace w' = trace w ++ [JvmtiGetAllStackTraces MAX_FRAMES] ++ evs
                     ++ [JvmtiDeallocate mem]
    /\ Forall not_release evs
    /\ JniSetObjectArrayElement threads 0 jthreadArr ∈ evs
    /\ JniSetObjectArrayElement states 0 statesArr ∈ evs
    /\ JniSetObjectArrayElement frames 0 methodIdArrArr ∈ evs
    /\ JniSetIntArrayRegion statesArr 0 n ∈ evs.
Proof.
  intros Hcap Hthreads Hstates Hframes Hts Htf Hsf Hrun.
  unfold Java_org_netbeans_lib_profiler_server_system_Stacks_getAllStackTraces in Hrun.
  unfold C.bind at 1, log at 1, C.modify at 1 in Hrun. rewrite Hcap in Hrun.
  cbn [succeeded negb Z.eqb JVMTI_ERROR_NONE] in Hrun.
  set (t0 := trace w ++ [JvmtiGetAllStackTraces MAX_FRAMES]) in *.
  (* the two classes *)
  unfold C.bind at 1, read_globals at 1, C.gets at 1 in Hrun. cbn [globals] in Hrun.
  apply bind_inv in Hrun as (tT & s & Hclass & Hrun).
  apply cache_class_Ok in Hclass as (cT & [= -> ->]).
  unfold C.bind at 1, write_globals at 1, C.modify at 1 in Hrun. cbn [heap trace] in Hrun.
  unfold C.bind at 1, read_globals at 1, C.gets at 1 in Hrun. cbn [globals] in Hrun.
  apply bind_inv in Hrun as (lA & s & Hclass & Hrun).
  apply cache_class_Ok in Hclass as (cL & [= -> ->]).
  unfold C.bind at 1, write_globals at 1, C.modify at 1 in Hrun.
  cbn [globals heap trace] in Hrun.
  unfold C.bind at 1, read_globals at 1, C.gets at 1 in Hrun.
  cbn [globals threadType longArrType] in Hrun.
  set (g := ClassCache (Some cT) (Some cL)) in *.
  (* jthreadArr and its holder *)
  apply bind_inv in Hrun as (jthreadArr & s & Hnew & Hrun).
  apply NewObjectArray_Ok in Hnew as (? & [= <-] & Hn & [= -> ->]).
  cbn [heap] in Hrun. set (s1 := updated _ _ _ _) in *.
  assert (heap s1 !! fresh_ref (heap w)
          = Some (ObjectArray cT (replicate (Z.to_nat n) null))) as HjT1
    by apply lookup_insert_eq.
  pose proof (fresh_ref_unused (heap w)) as HjT0.
  set (jthreadArr := fresh_ref (heap w)) in *.
  apply bind_inv in Hrun as ([] & s & Hset & Hrun).
  apply SetObjectArrayElement_Ok in Hset as (? & ? & Hlook & Hi1 & [= ->]).
  assert (threads <> jthreadArr) as Ht_jT by (intros ->; congruence).
  assert (states <> jthreadArr) as Hs_jT by (intros ->; congruence).
  assert (frames <> jthreadArr) as Hf_jT by (intros ->; congruence).
  assert (heap s1 !! threads = Some (ObjectArray c1 e1)) as Hthreads1.
  { subst s1. unfold updated. cbn [heap]. by rewrite lookup_insert_ne. }
  rewrite Hthreads1 in Hlook. injection Hlook as <- <-.
  set (s2 := updated s1 threads _ _) in *.
  assert (heap s2 !! threads = Some (ObjectArray c1 (<[0%nat := jthreadArr]> e1)))
    as Hthreads2 by apply lookup_insert_eq.
  assert (heap s2 !! jthreadArr = Some (ObjectArray cT (replicate (Z.to_nat n) null)))
    as HjT2.
  { subst s2. unfold updated. cbn [heap]. by rewrite lookup_insert_ne. }
  assert (heap s2 !! states = Some (ObjectArray c2 e2)) as Hstates2.
  { subst s2 s1. unfold updated. cbn [heap]. by rewrite !lookup_insert_ne. }
  assert (heap s2 !! frames = Some (ObjectArray c3 e3)) as Hframes2.
  { subst s2 s1. unfold updated. cbn [heap]. by rewrite !lookup_insert_ne. }
  assert (trace s2 = t0 ++ [JniNewArray jthreadArr;
                            JniSetObjectArrayElement threads 0 jthreadArr]) as Htrace2.
  { subst s2 s1. unfold updated. cbn [trace]. by rewrite <- app_assoc. }
  assert (globals s2 = g) as Hg2 by done.
  assert (forall r o, heap w !! r = Some o -> is_Some (heap s2 !! r)) as Hdom2.
  { intros r o Hr. subst s2 s1. unfold updated. cbn [heap].
    rewrite !lookup_insert_is_Some. destruct (decide (threads = r)); [by left|right].
    split; [done|]. destruct (decide (jthreadArr = r)); [by left|right]. by split. }
  clearbody s2. clear s1 HjT1 Hthreads1.
  (* statesArr and its holder *)
  apply bind_inv in Hrun as (statesArr & s & Hnew & Hrun).
  apply NewIntArray_Ok in Hnew as (_ & [= -> ->]).
  pose proof (fresh_ref_unused (heap s2)) as HsA0.
  set (statesArr := fresh_ref (heap s2)) in *.
  set (s3 := updated s2 statesArr _ _) in *.
  apply bind_inv in Hrun as ([] & s & Hset & Hrun).
  apply SetObjectArrayElement_Ok in Hset as (? & ? & Hlook & Hi2 & [= ->]).
  assert (threads <> statesArr) as Ht_sA by (intros ->; congruence).
  assert (states <> statesArr) as Hs_sA by (intros ->; congruence).
  assert (frames <> statesArr) as Hf_sA by (intros ->; congruence).
  assert (jthreadArr <> statesArr) as HjT_sA by (intros Heq; congruence).
  assert (heap s3 !! states = Some (ObjectArray c2 e2)) as Hstates3.
  { subst s3. unfold updated. cbn [heap]. by rewrite lookup_insert_ne. }
  rewrite Hstates3 in Hlook. injection Hlook as <- <-.
  set (s4 := updated s3 states _ _) in *.
  assert (heap s4 !! threads = Some (ObjectArray c1 (<[0%nat := jthreadArr]> e1)))
    as Hthreads4.
  { subst s4 s3. unfold updated. cbn [heap]. by rewrite !lookup_insert_ne. }
  assert (heap s4 !! states = Some (ObjectArray c2 (<[0%nat := statesArr]> e2)))
    as Hstates4 by apply lookup_insert_eq.
  assert (heap s4 !! frames = Some (ObjectArray c3 e3)) as Hframes4.
  { subst s4 s3. unfold updated. cbn [heap]. by rewrite !lookup_insert_ne. }
  assert (heap s4 !! jthreadArr = Some (ObjectArray cT (replicate (Z.to_nat n) null)))
    as HjT4.
  { subst s4 s3. unfold updated. cbn [heap]. by rewrite !lookup_insert_ne. }
  assert (heap s4 !! statesArr = Some (IntArray (replicate (Z.to_nat n) 0))) as HsA4.
  { subst s4 s3. unfold updated. cbn [heap].
    rewrite lookup_insert_ne by done. apply lookup_insert_eq. }
  assert (trace s4 = t0 ++ [JniNewArray jthreadArr;
                            JniSetObjectArrayElement threads 0 jthreadArr;
                            JniNewArray statesArr;
                            JniSetObjectArrayElement states 0 statesArr]) as Htrace4.
  { subst s4 s3. unfold updated. cbn [trace]. rewrite Htrace2, <- !app_assoc. done. }
  assert (globals s4 = g) as Hg4 by done.
  assert (forall r o, heap w !! r = Some o -> is_Some (heap s4 !! r)) as Hdom4.
  { intros r o Hr. subst s4 s3. unfold updated. cbn [heap].
    rewrite !lookup_insert_is_Some. destruct (decide (states = r)); [by left|right].
    split; [done|]. destruct (decide (statesArr = r)); [by left|right].
    split; [done|]. by eapply Hdom2. }
  clearbody s4 statesArr. clear s3 Hstates3 Hthreads2 Hstates2 Hframes2 HjT2 Htrace2 Hdom2 HsA0 Hg2.
  clear s2.
  (* methodIdArrArr and its holder *)
  apply bind_inv in Hrun as (methodIdArrArr & s & Hnew & Hrun).
  apply NewObjectArray_Ok in Hnew as (? & [= <-] & _ & [= -> ->]).
  pose proof (fresh_ref_unused (heap s4)) as HmA0.
  set (methodIdArrArr := fresh_ref (heap s4)) in *.
  set (s5 := updated s4 methodIdArrArr _ _) in *.
  apply bind_inv in Hrun as ([] & s & Hset & Hrun).
  apply SetObjectArrayElement_Ok in Hset as (? & ? & Hlook & Hi3 & [= ->]).
  assert (threads <> methodIdArrArr) as Ht_mA by (intros ->; congruence).
  assert (states <> methodIdArrArr) as Hs_mA by (intros ->; congruence).
  assert (frames <> methodIdArrArr) as Hf_mA by (intros ->; congruence).
  assert (jthreadArr <> methodIdArrArr) as HjT_mA by (intros Heq; congruence).
  assert (statesArr <> methodIdArrArr) as HsA_mA by (intros Heq; congruence).
  assert (heap s5 !! frames = Some (ObjectArray c3 e3)) as Hframes5.
  { subst s5. unfold updated. cbn [heap]. by rewrite lookup_insert_ne. }
  rewrite Hframes5 in Hlook. injection Hlook as <- <-.
  set (s6 := updated s5 frames _ _) in *.
  assert (heap s6 !! threads = Some (ObjectArray c1 (<[0%nat := jthreadArr]> e1)))
    as Hthreads6.
  { subst s6 s5. unfold updated. cbn [heap]. by rewrite !lookup_insert_ne. }
  assert (heap s6 !! states = Some (ObjectArray c2 (<[0%nat := statesArr]> e2)))
    as Hstates6.
  { subst s6 s5. unfold updated. cbn [heap]. by rewrite !lookup_insert_ne. }
  assert (heap s6 !! frames = Some (ObjectArray c3 (<[0%nat := methodIdArrArr]> e3)))
    as Hframes6 by apply lookup_insert_eq.
  assert (heap s6 !! jthreadArr = Some (ObjectArray cT (replicate (Z.to_nat n) null)))
    as HjT6.
  { subst s6 s5. unfold updated. cbn [heap]. by rewrite !lookup_insert_ne. }
  assert (heap s6 !! statesArr = Some (IntArray (replicate (Z.to_nat n) 0))) as HsA6.
  { subst s6 s5. unfold updated. cbn [heap]. by rewrite !lookup_insert_ne. }
  assert (heap s6 !! methodIdArrArr
          = Some (ObjectArray cL (replicate (Z.to_nat n) null))) as HmA6.
  { subst s6 s5. unfold updated. cbn [heap].
    rewrite lookup_insert_ne by done. apply lookup_insert_eq. }
  set (setup := [JniNewArray jthreadArr;
                 JniSetObjectArrayElement threads 0 jthreadArr;
                 JniNewArray statesArr;
                 JniSetObjectArrayElement states 0 statesArr;
                 JniNewArray methodIdArrArr;
                 JniSetObjectArrayElement frames 0 methodIdArrArr]).
  assert (trace s6 = t0 ++ setup) as Htrace6.
  { subst s6 s5. unfold updated. cbn [trace]. rewrite Htrace4, <- !app_assoc. done. }
  assert (globals s6 = g) as Hg6 by done.
  assert (forall r o, heap w !! r = Some o -> is_Some (heap s6 !! r)) as Hdom6.
  { intros r o Hr. subst s6 s5. unfold updated. cbn [heap].
    rewrite !lookup_insert_is_Some. destruct (decide (frames = r)); [by left|right].
    split; [done|]. destruct (decide (methodIdArrArr = r)); [by left|right].
    split; [done|]. by eapply Hdom4. }
  clearbody s6 methodIdArrArr. clear s5 Hframes5 Hthreads4 Hstates4 Hframes4 HjT4 HsA4 Htrace4 Hdom4 HmA0 Hg4.
  clear s4.
  (* the loop over the threads *)
  apply bind_inv in Hrun as (state_buffer & s7 & Hloop & Hrun).
  unfold C.for_loop in Hloop. rewrite Z.sub_0_r in Hloop.
  change (C.for_steps (Z.to_nat n) 0 (C.calloc grants 0 (C.size_t_of n) sizeof_jint)
            (round conv infos jthreadArr methodIdArrArr grants) s6
          = C.Ok (state_buffer, s7)) in Hloop.
  apply (for_steps_inv
           (threads_copied conv infos (Z.to_nat n) jthreadArr methodIdArrArr cT cL
              (heap s6) (t0 ++ setup) g)) in Hloop.
  2:{ exists [], []. rewrite take_0, Nat.sub_0_r, app_nil_r. simpl.
      split_and!; try done; [lia|by left]. }
  2:{ intros k acc s acc' s' Hk Hinv Hbody.
      eapply round_copies_thread; [done|by eexists|by eexists|done|done|done]. }
  destruct Hloop as (refs & evs & Hg7 & Hinfos & Hrefs & Htrace7 & Hevs & Hold & HjT7 & HmA7
                     & Hsb & Hdone).
  rewrite Nat.sub_diag, app_nil_r in HjT7, HmA7. 
  (* SetIntArrayRegion(env, statesArr, 0, thread_count, state_buffer) *)
  apply bind_inv in Hrun as ([] & s8 & Hset & Hrun).
  apply SetIntArrayRegion_Ok in Hset as (old & codes & Hlook & _ & Hread & [= ->]).
  rewrite (Hold _ _ HsA6) in Hlook by done. injection Hlook as <-.
  apply (read_starts_with _ _ _ _ Hsb) in Hread.
  2:{ rewrite length_fmap, length_take, Nat.min_l by done. by rewrite Z2Nat.id. }
  subst codes.
  (* Deallocate and the end *)
  unfold C.bind at 1, log at 1, C.modify at 1 in Hrun.
  destruct (negb (succeeded (Deallocate env mem))); [done|].
  apply bind_inv in Hrun as (freed & s9 & Hfree & Hrun).
  unfold C.lift in Hfree. destruct (C.free state_buffer); [|done].
  injection Hfree as _ <-. unfold C.pure in Hrun. injection Hrun as <-.
  unfold updated. cbn [heap trace globals].
  set (codes := (fun info => conv (state info)) <$> take (Z.to_nat n) infos) in *.
  assert (splice 0 codes (replicate (Z.to_nat n) 0) = codes) as ->.
  { rewrite splice_front. subst codes.
    rewrite length_fmap, length_take, Nat.min_l, drop_replicate, Nat.sub_diag by done.
    apply app_nil_r. }
  exists jthreadArr, statesArr, methodIdArrArr, cT, cL, refs,
    (setup ++ evs ++ [JniSetIntArrayRegion statesArr 0 n]).
  split_and!.
  - done.
  - done.
  - rewrite lookup_insert_ne by done. by apply Hold.
  - rewrite lookup_insert_ne by done. by apply Hold.
  - rewrite lookup_insert_ne by done. by apply Hold.
  - clear -Hi1. lia.
  - clear -Hi2. lia.
  - clear -Hi3. lia.
  - by rewrite lookup_insert_ne.
  - apply lookup_insert_eq.
  - by rewrite lookup_insert_ne.
  - done.
  - intros i info Hi.
    destruct (Hdone i info Hi) as (r & Hr & Hr0 & Hheap & Hfr & E1 & E2 & E3).
    exists r. split_and!; try done.
    + destruct (heap w !! r) as [o|] eqn:Ho; [|done].
      destruct (Hdom6 _ _ Ho) as [o' Ho']. congruence.
    + rewrite lookup_insert_ne; [done|]. intros <-. congruence.
    + rewrite !elem_of_app. auto.
    + rewrite !elem_of_app. auto.
    + rewrite !elem_of_app. auto.
  - rewrite Htrace7. subst t0. rewrite <- !app_assoc. done.
  - rewrite !Forall_app. split_and!; [|done|].
    + subst setup. repeat constructor; intros ?; done.
    + repeat constructor; intros ?; done.
  - rewrite elem_of_app. left. subst setup. rewrite !elem_of_cons. auto.
  - rewrite elem_of_app. left. subst setup. rewrite !elem_of_cons. auto.
  - rewrite elem_of_app. left. subst setup. rewrite !elem_of_cons. auto 10.
  - rewrite !elem_of_app, !elem_of_cons. auto.
Qed.

(** C5: when the capture of all stacks reports an error the call
    returns at once: the Java heap, and with it the three holders, is as
    it was, and no JNI call was made. *)
Theorem getAllStackTraces_failure_leaves_no_data env grants conv threads states frames
    (w : world class_cache) err out :
  GetAllStackTraces env MAX_FRAMES = (err, out) ->
  err <> JVMTI_ERROR_NONE ->
  exists w',
    getAllStackTraces env grants conv threads states frames w = C.Ok (tt, w')
    /\ heap w' = heap w
    /\ globals w' = globals w
    /\ trace w' = trace w ++ [JvmtiGetAllStackTraces MAX_FRAMES].
Proof.
  intros Hcap Herr. eexists. split.
  - eapply getAllStackTraces_failed; [done|].
    unfold succeeded. by apply Z.eqb_neq.
  - done.
Qed.

Lemma getAllStackTraces_failure_leaves_no_data_witness :
  exists w',
    getAllStackTraces Sample.failing_runtime C.unbounded Sample.status_of 31%N 32%N 33%N
      Sample.snapshot_world = C.Ok (tt, w')
    /\ heap w' = Sample.java_heap
    /\ trace w' = [JvmtiGetAllStackTraces MAX_FRAMES].
Proof.
  destruct (getAllStackTraces_failure_leaves_no_data Sample.failing_runtime C.unbounded
              Sample.status_of 31%N 32%N 33%N Sample.snapshot_world
              Sample.JVMTI_ERROR_INTERNAL (0, [], 0))
    as (w' & Hrun & Hheap & _ & Htrace).
  - reflexivity.
  - vm_compute. discriminate.
  - exists w'. repeat split; assumption.
Defined.

(** C4: after a run that came to its end, the three holders hold three
    arrays of [thread_count] entries, and at every index the thread
    handle, the translated state and the identifier list come from the
    stack-info record of that index. *)
Theorem getAllStackTraces_outputs_are_aligned env grants conv threads states frames
    (w w' : world class_cache) mem infos n c1 e1 c2 e2 c3 e3 :
  GetAllStackTraces env MAX_FRAMES = (JVMTI_ERROR_NONE, (mem, infos, n)) ->
  heap w !! threads = Some (ObjectArray c1 e1) ->
  heap w !! states = Some (ObjectArray c2 e2) ->
  heap w !! frames = Some (ObjectArray c3 e3) ->
  threads <> states -> threads <> frames -> states <> frames ->
  getAllStackTraces env grants conv threads states frames w = C.Ok (tt, w') ->
  exists jthreadArr statesArr methodIdArrArr cT cL handles codes lists,
    heap w' !! threads = Some (ObjectArray c1 (<[0%nat := jthreadArr]> e1))
    /\ heap w' !! states = Some (ObjectArray c2 (<[0%nat := statesArr]> e2))
    /\ heap w' !! frames = Some (ObjectArray c3 (<[0%nat := methodIdArrArr]> e3))
    /\ (0 < length e1)%nat /\ (0 < length e2)%nat /\ (0 < length e3)%nat
    /\ heap w' !! jthreadArr = Some (ObjectArray cT handles)
    /\ heap w' !! statesArr = Some (IntArray codes)
    /\ heap w' !! methodIdArrArr = Some (ObjectArray cL lists)
    /\ 0 <= n
    /\ length handles = Z.to_nat n
    /\ length codes = Z.to_nat n
    /\ length lists = Z.to_nat n
    /\ forall i, (i < Z.to_nat n)%nat ->
         exists info r,
           infos !! i = Some info
           /\ handles !! i = Some (thread info)
           /\ codes !! i = Some (conv (state info))
           /\ lists !! i = Some r
           /\ heap w' !! r
              = Some (LongArray (identifiers (take (Z.to_nat (frame_count info))
                                               (frame_buffer info)))).
Proof.
  intros Hcap Hthreads Hstates Hframes Hts Htf Hsf Hrun.
  destruct (getAllStackTraces_succeeded _ _ _ _ _ _ _ _ _ _ _ _ _ _ _ _ _
              Hcap Hthreads Hstates Hframes Hts Htf Hsf Hrun)
    as (jthreadArr & statesArr & methodIdArrArr & cT & cL & refs & evs & Hn & Hinfos
        & H1 & H2 & H3 & L1 & L2 & L3 & HjT & HsA & HmA & Hrefs & Hcopied & _).
  exists jthreadArr, statesArr, methodIdArrArr, cT, cL.
  eexists _, _, refs. split_and!; try done.
  - by rewrite length_fmap, length_take, Nat.min_l.
  - by rewrite length_fmap, length_take, Nat.min_l.
  - intros i Hi.
    destruct (lookup_lt_is_Some_2 infos i) as [info Hinfo]; [lia|].
    assert (take (Z.to_nat n) infos !! i = Some info) as Htake
      by (by rewrite lookup_take_lt).
    destruct (Hcopied i info Htake) as (r & Hr & _ & Hheap & _).
    exists info, r. rewrite !list_lookup_fmap, Htake. done.
Qed.

(** C9: in a run that came to its end the memory of the snapshot is
    released by one [Deallocate] call, the last call of the run; every
    call that fills one of the three output sequences comes before it. *)
Theorem getAllStackTraces_releases_once_at_the_end env grants conv threads states frames
    (w w' : world class_cache) mem infos n c1 e1 c2 e2 c3 e3 :
  GetAllStackTraces env MAX_FRAMES = (JVMTI_ERROR_NONE, (mem, infos, n)) ->
  heap w !! threads = Some (ObjectArray c1 e1) ->
  heap w !! states = Some (ObjectArray c2 e2) ->
  heap w !! frames = Some (ObjectArray c3 e3) ->
  threads <> states -> threads <> frames -> states <> frames ->
  getAllStackTraces env grants conv threads states frames w = C.Ok (tt, w') ->
  exists evs jthreadArr statesArr methodIdArrArr,
    trace w' = trace w ++ [JvmtiGetAllStackTraces MAX_FRAMES] ++ evs
                 ++ [JvmtiDeallocate mem]
    /\ Forall not_release evs
    /\ JniSetObjectArrayElement threads 0 jthreadArr ∈ evs
    /\ JniSetObjectArrayElement states 0 statesArr ∈ evs
    /\ JniSetObjectArrayElement frames 0 methodIdArrArr ∈ evs
    /\ JniSetIntArrayRegion statesArr 0 n ∈ evs
    /\ forall i, (i < Z.to_nat n)%nat ->
         exists info r,
           infos !! i = Some info
           /\ JniSetObjectArrayElement jthreadArr (Z.of_nat i) (thread info) ∈ evs
           /\ JniSetObjectArrayElement methodIdArrArr (Z.of_nat i) r ∈ evs
           /\ JniSetLongArrayRegion r 0 (frame_count info) ∈ evs.
Proof.
  intros Hcap Hthreads Hstates Hframes Hts Htf Hsf Hrun.
  destruct (getAllStackTraces_succeeded _ _ _ _ _ _ _ _ _ _ _ _ _ _ _ _ _
              Hcap Hthreads Hstates Hframes Hts Htf Hsf Hrun)
    as (jthreadArr & statesArr & methodIdArrArr & cT & cL & refs & evs & Hn & Hinfos
        & _ & _ & _ & _ & _ & _ & _ & _ & _ & _ & Hcopied & Htrace & Hevs
        & E1 & E2 & E3 & E4).
  exists evs, jthreadArr, statesArr, methodIdArrArr. split_and!; try done.
  intros i Hi.
  destruct (lookup_lt_is_Some_2 infos i) as [info Hinfo]; [lia|].
  assert (take (Z.to_nat n) infos !! i = Some info) as Htake
    by (by rewrite lookup_take_lt).
  destruct (Hcopied i info Htake) as (r & _ & _ & _ & _ & ? & ? & ?).
  by exists info, r.
Qed.

Lemma getAllStackTraces_outputs_are_aligned_witness :
  exists w',
    getAllStackTraces Sample.runtime C.unbounded Sample.status_of 31%N 32%N 33%N
      Sample.snapshot_world = C.Ok (tt, w')
    /\ exists jthreadArr statesArr handles codes,
         heap w' !! 31%N = Some (ObjectArray "[Ljava/lang/Thread;" [jthreadArr])
         /\ heap w' !! 32%N = Some (ObjectArray "[I" [statesArr])
         /\ heap w' !! jthreadArr = Some (ObjectArray "java/lang/Thread" handles)
         /\ heap w' !! statesArr = Some (IntArray codes)
         /\ handles !! 0%nat = Some 7%N /\ codes !! 0%nat = Some 1005
         /\ handles !! 1%nat = Some 9%N /\ codes !! 1%nat = Some 1001.
Proof.
  destruct (getAllStackTraces Sample.runtime C.unbounded Sample.status_of 31%N 32%N 33%N
              Sample.snapshot_world) as [[[] w']|f] eqn:Hrun;
    [|vm_compute in Hrun; discriminate].
  exists w'. split; [reflexivity|].
  destruct (getAllStackTraces_outputs_are_aligned Sample.runtime C.unbounded
              Sample.status_of 31%N 32%N 33%N Sample.snapshot_world w' 4096
              [StackInfo 7%N 5 (take 2 Sample.stack7) 2; StackInfo 9%N 1 [] 0] 2
              "[Ljava/lang/Thread;" [null] "[I" [null] "[[J" [null])
    as (jthreadArr & statesArr & methodIdArrArr & cT & cL & handles & codes & lists
        & H1 & H2 & _ & _ & _ & _ & HjT & HsA & _ & _ & _ & _ & _ & Hall).
  - reflexivity.
  - reflexivity.
  - reflexivity.
  - reflexivity.
  - discriminate.
  - discriminate.
  - discriminate.
  - exact Hrun.
  - assert (cT = "java/lang/Thread"%string) as ->.
    { vm_compute in Hrun. injection Hrun as <-.
      vm_compute in H1. injection H1 as <-. vm_compute in HjT. by injection HjT as <- _. }
    exists jthreadArr, statesArr, handles, codes.
    destruct (Hall 0%nat) as (i0 & r0 & Hi0 & Hh0 & Hc0 & _); [vm_compute; lia|].
    destruct (Hall 1%nat) as (i1 & r1 & Hi1 & Hh1 & Hc1 & _); [vm_compute; lia|].
    injection Hi0 as <-. injection Hi1 as <-.
    repeat split; assumption.
Defined.

Lemma getAllStackTraces_releases_once_at_the_end_witness :
  exists w' evs,
    getAllStackTraces Sample.runtime C.unbounded Sample.status_of 31%N 32%N 33%N
      Sample.snapshot_world = C.Ok (tt, w')
    /\ trace w' = [JvmtiGetAllStackTraces MAX_FRAMES] ++ evs ++ [JvmtiDeallocate 4096]
    /\ Forall not_release evs.
Proof.
  destruct (getAllStackTraces Sample.runtime C.unbounded Sample.status_of 31%N 32%N 33%N
              Sample.snapshot_world) as [[[] w']|f] eqn:Hrun;
    [|vm_compute in Hrun; discriminate].
  destruct (getAllStackTraces_releases_once_at_the_end Sample.runtime C.unbounded
              Sample.status_of 31%N 32%N 33%N Sample.snapshot_world w' 4096
              [StackInfo 7%N 5 (take 2 Sample.stack7) 2; StackInfo 9%N 1 [] 0] 2
              "[Ljava/lang/Thread;" [null] "[I" [null] "[[J" [null])
    as (evs & _ & _ & _ & Htrace & Hevs & _).
  - reflexivity.
  - reflexivity.
  - reflexivity.
  - reflexivity.
  - discriminate.
  - discriminate.
  - discriminate.
  - exact Hrun.
  - exists w', evs. repeat split; assumption.
Defined.
End snapshot.

(** * Further properties of the code *)

(** ** The life cycle of the frame buffers *)

Section buffer_life_cycle.
Import JNI JVMTI Stacks.

Lemma clear_no_dangling g :
  no_dangling g -> clearNativeStackFrameBuffer g = C.Ok (tt, no_frame_buffers).
Proof. destruct g as [[|fs|] [|ids|]]; intros [? ?]; done. Qed.

(** What a create call leaves in the statics: the answers of the two
    [calloc] calls, whatever was there before. *)
Lemma create_no_dangling grants n g :
  no_dangling g ->
  createNativeStackFrameBuffer grants n g
  = C.Ok (tt, FrameBuffers
                (C.calloc grants (FrameInfo 0 0) (C.size_t_of n) sizeof_jvmtiFrameInfo)
                (C.calloc grants 0 (C.size_t_of n) sizeof_jlong)).
Proof. destruct g as [[|fs|] [|ids|]]; intros [? ?]; done. Qed.

Lemma calloc_not_dangling {A} grants (zero : A) nmemb size :
  C.calloc grants zero nmemb size <> C.Dangling.
Proof. unfold C.calloc. by destruct (_ && _). Qed.

Lemma run_buffer_call_no_dangling c g :
  no_dangling g -> exists g', run_buffer_call c g = C.Ok (tt, g') /\ no_dangling g'.
Proof.
  intros Hg. destruct c as [grants n|]; simpl.
  - eexists. split; [by apply create_no_dangling|].
    split; apply calloc_not_dangling.
  - exists no_frame_buffers. split; [by apply clear_no_dangling|done].
Qed.

Lemma run_buffer_calls_no_dangling calls :
  forall g, no_dangling g ->
  exists g', run_buffer_calls calls g = C.Ok (tt, g') /\ no_dangling g'.
Proof.
  induction calls as [|c calls IH]; intros g Hg.
  - by exists g.
  - destruct (run_buffer_call_no_dangling c g Hg) as (g1 & Hrun & Hg1).
    destruct (IH g1 Hg1) as (g' & Hrun' & Hg').
    exists g'. split; [|done]. simpl. by rewrite (bind_ok _ _ _ _ _ Hrun).
Qed.

Lemma run_buffer_calls_app calls calls' :
  forall g g', run_buffer_calls calls g = C.Ok (tt, g') ->
  run_buffer_calls (calls ++ calls') g = run_buffer_calls calls' g'.
Proof.
  induction calls as [|c calls IH]; intros g g' Hrun.
  - simpl in Hrun. unfold C.pure in Hrun. by simplify_eq.
  - simpl in Hrun |- *. apply bind_inv in Hrun as ([] & g1 & Hc & Hrun).
    rewrite (bind_ok _ _ _ _ _ Hc). by apply IH.
Qed.

(** X1: whatever the allocator answers and whatever sizes are asked
    for, no sequence of calls to create and clear the frame buffers
    frees a buffer twice or keeps a freed pointer: every call returns,
    neither static pointer dangles afterwards, and a clear at the end
    brings both back to [NULL]. *)
Theorem frame_buffer_calls_never_fault calls :
  exists g,
    run_buffer_calls calls no_frame_buffers = C.Ok (tt, g)
    /\ no_dangling g
    /\ run_buffer_calls (calls ++ [ClearBuffer]) no_frame_buffers
       = C.Ok (tt, no_frame_buffers).
Proof.
  destruct (run_buffer_calls_no_dangling calls no_frame_buffers) as (g & Hrun & Hg); [done|].
  exists g. split; [done|]. split; [done|].
  rewrite (run_buffer_calls_app _ _ _ _ Hrun). simpl.
  by rewrite (bind_ok _ _ _ _ _ (clear_no_dangling g Hg)).
Qed.

(** A negative [jint] reaches [calloc] as a count of at least
    [2^64 - 2^31] elements, whose size in bytes no allocator serves. *)
Lemma calloc_overflow {A} grants (zero : A) n size :
  C.INT_MIN <= n < 0 -> 8 <= size ->
  C.calloc grants zero (C.size_t_of n) size = C.NULL.
Proof.
  intros Hn Hsize. unfold C.calloc.
  assert (C.size_t_of n = 2 ^ 64 + n) as ->.
  { unfold C.size_t_of, C.INT_MIN in *. rewrite <- (Z.mod_add _ 1) by lia.
    rewrite Z.mod_small; lia. }
  destruct (Z.leb_spec ((2 ^ 64 + n) * size) C.PTRDIFF_MAX) as [Hle|_].
  - unfold C.PTRDIFF_MAX, C.INT_MIN in *. nia.
  - by rewrite andb_false_r.
Qed.

Lemma calloc_granted {A} grants (zero : A) n size :
  0 <= n <= C.INT_MAX -> 0 < size <= 16 -> grants (n * size) = true ->
  C.calloc grants zero (C.size_t_of n) size = C.Buf (replicate (Z.to_nat n) (Some zero)).
Proof.
  intros Hn Hsize Hgrants. unfold C.calloc. rewrite size_t_of_small by done.
  rewrite Hgrants. unfold C.INT_MAX, C.PTRDIFF_MAX in *.
  destruct (Z.leb_spec (n * size) (2 ^ 63 - 1)); [done|nia].
Qed.

Lemma calloc_refused {A} grants (zero : A) n size :
  0 <= n <= C.INT_MAX -> grants (n * size) = false ->
  C.calloc grants zero (C.size_t_of n) size = C.NULL.
Proof.
  intros Hn Hgrants. unfold C.calloc. rewrite size_t_of_small by done.
  by rewrite Hgrants.
Qed.

Lemma calloc_unbounded {A} (zero : A) n size :
  0 <= n <= C.INT_MAX -> 0 < size <= 16 ->
  C.calloc C.unbounded zero (C.size_t_of n) size
  = C.Buf (Some <$> replicate (Z.to_nat n) zero).
Proof. intros Hn Hsize. rewrite calloc_granted by done. by rewrite fmap_replicate. Qed.

(** X2: a negative size gives no buffer at all, whatever the
    allocator and whatever the statics held that is not a freed
    pointer: both pointers are [NULL] afterwards. *)
Theorem createNativeStackFrameBuffer_negative_size grants n g :
  C.INT_MIN <= n < 0 -> no_dangling g ->
  createNativeStackFrameBuffer grants n g = C.Ok (tt, no_frame_buffers).
Proof.
  intros Hn Hg. rewrite create_no_dangling by done.
  by rewrite !calloc_overflow by (done || unfold sizeof_jvmtiFrameInfo, sizeof_jlong; lia).
Qed.

Lemma createNativeStackFrameBuffer_negative_size_witness :
  createNativeStackFrameBuffer C.unbounded (-1) Sample.four_frames
  = C.Ok (tt, no_frame_buffers).
Proof.
  apply createNativeStackFrameBuffer_negative_size.
  - vm_compute. split; [discriminate|reflexivity].
  - split; discriminate.
Defined.
End buffer_life_cycle.

(** ** The sampler at its edges *)

Section sampler.
Import JNI JVMTI Stacks Packed.

Lemma succeeded_spec err : succeeded err = true <-> err = JVMTI_ERROR_NONE.
Proof. unfold succeeded. apply Z.eqb_eq. Qed.

Lemma succeeded_false err : err <> JVMTI_ERROR_NONE -> succeeded err = false.
Proof. unfold succeeded. apply Z.eqb_neq. Qed.

(** X3: [getCurrentJavaStackDepth] makes one [GetFrameCount] call and
    touches neither the statics nor the Java heap; it returns the count
    the runtime reports, and since the error code is dropped, what it
    returns when the runtime reports an error is a [count] that was
    never assigned. *)
Theorem getCurrentJavaStackDepth_drops_the_error {G} env thr (w : world G) err n :
  GetFrameCount env thr = (err, n) ->
  getCurrentJavaStackDepth env thr w
  = if succeeded err
    then C.Ok (n, World (globals w) (heap w) (trace w ++ [JvmtiGetFrameCount thr]))
    else C.Fault C.UninitialisedRead.
Proof.
  intros Hcount.
  unfold Java_org_netbeans_lib_profiler_server_system_Stacks_getCurrentJavaStackDepth.
  unfold C.bind, log, C.modify. rewrite Hcount. by destruct (succeeded err).
Qed.

Lemma getCurrentJavaStackDepth_drops_the_error_witness :
  getCurrentJavaStackDepth Sample.runtime 7%N Sample.snapshot_world
  = C.Ok (3, World no_classes Sample.java_heap [JvmtiGetFrameCount 7%N])
  /\ getCurrentJavaStackDepth Sample.runtime 8%N Sample.snapshot_world
     = C.Fault C.UninitialisedRead.
Proof.
  split.
  - apply (getCurrentJavaStackDepth_drops_the_error Sample.runtime 7%N
             Sample.snapshot_world JVMTI_ERROR_NONE 3). reflexivity.
  - apply (getCurrentJavaStackDepth_drops_the_error Sample.runtime 8%N
             Sample.snapshot_world Sample.JVMTI_ERROR_THREAD_NOT_ALIVE 0). reflexivity.
Defined.

(** The sampler up to its copy into the Java array: the walked frames
    are at the front of the frame buffer and their identifiers at the
    front of the identifier buffer. *)
Lemma sample_reaches_copy env thr depth ret (w : world frame_buffers) frames ids walked :
  globals w = FrameBuffers (C.Buf frames) (C.Buf ids) ->
  GetStackTrace env thr 0 depth = (JVMTI_ERROR_NONE, walked) ->
  (length walked <= length frames)%nat ->
  (length walked <= length ids)%nat ->
  getCurrentStackFrameIds env thr depth ret w
  = (SetLongArrayRegion ret 0 (Z.of_nat (length walked))
       (C.Buf ((Some <$> identifiers walked) ++ drop (length walked) ids));;
     C.pure (Z.of_nat (length walked)))
      (World (FrameBuffers
                (C.Buf ((Some <$> walked) ++ drop (length walked) frames))
                (C.Buf ((Some <$> identifiers walked) ++ drop (length walked) ids)))
         (heap w) (trace w ++ [JvmtiGetStackTrace thr 0 depth])).
Proof.
  destruct w as [g h t]. simpl. intros -> Hwalk Hframes Hids.
  unfold Java_org_netbeans_lib_profiler_server_system_Stacks_getCurrentStackFrameIds.
  unfold C.bind at 1. simpl. unfold C.bind at 1. simpl.
  rewrite Hwalk. simpl succeeded. cbv iota.
  rewrite write_cells_front by (rewrite length_fmap; lia).
  rewrite length_fmap.
  unfold C.bind at 1. simpl. unfold C.bind at 1. simpl.
  unfold C.bind at 1. simpl.
  set (F := C.Buf ((Some <$> walked) ++ drop (length walked) frames)).
  set (t1 := t ++ [JvmtiGetStackTrace thr 0 depth]).
  unfold C.bind at 1. unfold C.for_loop.
  rewrite Z.sub_0_r, Nat2Z.id.
  edestruct (for_steps_total
    (fun k (_ : unit) s =>
       s = World (FrameBuffers F
                    (C.Buf ((Some <$> identifiers (take k walked)) ++ drop k ids))) h t1))
    as (u & s' & Hrun & Hs'); [| |rewrite Hrun].
  { simpl. by rewrite drop_0. }
  { intros k _ s Hk ->.
    destruct (lookup_lt_is_Some_2 walked k Hk) as [frame Hframe].
    unfold C.bind at 1. simpl. unfold C.bind at 1. unfold F at 1.
    rewrite (load_written _ _ frame); [|lia|].
    2:{ rewrite Z.add_0_l, Nat2Z.id, lookup_app_l by (rewrite length_fmap; done).
        by rewrite list_lookup_fmap, Hframe. }
    simpl. unfold C.bind at 1. rewrite store_in_range.
    2:{ rewrite length_app, length_drop. unfold identifiers.
        rewrite !length_fmap, length_take. lia. }
    simpl. eexists tt, _. split; [reflexivity|].
    rewrite Z.add_0_l, Nat2Z.id. by rewrite (convert_round _ _ _ frame) by (done || lia). }
  subst s'. rewrite firstn_all.
  unfold C.bind at 1. simpl. done.
Qed.

(** A walk that fits the two buffers and the output array. *)
Lemma sample_walked env thr depth ret (w : world frame_buffers) frames ids walked old :
  globals w = FrameBuffers (C.Buf frames) (C.Buf ids) ->
  GetStackTrace env thr 0 depth = (JVMTI_ERROR_NONE, walked) ->
  (length walked <= length frames)%nat ->
  (length walked <= length ids)%nat ->
  heap w !! ret = Some (LongArray old) ->
  (length walked <= length old)%nat ->
  getCurrentStackFrameIds env thr depth ret w =
    C.Ok (Z.of_nat (length walked),
          World (FrameBuffers
                   (C.Buf ((Some <$> walked) ++ drop (length walked) frames))
                   (C.Buf ((Some <$> identifiers walked) ++ drop (length walked) ids)))
                (<[ret := LongArray (identifiers walked ++ drop (length walked) old)]> (heap w))
                (trace w ++ [JvmtiGetStackTrace thr 0 depth;
                             JniSetLongArrayRegion ret 0 (Z.of_nat (length walked))])).
Proof.
  intros Hg Hwalk Hframes Hids Hret Hold.
  rewrite (sample_reaches_copy env thr depth ret w frames ids walked) by done.
  erewrite bind_ok.
  2:{ apply SetLongArrayRegion_Ok. eexists old, (identifiers walked).
      cbn [heap]. split_and!; [done| | |done].
      - apply region_ok_spec. lia.
      - apply read_values_prefix. unfold identifiers. by rewrite length_fmap. }
  unfold C.pure, updated, splice, identifiers. simpl.
  by rewrite <- app_assoc, length_fmap.
Qed.

(** X4: the error code of [GetStackTrace] is not looked at. When the
    walk fails with a frame buffer in place, the loop and the copy run
    on a [count] that was never assigned. *)
Theorem getCurrentStackFrameIds_failed_walk env thr depth ret
    (w : world frame_buffers) err walked :
  C.is_null (_stack_frames_buffer (globals w)) = false ->
  GetStackTrace env thr 0 depth = (err, walked) ->
  err <> JVMTI_ERROR_NONE ->
  getCurrentStackFrameIds env thr depth ret w = C.Fault C.UninitialisedRead.
Proof.
  intros Hbuf Hwalk Herr.
  unfold Java_org_netbeans_lib_profiler_server_system_Stacks_getCurrentStackFrameIds.
  unfold C.bind at 1, read_globals at 1, C.gets at 1. rewrite Hbuf.
  unfold C.bind at 1, log at 1, C.modify at 1. rewrite Hwalk.
  by rewrite (succeeded_false _ Herr).
Qed.

Lemma getCurrentStackFrameIds_failed_walk_witness :
  getCurrentStackFrameIds Sample.runtime 9%N 2 22%N
    (Sample.sampler_world Sample.four_frames) = C.Fault C.UninitialisedRead.
Proof.
  apply (getCurrentStackFrameIds_failed_walk Sample.runtime 9%N 2 22%N
           (Sample.sampler_world Sample.four_frames)
           Sample.JVMTI_ERROR_THREAD_NOT_ALIVE []).
  - reflexivity.
  - reflexivity.
  - vm_compute. discriminate.
Defined.

(** X5: [depth] goes to the runtime without being compared with the
    size the frame buffer was created with. A walk that yields more
    frames than the buffer has cells writes past its end. *)
Theorem getCurrentStackFrameIds_unchecked_depth env thr depth ret
    (w : world frame_buffers) frames walked :
  _stack_frames_buffer (globals w) = C.Buf frames ->
  GetStackTrace env thr 0 depth = (JVMTI_ERROR_NONE, walked) ->
  (length frames < length walked)%nat ->
  getCurrentStackFrameIds env thr depth ret w = C.Fault C.OutOfBounds.
Proof.
  intros Hbuf Hwalk Hlen.
  unfold Java_org_netbeans_lib_profiler_server_system_Stacks_getCurrentStackFrameIds.
  unfold C.bind at 1, read_globals at 1, C.gets at 1. rewrite Hbuf. cbn [C.is_null].
  unfold C.bind at 1, log at 1, C.modify at 1. rewrite Hwalk.
  cbn [succeeded JVMTI_ERROR_NONE Z.eqb].
  unfold C.bind at 1, C.lift at 1, C.write_cells.
  destruct walked as [|frame walked]; [simpl in Hlen; lia|].
  rewrite fmap_cons. cbn [C.deref]. rewrite length_cons, length_fmap.
  destruct (Z.ltb_spec (Z.of_nat (length frames)) (0 + Z.of_nat (S (length walked))));
    [done|]. simpl in Hlen. lia.
Qed.

Lemma getCurrentStackFrameIds_unchecked_depth_witness :
  getCurrentStackFrameIds Sample.runtime 7%N 3 22%N
    (Sample.sampler_world
       (FrameBuffers (C.Buf (replicate 2 (Some (FrameInfo 0 0))))
          (C.Buf (replicate 2 (Some 0)))))
  = C.Fault C.OutOfBounds.
Proof.
  apply (getCurrentStackFrameIds_unchecked_depth Sample.runtime 7%N 3 22%N _
           (replicate 2 (Some (FrameInfo 0 0))) Sample.stack7).
  - reflexivity.
  - reflexivity.
  - vm_compute. lia.
Defined.

(** X6: an output array with fewer elements than frames were walked
    gets nothing: [SetLongArrayRegion] throws, and the call ends with
    that exception pending. *)
Theorem getCurrentStackFrameIds_short_output_array env thr depth ret
    (w : world frame_buffers) frames ids walked old :
  globals w = FrameBuffers (C.Buf frames) (C.Buf ids) ->
  GetStackTrace env thr 0 depth = (JVMTI_ERROR_NONE, walked) ->
  (length walked <= length frames)%nat ->
  (length walked <= length ids)%nat ->
  heap w !! ret = Some (LongArray old) ->
  (length old < length walked)%nat ->
  getCurrentStackFrameIds env thr depth ret w = C.Fault C.JavaException.
Proof.
  intros Hg Hwalk Hframes Hids Hret Hold.
  rewrite (sample_reaches_copy env thr depth ret w frames ids walked) by done.
  unfold C.bind at 1, SetLongArrayRegion, C.bind at 1, C.get. cbn [heap].
  rewrite Hret.
  assert (region_ok 0 (Z.of_nat (length walked)) old = false) as ->; [|done].
  apply not_true_is_false. rewrite region_ok_spec. lia.
Qed.

Lemma getCurrentStackFrameIds_short_output_array_witness :
  getCurrentStackFrameIds Sample.runtime 7%N 6 22%N
    (World Sample.four_frames (<[22%N := LongArray [9; 9]]> Sample.java_heap) [])
  = C.Fault C.JavaException.
Proof.
  apply (getCurrentStackFrameIds_short_output_array Sample.runtime 7%N 6 22%N _
           (replicate 4 (Some (FrameInfo 0 0))) (replicate 4 (Some 0))
           Sample.stack7 [9; 9]).
  - reflexivity.
  - reflexivity.
  - vm_compute. lia.
  - vm_compute. lia.
  - reflexivity.
  - vm_compute. lia.
Defined.

(** X7: the sampler can be called again and again over the same
    buffers, which keep their sizes. Each call overwrites the front of
    the output array; the entries beyond the count it returns are what
    the call before left there, and no other object changes. *)
Theorem getCurrentStackFrameIds_twice env thr1 depth1 thr2 depth2 ret
    (w : world frame_buffers) frames ids walked1 walked2 old :
  globals w = FrameBuffers (C.Buf frames) (C.Buf ids) ->
  GetStackTrace env thr1 0 depth1 = (JVMTI_ERROR_NONE, walked1) ->
  GetStackTrace env thr2 0 depth2 = (JVMTI_ERROR_NONE, walked2) ->
  (length walked1 <= length frames)%nat -> (length walked1 <= length ids)%nat ->
  (length walked2 <= length frames)%nat -> (length walked2 <= length ids)%nat ->
  heap w !! ret = Some (LongArray old) ->
  (length walked1 <= length old)%nat -> (length walked2 <= length old)%nat ->
  exists w',
    (getCurrentStackFrameIds env thr1 depth1 ret;;
     getCurrentStackFrameIds env thr2 depth2 ret) w
    = C.Ok (Z.of_nat (length walked2), w')
    /\ heap w' !! ret
       = Some (LongArray (identifiers walked2
                            ++ drop (length walked2)
                                 (identifiers walked1 ++ drop (length walked1) old)))
    /\ (forall r, r <> ret -> heap w' !! r = heap w !! r)
    /\ exists frames' ids',
         globals w' = FrameBuffers (C.Buf frames') (C.Buf ids')
         /\ length frames' = length frames /\ length ids' = length ids.
Proof.
  intros Hg Hwalk1 Hwalk2 Hf1 Hi1 Hf2 Hi2 Hret Ho1 Ho2.
  erewrite bind_ok; [|by eapply sample_walked].
  assert (length (identifiers walked1) = length walked1) as Hlen1
    by (unfold identifiers; by rewrite length_fmap).
  erewrite sample_walked; [|done|done| | |apply lookup_insert_eq|].
  2,3: rewrite length_app, length_fmap, ?Hlen1, length_drop; lia.
  2: rewrite length_app, Hlen1, length_drop; lia.
  eexists. split; [done|]. cbn [heap globals]. split; [apply lookup_insert_eq|].
  split.
  - intros r Hr. by rewrite !lookup_insert_ne.
  - eexists _, _. split; [done|].
    unfold identifiers. rewrite !length_app, !length_fmap, !length_drop, !length_app,
      !length_fmap, !length_drop. lia.
Qed.

Lemma getCurrentStackFrameIds_twice_witness :
  exists w',
    (getCurrentStackFrameIds Sample.runtime 7%N 3 22%N;;
     getCurrentStackFrameIds Sample.runtime 7%N 1 22%N)
      (Sample.sampler_world Sample.four_frames)
    = C.Ok (1, w')
    /\ heap w' !! 22%N = Some (LongArray [100; -8; 300; 9; 9]).
Proof.
  destruct (getCurrentStackFrameIds_twice Sample.runtime 7%N 3 7%N 1 22%N
              (Sample.sampler_world Sample.four_frames)
              (replicate 4 (Some (FrameInfo 0 0))) (replicate 4 (Some 0))
              Sample.stack7 (take 1 Sample.stack7) [9; 9; 9; 9; 9])
    as (w' & Hrun & Hret & _).
  - reflexivity.
  - reflexivity.
  - reflexivity.
  - vm_compute. lia.
  - vm_compute. lia.
  - vm_compute. lia.
  - vm_compute. lia.
  - reflexivity.
  - vm_compute. lia.
  - vm_compute. lia.
  - exists w'. split; [exact Hrun|exact Hret].
Defined.

(** X8: the answers of the two [calloc] calls are not looked at. When
    the frame buffer is granted and the identifier buffer is not, the
    create call returns as if nothing had happened, the sampler finds a
    frame buffer and goes on, and its first identifier is stored
    through a null pointer. *)
Theorem createNativeStackFrameBuffer_unchecked_allocation env grants n g
    thr depth ret h t frame walked :
  no_dangling g ->
  0 <= n <= C.INT_MAX ->
  grants (n * sizeof_jvmtiFrameInfo) = true ->
  grants (n * sizeof_jlong) = false ->
  GetStackTrace env thr 0 depth = (JVMTI_ERROR_NONE, frame :: walked) ->
  Z.of_nat (length (frame :: walked)) <= n ->
  exists g',
    createNativeStackFrameBuffer grants n g = C.Ok (tt, g')
    /\ C.is_null (_stack_frames_buffer g') = false
    /\ _stack_id_buffer g' = C.NULL
    /\ getCurrentStackFrameIds env thr depth ret (World g' h t)
       = C.Fault C.NullDereference.
Proof.
  intros Hg Hn Hframes Hids Hwalk Hlen.
  eexists. split; [by apply create_no_dangling|].
  rewrite calloc_granted by (done || unfold sizeof_jvmtiFrameInfo; lia).
  rewrite calloc_refused by done.
  split; [done|]. split; [done|].
  unfold Java_org_netbeans_lib_profiler_server_system_Stacks_getCurrentStackFrameIds.
  unfold C.bind at 1, read_globals at 1, C.gets at 1. cbn [globals _stack_frames_buffer C.is_null].
  unfold C.bind at 1, log at 1, C.modify at 1. rewrite Hwalk.
  cbn [succeeded JVMTI_ERROR_NONE Z.eqb].
  rewrite write_cells_front by (rewrite length_fmap, length_replicate; lia).
  unfold C.bind at 1, C.lift at 1.
  unfold C.bind at 1, set_stack_frames_buffer at 1, C.bind at 1, read_globals at 1,
    C.gets at 1, write_globals at 1, C.modify at 1.
  cbn [globals heap trace _stack_id_buffer].
  unfold C.bind at 1, initialised at 1, C.pure at 1.
  unfold C.for_loop. rewrite Z.sub_0_r, Nat2Z.id, length_cons.
  cbn [C.for_steps].
  unfold C.bind at 1. unfold C.bind at 1.
  unfold C.bind at 1, read_globals at 1, C.gets at 1. cbn [globals _stack_frames_buffer].
  unfold C.bind at 1, C.lift at 1. rewrite fmap_cons. cbn [app].
  rewrite (load_written _ _ frame) by done.
  cbn [_stack_id_buffer]. done.
Qed.

Lemma createNativeStackFrameBuffer_unchecked_allocation_witness :
  exists g',
    createNativeStackFrameBuffer Sample.large_blocks_only 4 no_frame_buffers = C.Ok (tt, g')
    /\ C.is_null (_stack_frames_buffer g') = false
    /\ _stack_id_buffer g' = C.NULL
    /\ getCurrentStackFrameIds Sample.runtime 7%N 2 22%N (World g' Sample.java_heap [])
       = C.Fault C.NullDereference.
Proof.
  apply (createNativeStackFrameBuffer_unchecked_allocation Sample.runtime
           Sample.large_blocks_only 4 no_frame_buffers 7%N 2 22%N Sample.java_heap []
           (FrameInfo 100 0) [FrameInfo (2 ^ 64 - 8) 3]).
  - split; discriminate.
  - vm_compute. split; discriminate.
  - reflexivity.
  - reflexivity.
  - reflexivity.
  - vm_compute. discriminate.
Defined.

(** X9: buffers created for [n] frames serve every sample of depth at
    most [n], whatever the statics held before the create call: the
    sample returns the number of frames walked and puts their
    identifiers at the front of the output array, and the buffers stay
    paired. *)
Theorem createNativeStackFrameBuffer_then_sample env grants n thr depth ret
    (w : world frame_buffers) walked old :
  no_dangling (globals w) ->
  0 <= n <= C.INT_MAX ->
  grants (n * sizeof_jvmtiFrameInfo) = true ->
  grants (n * sizeof_jlong) = true ->
  GetStackTrace env thr 0 depth = (JVMTI_ERROR_NONE, walked) ->
  Z.of_nat (length walked) <= depth <= n ->
  heap w !! ret = Some (LongArray old) ->
  (length walked <= length old)%nat ->
  exists g',
    (on_globals (createNativeStackFrameBuffer grants n);;
     getCurrentStackFrameIds env thr depth ret) w
    = C.Ok (Z.of_nat (length walked),
            World g'
              (<[ret := LongArray (identifiers walked ++ drop (length walked) old)]> (heap w))
              (trace w ++ [JvmtiGetStackTrace thr 0 depth;
                           JniSetLongArrayRegion ret 0 (Z.of_nat (length walked))]))
    /\ paired g'.
Proof.
  intros Hg Hn Hframes Hids Hwalk Hlen Hret Hold.
  erewrite bind_ok.
  2:{ apply on_globals_ok. by apply create_no_dangling. }
  rewrite !calloc_granted by (done || unfold sizeof_jvmtiFrameInfo, sizeof_jlong; lia).
  erewrite sample_walked; [|done|done|rewrite length_replicate; lia..|done|done].
  cbn [heap trace]. eexists. split; [done|].
  unfold paired. cbn [_stack_frames_buffer _stack_id_buffer].
  unfold identifiers.
  rewrite !length_app, !length_fmap, !length_drop, !length_replicate. done.
Qed.

Lemma createNativeStackFrameBuffer_then_sample_witness :
  exists g',
    (on_globals (createNativeStackFrameBuffer C.unbounded 8);;
     getCurrentStackFrameIds Sample.runtime 7%N 5 22%N)
      (Sample.sampler_world Sample.four_frames)
    = C.Ok (3, World g' (<[22%N := LongArray [100; -8; 300; 9; 9]]> Sample.java_heap)
                 [JvmtiGetStackTrace 7%N 0 5; JniSetLongArrayRegion 22%N 0 3])
    /\ paired g'.
Proof.
  apply (createNativeStackFrameBuffer_then_sample Sample.runtime C.unbounded 8 7%N 5 22%N
           (Sample.sampler_world Sample.four_frames) Sample.stack7 [9; 9; 9; 9; 9]).
  - split; discriminate.
  - vm_compute. split; discriminate.
  - reflexivity.
  - reflexivity.
  - reflexivity.
  - vm_compute. split; discriminate.
  - reflexivity.
  - vm_compute. lia.
Defined.

Lemma handle_round_trip m :
  0 <= m < 2 ^ 64 -> convert_jlong_to_jmethodID (convert_jmethodID_to_jlong m) = m.
Proof.
  unfold convert_jlong_to_jmethodID, convert_jmethodID_to_jlong, C.int64_wrap, C.uint64_wrap.
  change (2 ^ 64) with 18446744073709551616. change (2 ^ 63) with 9223372036854775808.
  intros H. destruct (Z.lt_ge_cases m 9223372036854775808).
  - rewrite (Z.mod_small (m + _)) by lia. rewrite Z.mod_small; lia.
  - rewrite <- (Z.mod_add (m + _) (-1)) by lia. rewrite (Z.mod_small (m + _ + _)) by lia.
    rewrite <- (Z.mod_add _ 1) by lia. rewrite Z.mod_small; lia.
Qed.

Lemma identifier_in_range m : - 2 ^ 63 <= convert_jmethodID_to_jlong m < 2 ^ 63.
Proof.
  unfold convert_jmethodID_to_jlong, C.int64_wrap.
  change (2 ^ 64) with 18446744073709551616. change (2 ^ 63) with 9223372036854775808.
  pose proof (Z.mod_pos_bound (m + 9223372036854775808) 18446744073709551616). lia.
Qed.

(** X10: the identifiers that go to Java fit a [long], and the two
    casts lose nothing: given back to the encoder they are the handles
    of the walked frames again, handles with the top bit set included,
    so the encoder resolves the methods that were sampled. *)
Theorem identifiers_name_their_methods env (walked : list jvmtiFrameInfo) :
  Forall (fun frame => 0 <= method frame < 2 ^ 64) walked ->
  Forall (fun id => - 2 ^ 63 <= id < 2 ^ 63) (identifiers walked)
  /\ handles (identifiers walked) = method <$> walked
  /\ batch_fields env (identifiers walked) = concat (fields_of env <$> (method <$> walked)).
Proof.
  intros Hwalked.
  assert (handles (identifiers walked) = method <$> walked) as Hhandles.
  { unfold handles, identifiers. rewrite <- list_fmap_compose.
    apply Forall_fmap_ext. eapply Forall_impl; [done|].
    intros frame Hframe. by apply handle_round_trip. }
  split; [|split; [done|]].
  - unfold identifiers. apply Forall_fmap, Forall_forall. intros frame _.
    apply identifier_in_range.
  - unfold batch_fields. by rewrite Hhandles.
Qed.

Lemma identifiers_name_their_methods_witness :
  identifiers Sample.stack7 = [100; -8; 300]
  /\ handles (identifiers Sample.stack7) = [100; 2 ^ 64 - 8; 300].
Proof.
  split; [reflexivity|].
  destruct (identifiers_name_their_methods Sample.runtime Sample.stack7) as (_ & Hh & _).
  - repeat constructor; vm_compute; (discriminate || reflexivity).
  - exact Hh.
Defined.
End sampler.

(** ** The packed store and the encoder at their edges *)

Section store_errors.
Import JNI JVMTI Stacks Packed.

Lemma malloc_refused {A} grants elem_size bytes :
  grants bytes = false -> C.malloc (A := A) grants elem_size bytes = C.NULL.
Proof. intros H. unfold C.malloc. by rewrite H. Qed.

Lemma write_cells_null {A} ofs (c : option A) new :
  C.write_cells C.NULL ofs (c :: new) = C.Fault C.NullDereference.
Proof. done. Qed.

(** X11: the answer of [malloc] is not looked at when the store
    grows. With no memory left, an append that does not fit copies
    through a null pointer: the bytes held so far if there are any, the
    new string otherwise. *)
Theorem copy_into_data_array_unchecked_growth grants st data offs room s :
  holds st data offs room ->
  C.terminated s = true ->
  0 <= byteDataLen st ->
  Z.of_nat (length data + length (C.chars s)) <= C.INT_MAX ->
  byteDataLen st < Z.of_nat (length data + length (C.chars s)) ->
  (forall bytes, grants bytes = false) ->
  copy_into_data_array grants s st = C.Fault C.NullDereference.
Proof.
  intros Hst Hs Hcap Htotal Hgrow Hgrants.
  pose proof (holds_data_fits _ _ _ _ Hst) as Hfits.
  destruct Hst as (Hofs & Hidx & Hrange & Hdata & _).
  unfold copy_into_data_array.
  rewrite strlen_terminated by done.
  unfold C.bind at 1, C.lift at 1.
  rewrite int_wrap_in_range by (unfold C.INT_MIN, C.INT_MAX in *; lia).
  unfold C.bind at 1, C.get at 1.
  unfold C.int_add. rewrite Hofs.
  rewrite int_wrap_in_range by (unfold C.INT_MIN, C.INT_MAX in *; lia).
  rewrite Z.gtb_ltb.
  destruct (Z.ltb_spec (byteDataLen st)
              (Z.of_nat (length data) + Z.of_nat (length (C.chars s)))) as [_|]; [|lia].
  unfold heap_malloc.
  rewrite malloc_refused by apply Hgrants.
  rewrite (size_t_of_small (Z.of_nat (length data))) by lia.
  destruct (byteData st) as [|cells|] eqn:Hbuf; [lia| |done].
  destruct Hdata as [Hlen Hprefix].
  unfold C.bind at 1. unfold C.bind at 1.
  erewrite bind_ok; [|apply heap_call_made_runs]. unfold C.pure at 1.
  unfold heap_memcpy.
  destruct data as [|c data].
  - (* nothing to carry over: the copy of the string hits the null pointer *)
    unfold C.strncpy.
    rewrite (size_t_of_small (Z.of_nat (length (C.chars s)))) by (simpl in Htotal; lia).
    rewrite strncpy_image_whole.
    destruct (C.chars s) as [|c cs]; [simpl in Hgrow; lia|].
    change (C.memcpy C.NULL (C.Buf cells) (Z.of_nat (length []))) with (C.Ok (C.NULL : C.ptr ascii)).
    unfold heap_free.
    unfold heap_call_made, C.bind, C.lift, C.get, C.put, C.modify, C.pure. cbn [length].
    cbn [C.free byteData dataOfs].
    by rewrite fmap_cons, write_cells_null.
  - (* the bytes held so far are copied to the null pointer *)
    unfold C.bind at 1, C.lift at 1. unfold C.memcpy.
    rewrite read_cells_in_range by lia.
    rewrite Nat2Z.id, Hprefix, fmap_cons. by rewrite write_cells_null.
Qed.

Lemma copy_into_data_array_unchecked_growth_witness :
  copy_into_data_array C.exhausted (C.literal "abcde") (fresh_store 4 3)
  = C.Fault C.NullDereference.
Proof.
  apply (copy_into_data_array_unchecked_growth C.exhausted (fresh_store 4 3) [] [] 3).
  - unfold holds. simpl. repeat split; [vm_compute; discriminate|vm_compute; discriminate|].
    exists (replicate 3 None). repeat split.
  - reflexivity.
  - vm_compute. discriminate.
  - vm_compute. discriminate.
  - vm_compute. reflexivity.
  - reflexivity.
Defined.
End store_errors.

Section encoder_runs.
Import JNI JVMTI Stacks Packed.

Lemma malloc_nothing {A} grants elem_size :
  0 < elem_size ->
  C.malloc (A := A) grants elem_size 0 = C.NULL
  \/ C.malloc (A := A) grants elem_size 0 = C.Buf [].
Proof.
  intros He. unfold C.malloc. destruct (grants 0); [right|by left].
  by rewrite Zdiv_0_l.
Qed.

(** X12: a batch of no handles needs no memory. Whatever the
    allocator answers to the three requests of zero bytes, the call
    makes no lookup, returns a new empty byte array and leaves the
    offset array and every other object as they were. *)
Theorem getMethodNames_empty_batch env strings grants jmethodIds packedArrayOffsets
    (w : world packed_store) ids old :
  heap w !! jmethodIds = Some (LongArray ids) ->
  heap w !! packedArrayOffsets = Some (IntArray old) ->
  exists g',
    getMethodNamesForJMethodIds env strings grants 0 jmethodIds packedArrayOffsets w
    = C.Ok (fresh_ref (heap w),
            World g' (<[fresh_ref (heap w) := ByteArray []]> (heap w))
              (trace w ++ [JniGetLongArrayRegion jmethodIds 0 0;
                           JniNewArray (fresh_ref (heap w));
                           JniSetByteArrayRegion (fresh_ref (heap w)) 0 0;
                           JniSetIntArrayRegion packedArrayOffsets 0 0])).
Proof.
  intros Hids Hold.
  assert (<[packedArrayOffsets := IntArray old]>
            (<[fresh_ref (heap w) := ByteArray []]> (heap w))
          = <[fresh_ref (heap w) := ByteArray []]> (heap w)) as Hsame.
  { apply insert_id. rewrite lookup_insert_ne; [done|]. symmetry.
    by eapply fresh_ref_other. }
  unfold Java_org_netbeans_lib_profiler_server_system_Stacks_getMethodNamesForJMethodIds.
  change (C.size_t_mul sizeof_jlong (C.size_t_of 0)) with 0.
  change (C.size_t_mul (C.size_t_mul sizeof_jint (C.size_t_of 0))
            (C.size_t_of PACKEDARR_ITEMS)) with 0.
  change (C.int_mul (C.int_mul 0 PACKEDARR_ITEMS) 10) with 0.
  change (C.int_mul 0 PACKEDARR_ITEMS) with 0.
  change (C.size_t_of 0) with 0.
  assert (forall p : C.ptr Z, p = C.NULL \/ p = C.Buf [] ->
            exists q, C.free p = C.Ok q) as Hfree_empty.
  { intros p [->| ->]; by eexists. }
  destruct (Hfree_empty (C.malloc grants sizeof_jlong 0)) as [q Hq];
    [by apply malloc_nothing|].
  destruct (Hfree_empty (C.malloc grants sizeof_jint 0)) as [q1 Hq1];
    [by apply malloc_nothing|].
  assert (exists q2, C.free (C.malloc (A := ascii) grants 1 0) = C.Ok q2) as [q2 Hq2].
  { destruct (malloc_nothing (A := ascii) grants 1) as [-> | ->]; [done|by eexists..]. }
  erewrite bind_ok.
  2:{ apply GetLongArrayRegion_Ok. eexists ids, _. split_and!; [done| |done|done].
      apply region_ok_spec. lia. }
  erewrite bind_ok; [|reflexivity].
  erewrite bind_ok; [|reflexivity].
  rewrite Hq. erewrite bind_ok; [|reflexivity].
  erewrite bind_ok; [|reflexivity]. cbn [globals dataOfs byteData strOffsets].
  erewrite bind_ok; [|by apply NewByteArray_Ok].
  unfold updated at 1. cbn [heap trace globals].
  erewrite bind_ok.
  2:{ apply SetByteArrayRegion_Ok. eexists [], []. cbn [heap].
      split_and!; [apply lookup_insert_eq|done|done|done]. }
  unfold updated at 1. cbn [heap trace globals]. rewrite insert_insert_eq.
  erewrite bind_ok.
  2:{ apply SetIntArrayRegion_Ok. eexists old, []. cbn [heap].
      split_and!; [|by apply region_ok_spec; lia|done|done].
      rewrite lookup_insert_ne; [done|]. symmetry. by eapply fresh_ref_other. }
  unfold updated at 1. cbn [heap trace globals].
  rewrite Hq1. erewrite bind_ok; [|reflexivity].
  rewrite Hq2. erewrite bind_ok; [|reflexivity].
  erewrite bind_ok; [|reflexivity].
  unfold C.pure. cbn [heap trace globals].
  eexists. do 2 f_equal. f_equal.
  - exact Hsame.
  - by rewrite <- !app_assoc.
Qed.

Lemma getMethodNames_empty_batch_witness :
  exists g',
    getMethodNamesForJMethodIds Sample.runtime Sample.string_addresses C.exhausted
      0 20%N 21%N Sample.encoder_world
    = C.Ok (fresh_ref Sample.java_heap,
            World g' (<[fresh_ref Sample.java_heap := ByteArray []]> Sample.java_heap)
              [JniGetLongArrayRegion 20%N 0 0;
               JniNewArray (fresh_ref Sample.java_heap);
               JniSetByteArrayRegion (fresh_ref Sample.java_heap) 0 0;
               JniSetIntArrayRegion 21%N 0 0]).
Proof.
  apply (getMethodNames_empty_batch Sample.runtime Sample.string_addresses C.exhausted
           20%N 21%N Sample.encoder_world [1; 0; 15; 2] (replicate 18 (-1))).
  - reflexivity.
  - reflexivity.
Defined.

(** X13: a count that is negative or larger than the array of
    identifiers makes [GetLongArrayRegion] throw. The code does not
    check for it; from there on the run is one with a Java exception
    pending. *)
Theorem getMethodNames_count_outside_the_array env strings grants nMethods jmethodIds
    packedArrayOffsets (w : world packed_store) ids :
  heap w !! jmethodIds = Some (LongArray ids) ->
  nMethods < 0 \/ Z.of_nat (length ids) < nMethods ->
  getMethodNamesForJMethodIds env strings grants nMethods jmethodIds packedArrayOffsets w
  = C.Fault C.JavaException.
Proof.
  intros Hids Hn.
  unfold Java_org_netbeans_lib_profiler_server_system_Stacks_getMethodNamesForJMethodIds.
  unfold C.bind at 1, GetLongArrayRegion, C.bind at 1, C.get. rewrite Hids.
  assert (region_ok 0 nMethods ids = false) as ->; [|done].
  apply not_true_is_false. rewrite region_ok_spec. lia.
Qed.

Lemma getMethodNames_count_outside_the_array_witness :
  getMethodNamesForJMethodIds Sample.runtime Sample.string_addresses C.unbounded
    5 20%N 21%N Sample.encoder_world
  = C.Fault C.JavaException.
Proof.
  apply (getMethodNames_count_outside_the_array Sample.runtime Sample.string_addresses
           C.unbounded 5 20%N 21%N Sample.encoder_world [1; 0; 15; 2]).
  - reflexivity.
  - right. vm_compute. reflexivity.
Defined.

(** X14: the answer of the first [malloc] is not looked at either.
    With no memory left and at least one handle to resolve, the
    identifiers are copied out of the Java array through a null
    pointer. *)
Theorem getMethodNames_unchecked_allocation env strings grants nMethods jmethodIds
    packedArrayOffsets (w : world packed_store) ids :
  heap w !! jmethodIds = Some (LongArray ids) ->
  0 < nMethods <= Z.of_nat (length ids) ->
  (forall bytes, grants bytes = false) ->
  getMethodNamesForJMethodIds env strings grants nMethods jmethodIds packedArrayOffsets w
  = C.Fault C.NullDereference.
Proof.
  intros Hids Hn Hgrants.
  unfold Java_org_netbeans_lib_profiler_server_system_Stacks_getMethodNamesForJMethodIds.
  rewrite malloc_refused by apply Hgrants.
  unfold C.bind at 1, GetLongArrayRegion, C.bind at 1, C.get. rewrite Hids.
  assert (region_ok 0 nMethods ids = true) as -> by (apply region_ok_spec; lia).
  unfold C.bind, log, C.modify, C.lift. rewrite drop_0.
  destruct ids as [|id ids]; [simpl in Hn; lia|].
  replace (Z.to_nat nMethods) with (S (Z.to_nat (nMethods - 1))) by lia.
  by rewrite firstn_cons, fmap_cons, write_cells_null.
Qed.

Lemma getMethodNames_unchecked_allocation_witness :
  getMethodNamesForJMethodIds Sample.runtime Sample.string_addresses C.exhausted
    4 20%N 21%N Sample.encoder_world
  = C.Fault C.NullDereference.
Proof.
  apply (getMethodNames_unchecked_allocation Sample.runtime Sample.string_addresses
           C.exhausted 4 20%N 21%N Sample.encoder_world [1; 0; 15; 2]).
  - reflexivity.
  - vm_compute. split; [reflexivity|discriminate].
  - reflexivity.
Defined.

(** X15: no call returns unless the two arrays it was given are large
    enough: the count lies within the array of identifiers, and four
    times the count, as an [int], within the array of offsets. *)
Theorem getMethodNames_needs_room env strings grants nMethods jmethodIds
    packedArrayOffsets (w w' : world packed_store) ret :
  getMethodNamesForJMethodIds env strings grants nMethods jmethodIds packedArrayOffsets w
  = C.Ok (ret, w') ->
  exists ids old,
    heap w !! jmethodIds = Some (LongArray ids)
    /\ heap w !! packedArrayOffsets = Some (IntArray old)
    /\ 0 <= nMethods <= Z.of_nat (length ids)
    /\ 0 <= C.int_mul nMethods PACKEDARR_ITEMS <= Z.of_nat (length old).
Proof.
  intros Hrun.
  apply getMethodNames_returned in Hrun
    as (ids & old & bytes & offsets & Hids & Hn & Hold & Hroom & _).
  apply region_ok_spec in Hn, Hroom. exists ids, old. split_and!; (done || lia).
Qed.

Lemma getMethodNames_needs_room_witness :
  exists ret w' ids old,
    getMethodNamesForJMethodIds Sample.runtime Sample.string_addresses C.unbounded
      4 23%N 21%N Sample.encoder_world
    = C.Ok (ret, w')
    /\ Sample.java_heap !! 23%N = Some (LongArray ids)
    /\ Sample.java_heap !! 21%N = Some (IntArray old)
    /\ 4 <= Z.of_nat (length ids) /\ 16 <= Z.of_nat (length old).
Proof.
  destruct (getMethodNamesForJMethodIds Sample.runtime Sample.string_addresses C.unbounded
              4 23%N 21%N Sample.encoder_world) as [[ret w']|f] eqn:Hrun;
    [|vm_compute in Hrun; discriminate].
  destruct (getMethodNames_needs_room _ _ _ _ _ _ _ _ _ Hrun)
    as (ids & old & Hids & Hold & [_ Hn] & [_ Hroom]).
  exists ret, w', ids, old. repeat split; assumption.
Defined.

(** X16: whatever the allocator answers, a call that returns has
    written to two objects only: the byte array it returns, which is
    new and not [null], and the offset array. The array of identifiers
    and every other object of the heap are as they were. *)
Theorem getMethodNames_leaves_other_objects env strings grants nMethods jmethodIds
    packedArrayOffsets (w w' : world packed_store) ret :
  getMethodNamesForJMethodIds env strings grants nMethods jmethodIds packedArrayOffsets w
  = C.Ok (ret, w') ->
  heap w !! ret = None
  /\ ret <> null
  /\ (exists bytes, heap w' !! ret = Some (ByteArray bytes))
  /\ heap w' !! jmethodIds = heap w !! jmethodIds
  /\ forall r o, heap w !! r = Some o -> r <> packedArrayOffsets -> heap w' !! r = Some o.
Proof.
  intros Hrun.
  apply getMethodNames_returned in Hrun
    as (ids & old & bytes & offsets & Hids & _ & Hold & _ & -> & -> & _).
  assert (forall r o, heap w !! r = Some o -> r <> packedArrayOffsets ->
            <[packedArrayOffsets := IntArray (splice 0 offsets old)]>
              (<[fresh_ref (heap w) := ByteArray bytes]> (heap w)) !! r = Some o) as Hframe.
  { intros r o Hr Hne. rewrite !lookup_insert_ne; [done| |done].
    symmetry. by eapply fresh_ref_other. }
  split_and!.
  - apply fresh_ref_unused.
  - apply fresh_ref_not_null.
  - exists bytes. rewrite lookup_insert_ne by (by eapply fresh_ref_other).
    apply lookup_insert_eq.
  - rewrite Hids. apply Hframe; [done|]. intros ->. congruence.
  - done.
Qed.

Lemma getMethodNames_leaves_other_objects_witness :
  exists ret w',
    getMethodNamesForJMethodIds Sample.runtime Sample.string_addresses C.unbounded
      4 23%N 21%N Sample.encoder_world
    = C.Ok (ret, w')
    /\ heap w' !! 23%N = Some (LongArray [1; 13; 15; 2])
    /\ heap w' !! 22%N = Some (LongArray [9; 9; 9; 9; 9]).
Proof.
  destruct (getMethodNamesForJMethodIds Sample.runtime Sample.string_addresses C.unbounded
              4 23%N 21%N Sample.encoder_world) as [[ret w']|f] eqn:Hrun;
    [|vm_compute in Hrun; discriminate].
  exists ret, w'. split; [reflexivity|].
  destruct (getMethodNames_leaves_other_objects _ _ _ _ _ _ _ _ _ Hrun)
    as (_ & _ & _ & Hids & Hothers).
  split; [exact Hids|]. apply Hothers; [reflexivity|discriminate].
Defined.



Lemma GetLongArrayRegion_globals {G G'} array start len buf h t (g : G) (g' : G') :
  GetLongArrayRegion array start len buf (World g h t)
  = match GetLongArrayRegion array start len buf (World g' h t) with
    | C.Ok (p, s) => C.Ok (p, World g (heap s) (trace s))
    | C.Fault f => C.Fault f
    end.
Proof.
  unfold GetLongArrayRegion, C.bind at 1 3, C.get. cbn [heap].
  destruct (h !! array) as [[]|]; try done.
  destruct (region_ok _ _ _); [|done].
  unfold C.bind, log, C.modify, C.lift. cbn [globals heap trace].
  by destruct (C.write_cells _ _ _).
Qed.

(** X18: the five statics of the store are set before they are read.
    The result of a call, the Java heap and the statics it leaves do
    not depend on what the statics held on entry, so the freed pointers
    that one call leaves behind are never used by the next. *)
Theorem getMethodNames_ignores_stale_statics env strings grants nMethods jmethodIds
    packedArrayOffsets (g g' : packed_store) h t :
  getMethodNamesForJMethodIds env strings grants nMethods jmethodIds packedArrayOffsets
    (World g h t)
  = getMethodNamesForJMethodIds env strings grants nMethods jmethodIds packedArrayOffsets
      (World g' h t).
Proof.
  unfold Java_org_netbeans_lib_profiler_server_system_Stacks_getMethodNamesForJMethodIds.
  match goal with
  | |- C.bind ?m ?k ?w1 = C.bind _ _ ?w2 =>
      change (match m w1 with C.Ok (a, s) => k a s | C.Fault f => C.Fault f end
              = match m w2 with C.Ok (a, s) => k a s | C.Fault f => C.Fault f end)
  end.
  rewrite (GetLongArrayRegion_globals _ _ _ _ h t g g').
  destruct (GetLongArrayRegion _ _ _ _ (World g' h t)) as [[p s]|]; [|done].
  done.
Qed.
(** X26: one handle is enough to lose the batch. Whatever the
    allocator answers, a call does not return when one of the handles
    it is to resolve has a round that reads what is not there; the
    handles before it are resolved in vain. *)
Theorem getMethodNames_undefined_round_ends_the_call env strings grants nMethods
    jmethodIds packedArrayOffsets (w : world packed_store) ids k id :
  heap w !! jmethodIds = Some (LongArray ids) ->
  ids !! k = Some id -> Z.of_nat k < nMethods ->
  well_defined env (convert_jlong_to_jmethodID id) = false ->
  exists f,
    getMethodNamesForJMethodIds env strings grants nMethods jmethodIds packedArrayOffsets w
    = C.Fault f.
Proof.
  intros Hids Hk Hn Hid.
  destruct (getMethodNamesForJMethodIds env strings grants nMethods jmethodIds
              packedArrayOffsets w) as [[ret w']|f] eqn:Hrun; [|by eexists].
  apply getMethodNames_returned in Hrun
    as (ids' & _ & _ & _ & Hids' & _ & _ & _ & _ & _ & _ & _ & Hdefined).
  assert (ids' = ids) as -> by congruence.
  assert (handles (take (Z.to_nat nMethods) ids) !! k
          = Some (convert_jlong_to_jmethodID id)) as Hhandle.
  { unfold handles. rewrite list_lookup_fmap, lookup_take_lt by lia. by rewrite Hk. }
  apply (Forall_lookup_1 _ _ _ _ Hdefined) in Hhandle. congruence.
Qed.

Lemma getMethodNames_undefined_round_ends_the_call_witness :
  exists f,
    getMethodNamesForJMethodIds Sample.runtime Sample.string_addresses C.unbounded
      4 20%N 21%N Sample.encoder_world = C.Fault f.
Proof.
  apply (getMethodNames_undefined_round_ends_the_call Sample.runtime
           Sample.string_addresses C.unbounded 4 20%N 21%N Sample.encoder_world
           [1; 0; 15; 2] 1%nat 0).
  - reflexivity.
  - reflexivity.
  - reflexivity.
  - reflexivity.
Defined.
End encoder_runs.

(** ** The Java heap across a call *)

Section heap_frame.
Import JNI Heap.
Implicit Types (h : gmap N object) (written : jobject -> Prop).

Lemma untouched_refl h written : untouched h written h.
Proof. by split. Qed.

Lemma untouched_fresh h0 written h o :
  untouched h0 written h ->
  untouched h0 written (<[fresh_ref h := o]> h) /\ h0 !! fresh_ref h = None.
Proof.
  intros [Hdom Hsame].
  assert (h0 !! fresh_ref h = None) as Hnew.
  { destruct (h0 !! fresh_ref h) as [o'|] eqn:Ho; [|done].
    destruct (Hdom (fresh_ref h)) as [o'' Habs]; [by eexists|].
    by rewrite fresh_ref_unused in Habs. }
  split; [|done]. split.
  - intros r Hr. rewrite lookup_insert_is_Some'. right. by apply Hdom.
  - intros r o' Hr Hw. rewrite lookup_insert_ne; [by apply Hsame|].
    intros <-. congruence.
Qed.

Lemma untouched_written h0 written h a o :
  untouched h0 written h -> written a \/ h0 !! a = None ->
  untouched h0 written (<[a := o]> h).
Proof.
  intros [Hdom Hsame] Ha. split.
  - intros r Hr. rewrite lookup_insert_is_Some'. right. by apply Hdom.
  - intros r o' Hr Hw. rewrite lookup_insert_ne; [by apply Hsame|].
    intros <-. destruct Ha; [done|congruence].
Qed.

Lemma keeps_shapes_refl h : keeps_shapes h h.
Proof. by intros r sh. Qed.

Lemma keeps_shapes_trans h1 h2 h3 :
  keeps_shapes h1 h2 -> keeps_shapes h2 h3 -> keeps_shapes h1 h3.
Proof. intros H12 H23 r sh Hr. by apply H23, H12. Qed.

Lemma keeps_shapes_fresh h o : keeps_shapes h (<[fresh_ref h := o]> h).
Proof.
  intros r sh (o' & Hr & Hsh). exists o'. split; [|done].
  rewrite lookup_insert_ne; [done|]. symmetry. by eapply fresh_ref_other.
Qed.

Lemma keeps_shapes_same h a o o' :
  h !! a = Some o -> shape_of o' = shape_of o -> keeps_shapes h (<[a := o']> h).
Proof.
  intros Ha Hsh r sh (o'' & Hr & Hsh'').
  destruct (decide (a = r)) as [<-|Hne].
  - exists o'. rewrite lookup_insert_eq. split; [done|]. congruence.
  - exists o''. by rewrite lookup_insert_ne.
Qed.

Lemma has_shape_fresh h o : has_shape (<[fresh_ref h := o]> h) (fresh_ref h) (shape_of o).
Proof. exists o. by rewrite lookup_insert_eq. Qed.
End heap_frame.

(** JNI calls that are given what they need return, and no call
    changes the kind or the length of an object that exists. *)

Section jni_calls_return.
Import JNI Heap.
Context {G : Type}.
Implicit Types (w : world G).

Lemma NewObjectArray_returns len c init w :
  0 <= len ->
  exists r w',
    NewObjectArray len (Some c) init w = C.Ok (r, w')
    /\ globals w' = globals w
    /\ keeps_shapes (heap w) (heap w')
    /\ has_shape (heap w') r (Objects (Z.to_nat len)).
Proof.
  intros Hlen. eexists _, _. split.
  { apply NewObjectArray_Ok. by exists c. }
  unfold updated. cbn [globals heap]. split; [done|].
  split; [apply keeps_shapes_fresh|].
  rewrite <- (length_replicate (Z.to_nat len) init) at 2.
  apply (has_shape_fresh _ (ObjectArray c _)).
Qed.

Lemma NewIntArray_returns len w :
  0 <= len ->
  exists r w',
    NewIntArray len w = C.Ok (r, w')
    /\ globals w' = globals w
    /\ keeps_shapes (heap w) (heap w')
    /\ has_shape (heap w') r (Ints (Z.to_nat len)).
Proof.
  intros Hlen. eexists _, _. split.
  { by apply NewIntArray_Ok. }
  unfold updated. cbn [globals heap]. split; [done|].
  split; [apply keeps_shapes_fresh|].
  rewrite <- (length_replicate (Z.to_nat len) 0) at 2.
  apply (has_shape_fresh _ (IntArray _)).
Qed.

Lemma NewLongArray_returns len w :
  0 <= len ->
  exists r w',
    NewLongArray len w = C.Ok (r, w')
    /\ globals w' = globals w
    /\ keeps_shapes (heap w) (heap w')
    /\ has_shape (heap w') r (Longs (Z.to_nat len)).
Proof.
  intros Hlen. eexists _, _. split.
  { by apply NewLongArray_Ok. }
  unfold updated. cbn [globals heap]. split; [done|].
  split; [apply keeps_shapes_fresh|].
  rewrite <- (length_replicate (Z.to_nat len) 0) at 2.
  apply (has_shape_fresh _ (LongArray _)).
Qed.

Lemma SetObjectArrayElement_returns array index value w n :
  has_shape (heap w) array (Objects n) -> 0 <= index < Z.of_nat n ->
  exists w',
    SetObjectArrayElement array index value w = C.Ok (tt, w')
    /\ globals w' = globals w
    /\ keeps_shapes (heap w) (heap w').
Proof.
  intros (o & Ho & Hsh) Hi. destruct o as [|c elems| | |]; try done.
  injection Hsh as <-.
  eexists. split.
  { apply SetObjectArrayElement_Ok. by eexists c, elems. }
  unfold updated. cbn [globals heap]. split; [done|].
  eapply keeps_shapes_same; [done|]. simpl. by rewrite length_insert.
Qed.

Lemma splice_front_length {A} (vs old : list A) :
  (length vs <= length old)%nat -> length (splice 0 vs old) = length old.
Proof. intros H. rewrite splice_front, length_app, length_drop. lia. Qed.

Lemma read_written_values {A} (vs : list A) :
  C.read_values (C.Buf (Some <$> vs)) (Z.of_nat (length vs)) = C.Ok vs.
Proof.
  rewrite <- (app_nil_r (Some <$> vs)). by apply read_values_prefix.
Qed.

Lemma SetLongArrayRegion_returns array vs w n :
  has_shape (heap w) array (Longs n) -> (length vs <= n)%nat ->
  exists w',
    SetLongArrayRegion array 0 (Z.of_nat (length vs)) (C.Buf (Some <$> vs)) w
    = C.Ok (tt, w')
    /\ globals w' = globals w
    /\ keeps_shapes (heap w) (heap w').
Proof.
  intros (o & Ho & Hsh) Hlen. destruct o as [| | |elems|]; try done.
  injection Hsh as <-.
  eexists. split.
  { apply SetLongArrayRegion_Ok. eexists elems, vs.
    split_and!; [done|apply region_ok_spec; lia|apply read_written_values|done]. }
  unfold updated. cbn [globals heap]. split; [done|].
  eapply keeps_shapes_same; [done|]. simpl. by rewrite splice_front_length.
Qed.

Lemma SetIntArrayRegion_returns array vs w n :
  has_shape (heap w) array (Ints n) -> (length vs <= n)%nat ->
  exists w',
    SetIntArrayRegion array 0 (Z.of_nat (length vs)) (C.Buf (Some <$> vs)) w
    = C.Ok (tt, w')
    /\ globals w' = globals w
    /\ keeps_shapes (heap w) (heap w').
Proof.
  intros (o & Ho & Hsh) Hlen. destruct o as [| |elems| |]; try done.
  injection Hsh as <-.
  eexists. split.
  { apply SetIntArrayRegion_Ok. eexists elems, vs.
    split_and!; [done|apply region_ok_spec; lia|apply read_written_values|done]. }
  unfold updated. cbn [globals heap]. split; [done|].
  eapply keeps_shapes_same; [done|]. simpl. by rewrite splice_front_length.
Qed.
End jni_calls_return.

(** ** The snapshot at its edges *)

Section snapshot_runs.
Import JNI JVMTI Stacks Packed Snapshot Heap.
Implicit Types (w s : world class_cache) (h : gmap N object).

Lemma cache_class_returns cached name w :
  cache_class cached name w = C.Ok (Some (default name cached), w).
Proof. by destruct cached. Qed.

Lemma round_untouched conv infos jthreadArr methodIdArrArr grants h0 written
    ti state_buffer s state_buffer' s' :
  h0 !! jthreadArr = None -> h0 !! methodIdArrArr = None ->
  untouched h0 written (heap s) ->
  round conv infos jthreadArr methodIdArrArr grants ti state_buffer s
  = C.Ok (state_buffer', s') ->
  untouched h0 written (heap s') /\ globals s' = globals s.
Proof.
  intros HjT HmA Hs Hround. unfold round in Hround.
  apply bind_inv in Hround as (info & s0 & Helem & Hround).
  assert (s0 = s) as ->.
  { unfold element in Helem. destruct (ti <? 0); [done|].
    destruct (infos !! Z.to_nat ti); [|done]. by injection Helem as _ <-. }
  apply bind_inv in Hround as ([] & s1 & Hset1 & Hround).
  apply SetObjectArrayElement_Ok in Hset1 as (c1 & e1 & _ & _ & [= ->]).
  apply bind_inv in Hround as (sb1 & s1' & Hstore & Hround).
  apply lift_inv in Hstore as [_ ->].
  apply bind_inv in Hround as (r & s2 & Hnew & Hround).
  apply NewLongArray_Ok in Hnew as (_ & [= -> ->]).
  apply bind_inv in Hround as ([] & s3 & Hset2 & Hround).
  apply SetObjectArrayElement_Ok in Hset2 as (c2 & e2 & _ & _ & [= ->]).
  apply bind_inv in Hround as (idb & s3' & Hloop & Hround).
  unfold C.for_loop in Hloop. rewrite Z.sub_0_r in Hloop.
  apply identifier_loop in Hloop as (-> & _ & _).
  apply bind_inv in Hround as ([] & s4 & Hset3 & Hround).
  apply SetLongArrayRegion_Ok in Hset3 as (old & vs & _ & _ & _ & [= ->]).
  apply bind_inv in Hround as (freed & s5 & Hfree & Hround).
  apply lift_inv in Hfree as [_ ->].
  unfold C.pure in Hround. injection Hround as _ <-.
  split; [|done]. unfold updated. cbn [heap].
  apply (untouched_written _ _ _ jthreadArr (ObjectArray c1 (<[Z.to_nat ti := thread info]> e1)))
    in Hs; [|by right].
  destruct (untouched_fresh _ _ _ (LongArray (replicate (Z.to_nat (frame_count info)) 0)) Hs)
    as [Hs1 Hr].
  apply untouched_written; [|by right].
  apply untouched_written; [|by right].
  done.
Qed.

(** What a run of [getAllStackTraces] that came to its end after a
    successful capture has left of the statics and of the objects that
    were there before, whatever it was given. *)
Lemma getAllStackTraces_returned env grants conv threads states frames w w'
    mem infos n :
  GetAllStackTraces env MAX_FRAMES = (JVMTI_ERROR_NONE, (mem, infos, n)) ->
  getAllStackTraces env grants conv threads states frames w = C.Ok (tt, w') ->
  globals w' = ClassCache (Some (default "java/lang/Thread"%string (threadType (globals w))))
                 (Some (default "[J"%string (longArrType (globals w))))
  /\ untouched (heap w) (fun r => r = threads \/ r = states \/ r = frames) (heap w')
  /\ Deallocate env mem = JVMTI_ERROR_NONE.
Proof.
  intros Hcap Hrun.
  unfold Java_org_netbeans_lib_profiler_server_system_Stacks_getAllStackTraces in Hrun.
  unfold C.bind at 1, log at 1, C.modify at 1 in Hrun. rewrite Hcap in Hrun.
  cbn [succeeded negb Z.eqb JVMTI_ERROR_NONE] in Hrun.
  set (written := fun r => r = threads \/ r = states \/ r = frames).
  pose proof (untouched_refl (heap w) written) as Hh.
  (* the two classes *)
  unfold C.bind at 1, read_globals at 1, C.gets at 1 in Hrun. cbn [globals] in Hrun.
  rewrite (bind_ok _ _ _ _ _ (cache_class_returns _ _ _)) in Hrun.
  unfold C.bind at 1, write_globals at 1, C.modify at 1 in Hrun. cbn [heap trace] in Hrun.
  unfold C.bind at 1, read_globals at 1, C.gets at 1 in Hrun. cbn [globals] in Hrun.
  rewrite (bind_ok _ _ _ _ _ (cache_class_returns _ _ _)) in Hrun.
  unfold C.bind at 1, write_globals at 1, C.modify at 1 in Hrun.
  cbn [globals heap trace] in Hrun.
  unfold C.bind at 1, read_globals at 1, C.gets at 1 in Hrun.
  cbn [globals threadType longArrType] in Hrun.
  set (g := ClassCache _ _) in *.
  (* the three arrays and their holders *)
  apply bind_inv in Hrun as (jthreadArr & s & Hnew & Hrun).
  apply NewObjectArray_Ok in Hnew as (cT & _ & _ & [= -> ->]).
  unfold updated in Hrun at 1. cbn [globals heap trace] in Hrun.
  destruct (untouched_fresh _ _ _ (ObjectArray cT (replicate (Z.to_nat n) null)) Hh)
    as [Hh1 HjT].
  clear Hh. set (jthreadArr := fresh_ref (heap w)) in *.
  apply bind_inv in Hrun as ([] & s & Hset & Hrun).
  apply SetObjectArrayElement_Ok in Hset as (c1 & e1 & _ & _ & [= ->]).
  unfold updated in Hrun at 1. cbn [globals heap trace] in Hrun.
  apply (untouched_written _ _ _ threads (ObjectArray c1 (<[Z.to_nat 0 := jthreadArr]> e1)))
    in Hh1; [|left; by left].
  set (h2 := <[threads := _]> _) in *. clearbody h2.
  apply bind_inv in Hrun as (statesArr & s & Hnew & Hrun).
  apply NewIntArray_Ok in Hnew as (_ & [= -> ->]).
  unfold updated in Hrun at 1. cbn [globals heap trace] in Hrun.
  destruct (untouched_fresh _ _ _ (IntArray (replicate (Z.to_nat n) 0)) Hh1) as [Hh3 HsA].
  clear Hh1. set (statesArr := fresh_ref h2) in *. clearbody statesArr.
  apply bind_inv in Hrun as ([] & s & Hset & Hrun).
  apply SetObjectArrayElement_Ok in Hset as (c2 & e2 & _ & _ & [= ->]).
  unfold updated in Hrun at 1. cbn [globals heap trace] in Hrun.
  apply (untouched_written _ _ _ states (ObjectArray c2 (<[Z.to_nat 0 := statesArr]> e2)))
    in Hh3; [|left; right; by left].
  set (h4 := <[states := _]> _) in *. clearbody h4. clear h2.
  apply bind_inv in Hrun as (methodIdArrArr & s & Hnew & Hrun).
  apply NewObjectArray_Ok in Hnew as (cL & _ & _ & [= -> ->]).
  unfold updated in Hrun at 1. cbn [globals heap trace] in Hrun.
  destruct (untouched_fresh _ _ _ (ObjectArray cL (replicate (Z.to_nat n) null)) Hh3)
    as [Hh5 HmA].
  clear Hh3. set (methodIdArrArr := fresh_ref h4) in *. clearbody methodIdArrArr.
  apply bind_inv in Hrun as ([] & s & Hset & Hrun).
  apply SetObjectArrayElement_Ok in Hset as (c3 & e3 & _ & _ & [= ->]).
  unfold updated in Hrun at 1. cbn [globals heap trace] in Hrun.
  apply (untouched_written _ _ _ frames
           (ObjectArray c3 (<[Z.to_nat 0 := methodIdArrArr]> e3)))
    in Hh5; [|left; right; by right].
  set (h6 := <[frames := _]> _) in *. clearbody h6. clear h4.
  (* the loop over the threads *)
  apply bind_inv in Hrun as (state_buffer & s7 & Hloop & Hrun).
  unfold C.for_loop in Hloop.
  match type of Hloop with
  | C.for_steps ?k ?lo ?init _ ?s0 = _ =>
      change (C.for_steps k lo init (round conv infos jthreadArr methodIdArrArr grants) s0
              = C.Ok (state_buffer, s7)) in Hloop
  end.
  apply (for_steps_inv
           (fun _ _ s => untouched (heap w) written (heap s) /\ globals s = g)) in Hloop.
  2:{ done. }
  2:{ intros k acc s acc' s' _ [Hs Hg] Hbody.
      eapply round_untouched in Hbody as [? ?]; [|done..]. split; congruence. }
  destruct Hloop as [Hh7 Hg7].
  (* the states, the release and the end *)
  apply bind_inv in Hrun as ([] & s8 & Hset & Hrun).
  apply SetIntArrayRegion_Ok in Hset as (old & codes & _ & _ & _ & [= ->]).
  unfold C.bind at 1, log at 1, C.modify at 1 in Hrun.
  destruct (succeeded (Deallocate env mem)) eqn:Hrelease; [|done].
  apply succeeded_spec in Hrelease.
  cbn [negb] in Hrun.
  apply bind_inv in Hrun as (freed & s9 & Hfree & Hrun).
  apply lift_inv in Hfree as [_ ->].
  unfold C.pure in Hrun. injection Hrun as <-.
  unfold updated. cbn [globals heap trace].
  split; [done|]. split; [|done].
  apply untouched_written; [done|by right].
Qed.

(** X19: the two class references are looked up once. After a run
    that came to its end both statics are set; a reference that was
    cached before the call is the one that is kept. *)
Theorem getAllStackTraces_fills_the_class_cache env grants conv threads states frames
    w w' mem infos n :
  GetAllStackTraces env MAX_FRAMES = (JVMTI_ERROR_NONE, (mem, infos, n)) ->
  getAllStackTraces env grants conv threads states frames w = C.Ok (tt, w') ->
  threadType (globals w')
  = Some (default "java/lang/Thread"%string (threadType (globals w)))
  /\ longArrType (globals w')
     = Some (default "[J"%string (longArrType (globals w))).
Proof.
  intros Hcap Hrun.
  destruct (getAllStackTraces_returned _ _ _ _ _ _ _ _ _ _ _ Hcap Hrun) as (-> & _).
  done.
Qed.

Lemma getAllStackTraces_fills_the_class_cache_witness :
  exists w',
    getAllStackTraces Sample.runtime C.unbounded Sample.status_of 31%N 32%N 33%N
      (World (ClassCache (Some "cached"%string) None) Sample.java_heap [])
    = C.Ok (tt, w')
    /\ threadType (globals w') = Some "cached"%string
    /\ longArrType (globals w') = Some "[J"%string.
Proof.
  destruct (getAllStackTraces Sample.runtime C.unbounded Sample.status_of 31%N 32%N 33%N
              (World (ClassCache (Some "cached"%string) None) Sample.java_heap []))
    as [[[] w']|f] eqn:Hrun; [|vm_compute in Hrun; discriminate].
  exists w'. split; [reflexivity|].
  apply (getAllStackTraces_fills_the_class_cache Sample.runtime C.unbounded
           Sample.status_of 31%N 32%N 33%N
           (World (ClassCache (Some "cached"%string) None) Sample.java_heap []) w' 4096
           [StackInfo 7%N 5 (take 2 Sample.stack7) 2; StackInfo 9%N 1 [] 0] 2).
  - reflexivity.
  - exact Hrun.
Defined.

(** X20: whatever the allocator answers and whatever the three
    holders are, a run that came to its end has removed no object, and
    has changed no object that existed before the call other than the
    three holders: all its other writes go to arrays it has created. *)
Theorem getAllStackTraces_leaves_other_objects env grants conv threads states frames
    w w' mem infos n :
  GetAllStackTraces env MAX_FRAMES = (JVMTI_ERROR_NONE, (mem, infos, n)) ->
  getAllStackTraces env grants conv threads states frames w = C.Ok (tt, w') ->
  forall r o,
    heap w !! r = Some o ->
    is_Some (heap w' !! r)
    /\ (r <> threads -> r <> states -> r <> frames -> heap w' !! r = Some o).
Proof.
  intros Hcap Hrun r o Hr.
  destruct (getAllStackTraces_returned _ _ _ _ _ _ _ _ _ _ _ Hcap Hrun)
    as (_ & [Hdom Hsame] & _).
  split; [apply Hdom; by eexists|].
  intros Ht Hs Hf. apply Hsame; [done|]. intros [?|[?|?]]; done.
Qed.

Lemma getAllStackTraces_leaves_other_objects_witness :
  exists w',
    getAllStackTraces Sample.runtime C.unbounded Sample.status_of 31%N 32%N 33%N
      Sample.snapshot_world = C.Ok (tt, w')
    /\ heap w' !! 20%N = Some (LongArray [1; 0; 15; 2])
    /\ heap w' !! 7%N = Some (Instance "java/lang/Thread").
Proof.
  destruct (getAllStackTraces Sample.runtime C.unbounded Sample.status_of 31%N 32%N 33%N
              Sample.snapshot_world) as [[[] w']|f] eqn:Hrun;
    [|vm_compute in Hrun; discriminate].
  exists w'. split; [reflexivity|].
  pose proof (getAllStackTraces_leaves_other_objects Sample.runtime C.unbounded
                Sample.status_of 31%N 32%N 33%N Sample.snapshot_world w' 4096
                [StackInfo 7%N 5 (take 2 Sample.stack7) 2; StackInfo 9%N 1 [] 0] 2
                eq_refl Hrun) as Hkept.
  split.
  - apply (Hkept 20%N); [reflexivity|discriminate..].
  - apply (Hkept 7%N); [reflexivity|discriminate..].
Defined.

(** X21: the release of the snapshot is asserted to succeed. With a
    runtime that refuses it, no run whose capture succeeded returns
    normally. *)
Theorem getAllStackTraces_refused_release env grants conv threads states frames
    w mem infos n :
  GetAllStackTraces env MAX_FRAMES = (JVMTI_ERROR_NONE, (mem, infos, n)) ->
  Deallocate env mem <> JVMTI_ERROR_NONE ->
  exists f, getAllStackTraces env grants conv threads states frames w = C.Fault f.
Proof.
  intros Hcap Hrelease.
  destruct (getAllStackTraces env grants conv threads states frames w)
    as [[[] w']|f] eqn:Hrun; [|by exists f].
  destruct (getAllStackTraces_returned _ _ _ _ _ _ _ _ _ _ _ Hcap Hrun) as (_ & _ & ?).
  done.
Qed.

Lemma getAllStackTraces_refused_release_witness :
  exists f,
    getAllStackTraces Sample.stubborn_runtime C.unbounded Sample.status_of 31%N 32%N 33%N
      Sample.snapshot_world = C.Fault f.
Proof.
  apply (getAllStackTraces_refused_release Sample.stubborn_runtime C.unbounded
           Sample.status_of 31%N 32%N 33%N Sample.snapshot_world 4096
           [StackInfo 7%N 5 (take 2 Sample.stack7) 2; StackInfo 9%N 1 [] 0] 2).
  - reflexivity.
  - vm_compute. discriminate.
Defined.

Lemma element_returns {S A} (p : list A) k a (s : S) :
  p !! k = Some a -> element p (0 + Z.of_nat k) s = C.Ok (a, s).
Proof.
  intros Hk. unfold element. rewrite Z.add_0_l.
  destruct (Z.ltb_spec (Z.of_nat k) 0); [lia|]. by rewrite Nat2Z.id, Hk.
Qed.

Lemma store_written {A} (vs : list A) k v :
  (k < length vs)%nat ->
  C.store (C.Buf (Some <$> vs)) (0 + Z.of_nat k) v = C.Ok (C.Buf (Some <$> <[k := v]> vs)).
Proof.
  intros Hk. rewrite store_in_range by (rewrite length_fmap; lia).
  by rewrite Z.add_0_l, Nat2Z.id, list_fmap_insert.
Qed.

(** The inner loop fills the identifier buffer without a fault when
    the thread has as many frames as it is said to have. *)
Lemma identifier_loop_returns {S} (frames : list jvmtiFrameInfo) n vals (s : S) :
  (n <= length frames)%nat -> length vals = n ->
  exists vals',
    C.for_steps n 0 (C.Buf (Some <$> vals))
      (fun fi id_buffer =>
         do frame <- element frames fi;
         C.lift (C.store id_buffer fi (convert_jmethodID_to_jlong (method frame)))) s
    = C.Ok (C.Buf (Some <$> vals'), s)
    /\ length vals' = n.
Proof.
  intros Hframes Hvals.
  edestruct (for_steps_total
    (fun (k : nat) (acc : C.ptr Z) (t : S) =>
       t = s /\ exists vals', acc = C.Buf (Some <$> vals') /\ length vals' = n))
    as (acc & s' & Hrun & -> & vals' & -> & Hlen); [| |by exists vals'].
  - split; [done|]. by exists vals.
  - intros k acc t Hk (-> & vals' & -> & Hlen).
    destruct (lookup_lt_is_Some_2 frames k) as [frame Hframe]; [lia|].
    rewrite (bind_ok _ _ _ _ _ (element_returns _ _ _ _ Hframe)).
    rewrite store_written by lia.
    eexists _, _. split; [done|]. split; [done|].
    eexists. split; [done|]. by rewrite length_insert.
Qed.

(** One round of the loop over the threads returns when the two
    arrays it writes to have room for the thread and the thread has as
    many frames as it is said to have. *)
Lemma round_returns conv infos jthreadArr methodIdArrArr n k info vals s :
  infos !! k = Some info -> (k < n)%nat ->
  0 <= frame_count info <= C.INT_MAX ->
  (Z.to_nat (frame_count info) <= length (frame_buffer info))%nat ->
  has_shape (heap s) jthreadArr (Objects n) ->
  has_shape (heap s) methodIdArrArr (Objects n) ->
  length vals = n ->
  exists vals' s',
    round conv infos jthreadArr methodIdArrArr C.unbounded (0 + Z.of_nat k)
      (C.Buf (Some <$> vals)) s
    = C.Ok (C.Buf (Some <$> vals'), s')
    /\ length vals' = n
    /\ keeps_shapes (heap s) (heap s').
Proof.
  intros Hinfo Hk Hcount Hframes HjT HmA Hvals. unfold round.
  rewrite (bind_ok _ _ _ _ _ (element_returns _ _ _ _ Hinfo)).
  destruct (SetObjectArrayElement_returns jthreadArr (0 + Z.of_nat k) (thread info) s n)
    as (s1 & Hset1 & _ & Hk1); [done|lia|].
  rewrite (bind_ok _ _ _ _ _ Hset1).
  rewrite store_written by lia.
  erewrite bind_ok; [|reflexivity].
  destruct (NewLongArray_returns (frame_count info) s1) as (r & s2 & Hnew & _ & Hk2 & Hr);
    [lia|].
  rewrite (bind_ok _ _ _ _ _ Hnew).
  destruct (SetObjectArrayElement_returns methodIdArrArr (0 + Z.of_nat k) r s2 n)
    as (s3 & Hset2 & _ & Hk3); [by apply Hk2, Hk1|lia|].
  rewrite (bind_ok _ _ _ _ _ Hset2).
  rewrite calloc_unbounded by (done || unfold sizeof_jlong; lia).
  unfold C.for_loop. rewrite Z.sub_0_r.
  destruct (identifier_loop_returns (frame_buffer info) (Z.to_nat (frame_count info))
              (replicate (Z.to_nat (frame_count info)) 0) s3)
    as (ids & Hloop & Hids); [done|by rewrite length_replicate|].
  rewrite (bind_ok _ _ _ _ _ Hloop).
  destruct (SetLongArrayRegion_returns r ids s3 (Z.to_nat (frame_count info)))
    as (s4 & Hset3 & _ & Hk4); [by apply Hk3|lia|].
  rewrite Hids, Z2Nat.id in Hset3 by lia.
  rewrite (bind_ok _ _ _ _ _ Hset3).
  erewrite bind_ok; [|reflexivity].
  eexists _, s4. split; [done|]. split; [by rewrite length_insert|].
  repeat (eapply keeps_shapes_trans; [eassumption|]). apply keeps_shapes_refl.
Qed.

(** X22: a capture of [n] threads, each with as many frames as it is
    said to have, three holders with a slot 0, memory for the buffers
    and a runtime that takes its memory back: then the call returns. *)
Theorem getAllStackTraces_returns env conv threads states frames w mem infos n :
  GetAllStackTraces env MAX_FRAMES = (JVMTI_ERROR_NONE, (mem, infos, n)) ->
  Deallocate env mem = JVMTI_ERROR_NONE ->
  0 <= n <= C.INT_MAX ->
  (Z.to_nat n <= length infos)%nat ->
  Forall (fun info => 0 <= frame_count info <= C.INT_MAX
                      /\ (Z.to_nat (frame_count info) <= length (frame_buffer info))%nat)
    (take (Z.to_nat n) infos) ->
  holder (heap w) threads -> holder (heap w) states -> holder (heap w) frames ->
  exists w',
    getAllStackTraces env C.unbounded conv threads states frames w = C.Ok (tt, w').
Proof.
  intros Hcap Hrelease Hn Hinfos Hcounts [n1 Hthreads] [n2 Hstates] [n3 Hframes].
  unfold Java_org_netbeans_lib_profiler_server_system_Stacks_getAllStackTraces.
  erewrite bind_ok; [|reflexivity]. rewrite Hcap.
  cbn [succeeded negb Z.eqb JVMTI_ERROR_NONE].
  (* the two classes *)
  erewrite bind_ok; [|reflexivity].
  rewrite (bind_ok _ _ _ _ _ (cache_class_returns _ _ _)).
  erewrite bind_ok; [|reflexivity].
  erewrite bind_ok; [|reflexivity].
  rewrite (bind_ok _ _ _ _ _ (cache_class_returns _ _ _)).
  erewrite bind_ok; [|reflexivity].
  erewrite bind_ok; [|reflexivity].
  cbn [globals heap trace threadType longArrType].
  (* the three arrays and their holders *)
  match goal with |- context [C.bind (NewObjectArray n (Some ?c) null) _ ?s0] =>
    destruct (NewObjectArray_returns n c null s0) as (jthreadArr & s1 & Hnew & _ & Hk1 & HjT);
      [lia|]
  end.
  rewrite (bind_ok _ _ _ _ _ Hnew). clear Hnew. cbn [heap] in Hk1.
  apply Hk1 in Hthreads, Hstates, Hframes.
  destruct (SetObjectArrayElement_returns threads 0 jthreadArr s1 (S n1))
    as (s2 & Hset & _ & Hk2); [done|lia|].
  rewrite (bind_ok _ _ _ _ _ Hset). clear Hset.
  apply Hk2 in HjT, Hstates, Hframes.
  destruct (NewIntArray_returns n s2) as (statesArr & s3 & Hnew & _ & Hk3 & HsA); [lia|].
  rewrite (bind_ok _ _ _ _ _ Hnew). clear Hnew.
  apply Hk3 in HjT, Hstates, Hframes.
  destruct (SetObjectArrayElement_returns states 0 statesArr s3 (S n2))
    as (s4 & Hset & _ & Hk4); [done|lia|].
  rewrite (bind_ok _ _ _ _ _ Hset). clear Hset.
  apply Hk4 in HjT, HsA, Hframes.
  match goal with |- context [C.bind (NewObjectArray n (Some ?c) null) _ s4] =>
    destruct (NewObjectArray_returns n c null s4)
      as (methodIdArrArr & s5 & Hnew & _ & Hk5 & HmA); [lia|]
  end.
  rewrite (bind_ok _ _ _ _ _ Hnew). clear Hnew.
  apply Hk5 in HjT, HsA, Hframes.
  destruct (SetObjectArrayElement_returns frames 0 methodIdArrArr s5 (S n3))
    as (s6 & Hset & _ & Hk6); [done|lia|].
  rewrite (bind_ok _ _ _ _ _ Hset). clear Hset.
  apply Hk6 in HjT, HsA, HmA.
  (* the loop over the threads *)
  rewrite calloc_unbounded by (done || unfold sizeof_jint; lia).
  unfold C.for_loop. rewrite Z.sub_0_r.
  match goal with
  | |- context [C.for_steps ?k ?lo ?init ?body] =>
      change (C.for_steps k lo init body)
        with (C.for_steps k lo init
                (round conv infos jthreadArr methodIdArrArr C.unbounded))
  end.
  edestruct (for_steps_total
    (fun (k : nat) (acc : C.ptr Z) (s : world class_cache) =>
       keeps_shapes (heap s6) (heap s)
       /\ exists vals, acc = C.Buf (Some <$> vals) /\ length vals = Z.to_nat n))
    as (acc & s7 & Hloop & Hk7 & codes & -> & Hcodes);
    [| |rewrite (bind_ok _ _ _ _ _ Hloop)].
  { split; [apply keeps_shapes_refl|]. eexists. split; [done|]. by rewrite length_replicate. }
  { intros k acc s Hk (Hks & vals & -> & Hvals).
    destruct (lookup_lt_is_Some_2 infos k) as [info Hinfo]; [lia|].
    assert (take (Z.to_nat n) infos !! k = Some info) as Htake
      by (by rewrite lookup_take_lt).
    destruct (proj1 (Forall_lookup _ _) Hcounts k info Htake) as [Hfc Hfb].
    destruct (round_returns conv infos jthreadArr methodIdArrArr (Z.to_nat n) k info vals s)
      as (vals' & s' & Hround & Hvals' & Hks'); [done|done|done|done|by apply Hks..|done|].
    exists (C.Buf (Some <$> vals')), s'. split; [done|].
    split; [by eapply keeps_shapes_trans|]. by exists vals'. }
  clear Hloop.
  (* the states, the release and the end *)
  destruct (SetIntArrayRegion_returns statesArr codes s7 (Z.to_nat n))
    as (s8 & Hset & _ & _); [by apply Hk7|lia|].
  rewrite Hcodes, Z2Nat.id in Hset by lia.
  rewrite (bind_ok _ _ _ _ _ Hset).
  erewrite bind_ok; [|reflexivity].
  rewrite Hrelease. cbn [succeeded negb Z.eqb JVMTI_ERROR_NONE].
  erewrite bind_ok; [|reflexivity].
  by eexists.
Qed.

Lemma getAllStackTraces_returns_witness :
  exists w',
    getAllStackTraces Sample.runtime C.unbounded Sample.status_of 31%N 32%N 33%N
      Sample.snapshot_world = C.Ok (tt, w').
Proof.
  apply (getAllStackTraces_returns Sample.runtime Sample.status_of 31%N 32%N 33%N
           Sample.snapshot_world 4096
           [StackInfo 7%N 5 (take 2 Sample.stack7) 2; StackInfo 9%N 1 [] 0] 2).
  - reflexivity.
  - reflexivity.
  - vm_compute. split; discriminate.
  - vm_compute. lia.
  - repeat constructor; vm_compute; (discriminate || lia).
  - exists 0%nat. eexists. split; [reflexivity|reflexivity].
  - exists 0%nat. eexists. split; [reflexivity|reflexivity].
  - exists 0%nat. eexists. split; [reflexivity|reflexivity].
Defined.
End snapshot_runs.

(** ** The strings of the runtime *)

Section releases.
Import JNI JVMTI Stacks Packed Snapshot.

(** X23: for a handle whose lookups succeed, the round gives the
    three strings it has copied back to the runtime, each once and
    after the last lookup, and with them the two generic signatures
    when they exist. The releases leave the store as the four copies
    left it, and the Java heap as it was. *)
Theorem resolve_method_and_release_gives_strings_back env strings grants m
    (w w' : world packed_store) c className methodName methodSig native :
  resolve env m = Resolved c className methodName methodSig native ->
  resolve_method_and_release env strings grants m w = C.Ok (tt, w') ->
  trace w'
  = trace w
      ++ [JvmtiGetMethodDeclaringClass m; JvmtiGetClassSignature c;
          JvmtiGetMethodName m; JvmtiIsMethodNative m]
      ++ [JvmtiDeallocate (className_at strings c)]
      ++ release_of (genericSignature_at strings c)
      ++ [JvmtiDeallocate (methodName_at strings m);
          JvmtiDeallocate (methodSig_at strings m)]
      ++ release_of (genericMethodSig_at strings m)
  /\ (copy_class_name grants (C.literal className);;
      copy_into_data_array grants (C.literal methodName);;
      copy_into_data_array grants (C.literal methodSig);;
      copy_into_data_array grants
        (if default JNI_FALSE native then C.literal "1" else C.literal "0")) (globals w)
     = C.Ok (tt, globals w')
  /\ heap w' = heap w.
Proof.
  intros Hres Hrun.
  apply round_returned in Hrun as (_ & Hcopies & Hheap & Htrace).
  unfold appends_of in Hcopies. unfold calls_of, lookups_of, releases_of in Htrace.
  rewrite Hres in Hcopies, Htrace. by rewrite Htrace.
Qed.

Lemma resolve_method_and_release_gives_strings_back_witness :
  exists w',
    resolve_method_and_release Sample.runtime Sample.string_addresses C.unbounded 16
      (World (fresh_store 40 4) Sample.java_heap []) = C.Ok (tt, w')
    /\ trace w'
       = [JvmtiGetMethodDeclaringClass 16; JvmtiGetClassSignature 1016%N;
          JvmtiGetMethodName 16; JvmtiIsMethodNative 16;
          JvmtiDeallocate 6016; JvmtiDeallocate 7064; JvmtiDeallocate 7065;
          JvmtiDeallocate 7066].
Proof.
  destruct (resolve_method_and_release Sample.runtime Sample.string_addresses C.unbounded 16
              (World (fresh_store 40 4) Sample.java_heap [])) as [[[] w']|f] eqn:Hrun;
    [|vm_compute in Hrun; discriminate].
  exists w'. split; [reflexivity|].
  destruct (resolve_method_and_release_gives_strings_back Sample.runtime
              Sample.string_addresses C.unbounded 16 _ w' 1016%N
              "Lcom/example/Foo;" "run" "()V" (Some true) eq_refl Hrun) as [Htrace _].
  exact Htrace.
Defined.

(** X24: a handle whose class signature was handed out and whose
    method-name lookup then fails takes the [continue] of line 237,
    past the releases: the round ends after the three lookups without a
    single [Deallocate], and the two strings of the class signature
    stay with the native code. *)
Theorem failed_method_name_keeps_the_class_signature env strings grants m
    (w w' : world packed_store) c className err names :
  GetMethodDeclaringClass env m = (JVMTI_ERROR_NONE, c) ->
  c <> null -> peek_int env c <> 0 ->
  GetClassSignature env c = (JVMTI_ERROR_NONE, className) ->
  GetMethodName env m = (err, names) -> err <> JVMTI_ERROR_NONE ->
  resolve_method_and_release env strings grants m w = C.Ok (tt, w') ->
  trace w'
  = trace w ++ [JvmtiGetMethodDeclaringClass m; JvmtiGetClassSignature c;
                JvmtiGetMethodName m]
  /\ Forall not_release (drop (length (trace w)) (trace w')).
Proof.
  intros Hclass Hc Hpeek Hsig Hname Herr Hrun.
  assert (resolve env m = NoMethodName c className) as Hres.
  { unfold resolve. rewrite Hclass. cbn [succeeded JVMTI_ERROR_NONE Z.eqb negb orb].
    rewrite (proj2 (N.eqb_neq _ _) Hc), (proj2 (Z.eqb_neq _ _) Hpeek). cbn [orb].
    rewrite Hsig. cbn [succeeded JVMTI_ERROR_NONE Z.eqb negb].
    rewrite Hname. destruct names as [methodName methodSig].
    by rewrite (succeeded_false _ Herr). }
  apply round_returned in Hrun as (_ & _ & _ & ->).
  unfold calls_of, lookups_of, releases_of. rewrite Hres, app_nil_r. split; [done|].
  rewrite drop_app_length. repeat constructor; intros mem; done.
Qed.

Lemma failed_method_name_keeps_the_class_signature_witness :
  exists w',
    resolve_method_and_release Sample.runtime Sample.string_addresses C.unbounded 14
      (World (fresh_store 40 4) Sample.java_heap []) = C.Ok (tt, w')
    /\ trace w'
       = [JvmtiGetMethodDeclaringClass 14; JvmtiGetClassSignature 1014%N;
          JvmtiGetMethodName 14].
Proof.
  destruct (resolve_method_and_release Sample.runtime Sample.string_addresses C.unbounded 14
              (World (fresh_store 40 4) Sample.java_heap [])) as [[[] w']|f] eqn:Hrun;
    [|vm_compute in Hrun; discriminate].
  exists w'. split; [reflexivity|].
  destruct (failed_method_name_keeps_the_class_signature Sample.runtime
              Sample.string_addresses C.unbounded 14
              (World (fresh_store 40 4) Sample.java_heap []) w' 1014%N "Lcom/example/Foo;"
              Sample.JVMTI_ERROR_INVALID_METHODID (""%string, ""%string))
    as [Htrace _].
  - reflexivity.
  - discriminate.
  - vm_compute. discriminate.
  - reflexivity.
  - reflexivity.
  - vm_compute. discriminate.
  - exact Hrun.
  - exact Htrace.
Defined.
(** X25: a declaring class lookup that reports an error leads into
    the warning of lines 208 to 215, which reads what is not there:
    [*(int* )methodID] through a handle that is [NULL] or not the
    address of readable memory, or else the [declaringClass] that the
    lookup has not assigned. The round does not come to its end, and no
    placeholder is appended. *)
Theorem failed_declaring_class_lookup_is_undefined env strings grants m
    (w : world packed_store) err c :
  GetMethodDeclaringClass env m = (err, c) -> err <> JVMTI_ERROR_NONE ->
  resolve_method_and_release env strings grants m w
  = C.Fault (if m =? 0 then C.NullDereference
             else match peek_method env m with
                  | Some _ => C.UninitialisedRead
                  | None => C.OutOfBounds
                  end).
Proof.
  intros Hclass Herr. unfold resolve_method_and_release.
  rewrite bind_log, Hclass, (succeeded_false _ Herr). cbn [negb orb].
  unfold method_word. destruct (m =? 0); [done|].
  by destruct (peek_method env m).
Qed.

Lemma failed_declaring_class_lookup_is_undefined_witness :
  resolve_method_and_release Sample.runtime Sample.string_addresses C.unbounded 0
    (World (fresh_store 40 4) Sample.java_heap []) = C.Fault C.NullDereference.
Proof.
  apply (failed_declaring_class_lookup_is_undefined Sample.runtime Sample.string_addresses
           C.unbounded 0 _ Sample.JVMTI_ERROR_INVALID_METHODID null).
  - reflexivity.
  - vm_compute. discriminate.
Defined.
End releases.
